(** * ChatGptViewProvider: the request lifecycle of the side-panel provider

    A shallow embedding of [src/chatgpt-view-provider-zh.ts].

    - The class is the record [ChatGptViewProvider], one field per member;
      [this.f = v] is [set_f v].
    - A method is a function on a [World]: the provider object, the abort
      signals allocated so far (an [AbortController] is shared between the
      provider and the client it was handed to, so aborting is a write to a
      store, not to a copy) and the trace of the calls made on the
      surroundings (webview, window, commands, console, API client).
    - What the surroundings decide is an argument: the settings and the key
      store ([Host]), the identifier [getRandomId()] draws, the result or the
      error of a client call, the partial texts of the progress callbacks.
    - [sendApiRequest] is asynchronous.  It is cut where it waits:
      [sendApiRequest_enter] runs to the wait on [prepareConversation],
      [sendApiRequest_resume] from there to the client call, [onProgress] is
      a progress callback, [sendApiRequest_fulfilled],
      [sendApiRequest_rejected] and [sendApiRequest_rejected_nullish] are the
      ways the client call ends.  Between them other steps may run
      ([stopGenerating], [resolveWebviewView], another [sendApiRequest]).
      [sendApiRequest] itself is a call whose first wait nothing uses: the
      resumption follows the suspension directly.
    - The two client libraries are not part of the file; they appear only
      through the handles the provider keeps and the values they hand back.
    - The handler of the webview's messages is [onDidReceiveMessage]; an
      [Operation] is anything that can happen to a constructed provider, and
      [performAll] runs a sequence of them. *)

From Stdlib Require Import String Ascii List Bool Arith Lia NArith DecimalString.
Import ListNotations.
Open Scope string_scope.

(** ** JavaScript string primitives used by the provider *)

(** Strings are sequences of bytes (UTF-8 for the texts of the source file).
    Every separator and prefix the provider searches for is ASCII, and on
    such patterns splitting and prefix tests read the same on bytes as on the
    UTF-16 code units of a JavaScript string. *)

Module Js.

(** Carriage return and line feed, written "\r" and "\n" in the source. *)
Definition CR : string := String (ascii_of_nat 13) EmptyString.
Definition LF : string := String (ascii_of_nat 10) EmptyString.
Definition TAB : string := String (ascii_of_nat 9) EmptyString.
Definition CRLF : string := CR ++ LF.

(** [String.prototype.startsWith(search)]. *)
Fixpoint startsWith (s search : string) {struct search} : bool :=
  match search with
  | EmptyString => true
  | String a search' =>
      match s with
      | EmptyString => false
      | String b s' => Ascii.eqb a b && startsWith s' search'
      end
  end.

(** [String.prototype.split(sep)] for a non-empty separator: the text is
    scanned from the left; at each position where [sep] matches, the piece
    gathered so far is emitted and the scan resumes after the separator.
    [skip] counts the characters of a matched separator still to be passed
    over, [piece] is the piece being gathered. *)
Fixpoint split_from (sep : string) (skip : nat) (piece s : string) : list string :=
  match s with
  | EmptyString => [piece]
  | String c rest =>
      match skip with
      | S k => split_from sep k piece rest
      | O =>
          if startsWith s sep
          then piece :: split_from sep (String.length sep - 1) EmptyString rest
          else split_from sep 0 (piece ++ String c EmptyString) rest
      end
  end.

Definition split (s sep : string) : list string := split_from sep 0 EmptyString s.

(** Truthiness of an optional string: [undefined], [null] and the empty
    string are falsy. *)
Definition truthy (v : option string) : bool :=
  match v with
  | Some s => negb (String.eqb s EmptyString)
  | None => false
  end.

(** [a || b] on optional strings. *)
Definition or_else (a b : option string) : option string :=
  if truthy a then a else b.

(** [String(b)] for a boolean. *)
Definition string_of_bool (b : bool) : string := if b then "true" else "false".

(** Decimal rendering of a non-negative integer, as a template literal
    renders a number. *)
Definition string_of_number (n : N) : string := NilZero.string_of_uint (N.to_uint n).

End Js.

(** ** The code-fence heuristic *)

Definition fence : string := "```".

(** Line 387: [((this.response.split("```").length) % 2) === 1]. *)
Definition hasContinuation (response : string) : bool :=
  (List.length (Js.split response fence) mod 2 =? 1)%nat.

(** Line 390: the text appended when the heuristic fires. *)
Definition closingFence : string := " " ++ Js.CRLF ++ " ```" ++ Js.CRLF.

(** The number of fence markers of a text, counted from the left without
    overlap: the quantity the heuristic is described by. *)
Fixpoint countFences (s : string) : nat :=
  match s with
  | EmptyString => 0
  | String c1 s1 =>
      match s1 with
      | String c2 (String c3 rest) =>
          if Ascii.eqb c1 "`" && Ascii.eqb c2 "`" && Ascii.eqb c3 "`"
          then S (countFences rest)
          else countFences s1
      | _ => countFences s1
      end
  end.

(** ** Data model *)

(** Messages posted to the webview ([type] is the constructor).  A field the
    source leaves out of the object literal is [None] / [false]:
    [showStopButton] is written only when a request starts, [done] only as
    [done: true]. *)
Inductive Message : Type :=
| showInProgress (inProgress : bool) (showStopButton : option bool)
| addQuestion (value : string) (code : option string) (autoScroll : bool)
| addResponse (value : string) (done : bool) (id : option string)
              (autoScroll : bool) (responseInMarkdown : bool)
| addError (value : option string) (autoScroll : bool)
| loginSuccessful (showConversations : option bool).

(** Handles of host objects. *)
Definition WebviewView := nat.
Definition AbortController := nat.

(** The two client versions ([chatgpt-4.7.2] and [chatgpt-5.1.1]).  The
    libraries are used as black boxes: a handle records the key and model it
    was built with; the remaining constructor options (fetch, base URL,
    organization, sampling parameters) are forwarded from the settings and
    never read back by the provider. *)
Record ChatGPTAPI3 : Type := { api3_apiKey : string; api3_model : option string }.
Record ChatGPTAPI35 : Type := { api35_apiKey : string; api35_model : option string }.

(** Lines 26-54: the fields of the class. *)
Record ChatGptViewProvider : Type := {
  webView : option WebviewView;
  subscribeToResponse : bool;
  autoScroll : bool;
  useAutoLogin : option bool;
  useGpt3 : option bool;
  chromiumPath : option string;
  profilePath : option string;
  model : option string;
  apiGpt3 : option ChatGPTAPI3;
  apiGpt35 : option ChatGPTAPI35;
  conversationId : option string;
  messageId : option string;
  proxyServer : option string;
  loginMethod : option string;
  authType : option string;
  questionCounter : N;
  inProgress : bool;
  abortController : option AbortController;
  currentMessageId : string;
  response : string;
  leftOverMessage : option Message
}.

(** Field assignments [this.f = v], one function per field the methods write. *)

Definition set_webView (v : option WebviewView) (p : ChatGptViewProvider) : ChatGptViewProvider :=
  {| webView := v; subscribeToResponse := subscribeToResponse p;
     autoScroll := autoScroll p; useAutoLogin := useAutoLogin p; useGpt3 := useGpt3 p;
     chromiumPath := chromiumPath p; profilePath := profilePath p; model := model p;
     apiGpt3 := apiGpt3 p; apiGpt35 := apiGpt35 p; conversationId := conversationId p;
     messageId := messageId p; proxyServer := proxyServer p; loginMethod := loginMethod p;
     authType := authType p; questionCounter := questionCounter p;
     inProgress := inProgress p; abortController := abortController p;
     currentMessageId := currentMessageId p; response := response p;
     leftOverMessage := leftOverMessage p |}.

Definition set_useAutoLogin (v : option bool) (p : ChatGptViewProvider) : ChatGptViewProvider :=
  {| webView := webView p; subscribeToResponse := subscribeToResponse p;
     autoScroll := autoScroll p; useAutoLogin := v; useGpt3 := useGpt3 p;
     chromiumPath := chromiumPath p; profilePath := profilePath p; model := model p;
     apiGpt3 := apiGpt3 p; apiGpt35 := apiGpt35 p; conversationId := conversationId p;
     messageId := messageId p; proxyServer := proxyServer p; loginMethod := loginMethod p;
     authType := authType p; questionCounter := questionCounter p;
     inProgress := inProgress p; abortController := abortController p;
     currentMessageId := currentMessageId p; response := response p;
     leftOverMessage := leftOverMessage p |}.

Definition set_useGpt3 (v : option bool) (p : ChatGptViewProvider) : ChatGptViewProvider :=
  {| webView := webView p; subscribeToResponse := subscribeToResponse p;
     autoScroll := autoScroll p; useAutoLogin := useAutoLogin p; useGpt3 := v;
     chromiumPath := chromiumPath p; profilePath := profilePath p; model := model p;
     apiGpt3 := apiGpt3 p; apiGpt35 := apiGpt35 p; conversationId := conversationId p;
     messageId := messageId p; proxyServer := proxyServer p; loginMethod := loginMethod p;
     authType := authType p; questionCounter := questionCounter p;
     inProgress := inProgress p; abortController := abortController p;
     currentMessageId := currentMessageId p; response := response p;
     leftOverMessage := leftOverMessage p |}.

Definition set_chromiumPath (v : option string) (p : ChatGptViewProvider) : ChatGptViewProvider :=
  {| webView := webView p; subscribeToResponse := subscribeToResponse p;
     autoScroll := autoScroll p; useAutoLogin := useAutoLogin p; useGpt3 := useGpt3 p;
     chromiumPath := v; profilePath := profilePath p; model := model p; apiGpt3 := apiGpt3 p;
     apiGpt35 := apiGpt35 p; conversationId := conversationId p; messageId := messageId p;
     proxyServer := proxyServer p; loginMethod := loginMethod p; authType := authType p;
     questionCounter := questionCounter p; inProgress := inProgress p;
     abortController := abortController p; currentMessageId := currentMessageId p;
     response := response p; leftOverMessage := leftOverMessage p |}.

Definition set_profilePath (v : option string) (p : ChatGptViewProvider) : ChatGptViewProvider :=
  {| webView := webView p; subscribeToResponse := subscribeToResponse p;
     autoScroll := autoScroll p; useAutoLogin := useAutoLogin p; useGpt3 := useGpt3 p;
     chromiumPath := chromiumPath p; profilePath := v; model := model p;
     apiGpt3 := apiGpt3 p; apiGpt35 := apiGpt35 p; conversationId := conversationId p;
     messageId := messageId p; proxyServer := proxyServer p; loginMethod := loginMethod p;
     authType := authType p; questionCounter := questionCounter p;
     inProgress := inProgress p; abortController := abortController p;
     currentMessageId := currentMessageId p; response := response p;
     leftOverMessage := leftOverMessage p |}.

Definition set_apiGpt3 (v : option ChatGPTAPI3) (p : ChatGptViewProvider) : ChatGptViewProvider :=
  {| webView := webView p; subscribeToResponse := subscribeToResponse p;
     autoScroll := autoScroll p; useAutoLogin := useAutoLogin p; useGpt3 := useGpt3 p;
     chromiumPath := chromiumPath p; profilePath := profilePath p; model := model p;
     apiGpt3 := v; apiGpt35 := apiGpt35 p; conversationId := conversationId p;
     messageId := messageId p; proxyServer := proxyServer p; loginMethod := loginMethod p;
     authType := authType p; questionCounter := questionCounter p;
     inProgress := inProgress p; abortController := abortController p;
     currentMessageId := currentMessageId p; response := response p;
     leftOverMessage := leftOverMessage p |}.

Definition set_apiGpt35 (v : option ChatGPTAPI35) (p : ChatGptViewProvider) : ChatGptViewProvider :=
  {| webView := webView p; subscribeToResponse := subscribeToResponse p;
     autoScroll := autoScroll p; useAutoLogin := useAutoLogin p; useGpt3 := useGpt3 p;
     chromiumPath := chromiumPath p; profilePath := profilePath p; model := model p;
     apiGpt3 := apiGpt3 p; apiGpt35 := v; conversationId := conversationId p;
     messageId := messageId p; proxyServer := proxyServer p; loginMethod := loginMethod p;
     authType := authType p; questionCounter := questionCounter p;
     inProgress := inProgress p; abortController := abortController p;
     currentMessageId := currentMessageId p; response := response p;
     leftOverMessage := leftOverMessage p |}.

Definition set_conversationId (v : option string) (p : ChatGptViewProvider) : ChatGptViewProvider :=
  {| webView := webView p; subscribeToResponse := subscribeToResponse p;
     autoScroll := autoScroll p; useAutoLogin := useAutoLogin p; useGpt3 := useGpt3 p;
     chromiumPath := chromiumPath p; profilePath := profilePath p; model := model p;
     apiGpt3 := apiGpt3 p; apiGpt35 := apiGpt35 p; conversationId := v;
     messageId := messageId p; proxyServer := proxyServer p; loginMethod := loginMethod p;
     authType := authType p; questionCounter := questionCounter p;
     inProgress := inProgress p; abortController := abortController p;
     currentMessageId := currentMessageId p; response := response p;
     leftOverMessage := leftOverMessage p |}.

Definition set_messageId (v : option string) (p : ChatGptViewProvider) : ChatGptViewProvider :=
  {| webView := webView p; subscribeToResponse := subscribeToResponse p;
     autoScroll := autoScroll p; useAutoLogin := useAutoLogin p; useGpt3 := useGpt3 p;
     chromiumPath := chromiumPath p; profilePath := profilePath p; model := model p;
     apiGpt3 := apiGpt3 p; apiGpt35 := apiGpt35 p; conversationId := conversationId p;
     messageId := v; proxyServer := proxyServer p; loginMethod := loginMethod p;
     authType := authType p; questionCounter := questionCounter p;
     inProgress := inProgress p; abortController := abortController p;
     currentMessageId := currentMessageId p; response := response p;
     leftOverMessage := leftOverMessage p |}.

Definition set_proxyServer (v : option string) (p : ChatGptViewProvider) : ChatGptViewProvider :=
  {| webView := webView p; subscribeToResponse := subscribeToResponse p;
     autoScroll := autoScroll p; useAutoLogin := useAutoLogin p; useGpt3 := useGpt3 p;
     chromiumPath := chromiumPath p; profilePath := profilePath p; model := model p;
     apiGpt3 := apiGpt3 p; apiGpt35 := apiGpt35 p; conversationId := conversationId p;
     messageId := messageId p; proxyServer := v; loginMethod := loginMethod p;
     authType := authType p; questionCounter := questionCounter p;
     inProgress := inProgress p; abortController := abortController p;
     currentMessageId := currentMessageId p; response := response p;
     leftOverMessage := leftOverMessage p |}.

Definition set_loginMethod (v : option string) (p : ChatGptViewProvider) : ChatGptViewProvider :=
  {| webView := webView p; subscribeToResponse := subscribeToResponse p;
     autoScroll := autoScroll p; useAutoLogin := useAutoLogin p; useGpt3 := useGpt3 p;
     chromiumPath := chromiumPath p; profilePath := profilePath p; model := model p;
     apiGpt3 := apiGpt3 p; apiGpt35 := apiGpt35 p; conversationId := conversationId p;
     messageId := messageId p; proxyServer := proxyServer p; loginMethod := v;
     authType := authType p; questionCounter := questionCounter p;
     inProgress := inProgress p; abortController := abortController p;
     currentMessageId := currentMessageId p; response := response p;
     leftOverMessage := leftOverMessage p |}.

Definition set_authType (v : option string) (p : ChatGptViewProvider) : ChatGptViewProvider :=
  {| webView := webView p; subscribeToResponse := subscribeToResponse p;
     autoScroll := autoScroll p; useAutoLogin := useAutoLogin p; useGpt3 := useGpt3 p;
     chromiumPath := chromiumPath p; profilePath := profilePath p; model := model p;
     apiGpt3 := apiGpt3 p; apiGpt35 := apiGpt35 p; conversationId := conversationId p;
     messageId := messageId p; proxyServer := proxyServer p; loginMethod := loginMethod p;
     authType := v; questionCounter := questionCounter p; inProgress := inProgress p;
     abortController := abortController p; currentMessageId := currentMessageId p;
     response := response p; leftOverMessage := leftOverMessage p |}.

Definition set_questionCounter (v : N) (p : ChatGptViewProvider) : ChatGptViewProvider :=
  {| webView := webView p; subscribeToResponse := subscribeToResponse p;
     autoScroll := autoScroll p; useAutoLogin := useAutoLogin p; useGpt3 := useGpt3 p;
     chromiumPath := chromiumPath p; profilePath := profilePath p; model := model p;
     apiGpt3 := apiGpt3 p; apiGpt35 := apiGpt35 p; conversationId := conversationId p;
     messageId := messageId p; proxyServer := proxyServer p; loginMethod := loginMethod p;
     authType := authType p; questionCounter := v; inProgress := inProgress p;
     abortController := abortController p; currentMessageId := currentMessageId p;
     response := response p; leftOverMessage := leftOverMessage p |}.

Definition set_inProgress (v : bool) (p : ChatGptViewProvider) : ChatGptViewProvider :=
  {| webView := webView p; subscribeToResponse := subscribeToResponse p;
     autoScroll := autoScroll p; useAutoLogin := useAutoLogin p; useGpt3 := useGpt3 p;
     chromiumPath := chromiumPath p; profilePath := profilePath p; model := model p;
     apiGpt3 := apiGpt3 p; apiGpt35 := apiGpt35 p; conversationId := conversationId p;
     messageId := messageId p; proxyServer := proxyServer p; loginMethod := loginMethod p;
     authType := authType p; questionCounter := questionCounter p; inProgress := v;
     abortController := abortController p; currentMessageId := currentMessageId p;
     response := response p; leftOverMessage := leftOverMessage p |}.

Definition set_abortController (v : option AbortController) (p : ChatGptViewProvider) : ChatGptViewProvider :=
  {| webView := webView p; subscribeToResponse := subscribeToResponse p;
     autoScroll := autoScroll p; useAutoLogin := useAutoLogin p; useGpt3 := useGpt3 p;
     chromiumPath := chromiumPath p; profilePath := profilePath p; model := model p;
     apiGpt3 := apiGpt3 p; apiGpt35 := apiGpt35 p; conversationId := conversationId p;
     messageId := messageId p; proxyServer := proxyServer p; loginMethod := loginMethod p;
     authType := authType p; questionCounter := questionCounter p;
     inProgress := inProgress p; abortController := v;
     currentMessageId := currentMessageId p; response := response p;
     leftOverMessage := leftOverMessage p |}.

Definition set_currentMessageId (v : string) (p : ChatGptViewProvider) : ChatGptViewProvider :=
  {| webView := webView p; subscribeToResponse := subscribeToResponse p;
     autoScroll := autoScroll p; useAutoLogin := useAutoLogin p; useGpt3 := useGpt3 p;
     chromiumPath := chromiumPath p; profilePath := profilePath p; model := model p;
     apiGpt3 := apiGpt3 p; apiGpt35 := apiGpt35 p; conversationId := conversationId p;
     messageId := messageId p; proxyServer := proxyServer p; loginMethod := loginMethod p;
     authType := authType p; questionCounter := questionCounter p;
     inProgress := inProgress p; abortController := abortController p; currentMessageId := v;
     response := response p; leftOverMessage := leftOverMessage p |}.

Definition set_response (v : string) (p : ChatGptViewProvider) : ChatGptViewProvider :=
  {| webView := webView p; subscribeToResponse := subscribeToResponse p;
     autoScroll := autoScroll p; useAutoLogin := useAutoLogin p; useGpt3 := useGpt3 p;
     chromiumPath := chromiumPath p; profilePath := profilePath p; model := model p;
     apiGpt3 := apiGpt3 p; apiGpt35 := apiGpt35 p; conversationId := conversationId p;
     messageId := messageId p; proxyServer := proxyServer p; loginMethod := loginMethod p;
     authType := authType p; questionCounter := questionCounter p;
     inProgress := inProgress p; abortController := abortController p;
     currentMessageId := currentMessageId p; response := v;
     leftOverMessage := leftOverMessage p |}.

Definition set_leftOverMessage (v : option Message) (p : ChatGptViewProvider) : ChatGptViewProvider :=
  {| webView := webView p; subscribeToResponse := subscribeToResponse p;
     autoScroll := autoScroll p; useAutoLogin := useAutoLogin p; useGpt3 := useGpt3 p;
     chromiumPath := chromiumPath p; profilePath := profilePath p; model := model p;
     apiGpt3 := apiGpt3 p; apiGpt35 := apiGpt35 p; conversationId := conversationId p;
     messageId := messageId p; proxyServer := proxyServer p; loginMethod := loginMethod p;
     authType := authType p; questionCounter := questionCounter p;
     inProgress := inProgress p; abortController := abortController p;
     currentMessageId := currentMessageId p; response := response p; leftOverMessage := v |}.
(** What the provider reads from its host. *)
Record Configuration : Type := {
  cfg_showNotification : option bool;   (* chatgpt.response.showNotification *)
  cfg_autoScroll : option bool;         (* chatgpt.response.autoScroll *)
  cfg_model : option string;            (* chatgpt.gpt3.model *)
  cfg_method : option string;           (* chatgpt.method *)
  cfg_authenticationType : option string;
  cfg_chromiumPath : option string;
  cfg_profilePath : option string;
  cfg_proxyServer : option string;
  cfg_apiKey : option string            (* chatgpt.gpt3.apiKey *)
}.

Record Host : Type := {
  configuration : Configuration;
  globalState_apiKey : option string;   (* globalState.get("chatgpt-gpt3-apiKey") *)
  platform : string;                    (* os.platform() *)
  chromeExists : bool                   (* fs.existsSync('/usr/bin/google-chrome') *)
}.

(** Which client a request went to. *)
Inductive ClientPath : Type := viaGpt35 | viaGpt3.

(** Calls the provider makes on its surroundings, in the order made.
    [published] marks an invocation of [sendMessage]; [postMessage] is the
    delivery to the attached webview. *)
Inductive HostCall : Type :=
| published (message : Message) (ignoreMessageIfNullWebView : bool)
| postMessage (view : WebviewView) (message : Message)
| webviewShow (view : WebviewView)
| executeCommand (command : string) (args : list string)
| showInformationMessage (text : string) (items : list string)
| showErrorMessage (text : string) (items : list string)
| abort (controller : AbortController)
| clientSendMessage (path : ClientPath) (question systemMessage : string)
                    (messageId parentMessageId : option string)
                    (abortSignal : AbortController)
| consoleDebug (eventName : string) (properties : list (string * string))
| consoleError (eventName : string).

(** The world a method runs in: the provider object, the abort signals
    allocated so far ([true] once aborted; a controller is its index) and the
    calls made so far. *)
Record World : Type := {
  self : ChatGptViewProvider;
  signals : list bool;
  trace : list HostCall
}.

Definition update (f : ChatGptViewProvider -> ChatGptViewProvider) (w : World) : World :=
  {| self := f (self w); signals := signals w; trace := trace w |}.

Definition call (c : HostCall) (w : World) : World :=
  {| self := self w; signals := signals w; trace := trace w ++ [c] |}.

(** [new AbortController()]. *)
Definition newAbortController (w : World) : AbortController * World :=
  (List.length (signals w),
   {| self := self w; signals := signals w ++ [false]; trace := trace w |}).

Fixpoint setAborted (c : AbortController) (l : list bool) : list bool :=
  match l, c with
  | [], _ => []
  | _ :: l', O => true :: l'
  | b :: l', S c' => b :: setAborted c' l'
  end.

(** [controller.abort()]. *)
Definition abortSignal (c : AbortController) (w : World) : World :=
  call (abort c) {| self := self w; signals := setAborted c (signals w); trace := trace w |}.

Definition aborted (c : AbortController) (w : World) : bool :=
  nth c (signals w) false.

(** ** Methods of the provider *)

(** Lines 458-464. *)
Definition sendMessage (message : Message) (ignoreMessageIfNullWebView : bool)
    (w : World) : World :=
  let w := call (published message ignoreMessageIfNullWebView) w in
  match webView (self w) with
  | Some view => call (postMessage view message) w
  | None =>
      if ignoreMessageIfNullWebView then w
      else update (set_leftOverMessage (Some message)) w
  end.

(** Lines 466-476: telemetry was replaced by console output. *)
Definition logEvent (eventName : string) (properties : list (string * string))
    (w : World) : World :=
  call (consoleDebug eventName properties) w.

Definition logError (eventName : string) (w : World) : World :=
  call (consoleError eventName) w.

(** Lines 223-229. *)
Definition isCodexModel (p : ChatGptViewProvider) : bool :=
  match model p with
  | Some m => Js.startsWith m "code-"
  | None => false
  end.

Definition isGpt35Model (p : ChatGptViewProvider) : bool :=
  match model p with
  | Some m => Js.startsWith m "gpt-"
  | None => false
  end.

(** Lines 156-163. *)
Definition stopGenerating (w : World) : World :=
  let w := match abortController (self w) with
           | Some c => abortSignal c w
           | None => w
           end in
  let w := update (set_inProgress false) w in
  let w := sendMessage (showInProgress (inProgress (self w)) None) false w in
  let responseInMarkdown := negb (isCodexModel (self w)) in
  let w := sendMessage (addResponse (response (self w)) true
                          (Some (currentMessageId (self w)))
                          (autoScroll (self w)) responseInMarkdown) false w in
  logEvent "stopped-generating" [] w.

(** Lines 165-171. *)
Definition clearSession (w : World) : World :=
  let w := stopGenerating w in
  let w := update (set_apiGpt3 None) w in
  let w := update (set_messageId None) w in
  let w := update (set_conversationId None) w in
  logEvent "cleared-session" [] w.

(** Lines 173-221: the configuration setters. *)
Definition setProxyServer (host : Host) (w : World) : World :=
  update (set_proxyServer (cfg_proxyServer (configuration host))) w.

Definition setMethod (host : Host) (w : World) : World :=
  let w := update (set_loginMethod (cfg_method (configuration host))) w in
  let w := update (set_useGpt3 (Some true)) w in
  let w := update (set_useAutoLogin (Some false)) w in
  clearSession w.

Definition setAuthType (host : Host) (w : World) : World :=
  let w := update (set_authType (cfg_authenticationType (configuration host))) w in
  clearSession w.

Definition setChromeExecutablePath (host : Host) (w : World) : World :=
  let path :=
    if String.eqb (platform host) "win32"
    then "C:\Program Files\Google\Chrome\Application\chrome.exe"
    else if String.eqb (platform host) "darwin"
    then "/Applications/Google Chrome.app/Contents/MacOS/Google Chrome"
    else if chromeExists host
    then "/usr/bin/google-chrome"
    else "/usr/bin/google-chrome-stable" in
  let w := update (set_chromiumPath
                     (Js.or_else (cfg_chromiumPath (configuration host)) (Some path))) w in
  clearSession w.

Definition setProfilePath (host : Host) (w : World) : World :=
  let w := update (set_profilePath (cfg_profilePath (configuration host))) w in
  clearSession w.

(** The object as the field initialisers leave it (lines 26-54), with the
    three settings the constructor reads first (lines 56-58). *)
Definition fresh (host : Host) : ChatGptViewProvider :=
  {| webView := None;
     subscribeToResponse :=
       match cfg_showNotification (configuration host) with Some b => b | None => false end;
     autoScroll :=
       match cfg_autoScroll (configuration host) with Some b => b | None => false end;
     useAutoLogin := None; useGpt3 := None; chromiumPath := None; profilePath := None;
     model := cfg_model (configuration host);
     apiGpt3 := None; apiGpt35 := None; conversationId := None; messageId := None;
     proxyServer := None; loginMethod := None; authType := None;
     questionCounter := 0%N; inProgress := false; abortController := None;
     currentMessageId := ""; response := ""; leftOverMessage := None |}.

(** Lines 55-65. *)
Definition constructor (host : Host) : World :=
  let w := {| self := fresh host; signals := []; trace := [] |} in
  let w := setMethod host w in
  let w := setChromeExecutablePath host w in
  let w := setProfilePath host w in
  let w := setProxyServer host w in
  setAuthType host w.

(** Lines 67-154: the host attaches a webview.  Setting the webview options
    and HTML and registering the message handler do not touch the provider;
    what remains is the store of the view and the flush of the buffer. *)
Definition resolveWebviewView (webviewView : WebviewView) (w : World) : World :=
  let w := update (set_webView (Some webviewView)) w in
  match leftOverMessage (self w) with
  | Some m =>
      let w := sendMessage m false w in
      update (set_leftOverMessage None) w
  | None => w
  end.

(** Lines 105-118: two of the webview commands reset fields directly. *)
Definition clearConversation (w : World) : World :=
  let w := update (set_messageId None) w in
  let w := update (set_conversationId None) w in
  logEvent "conversation-cleared" [] w.

Definition cleargpt3 (w : World) : World :=
  let w := update (set_apiGpt3 None) w in
  logEvent "gpt3-cleared" [] w.

(** ** Requests *)

(** The [options] argument of [sendApiRequest]. *)
Record Options : Type := {
  command : string;
  code : option string;
  previousAnswer : option string;
  language : option string
}.

(** What a client call resolves to; the newer client's [id] and the legacy
    client's [conversationId] are both kept. *)
Record ChatMessage : Type := {
  res_text : string;
  res_id : option string;
  res_conversationId : option string;
  res_parentMessageId : option string
}.

(** The value a client call rejects with when it is neither [undefined] nor
    [null], read through the property paths of the catch block (lines
    408-435).  [err_tostring] is the result of [error.tostring()] when the
    object has such a method.  A primitive (a string, a number) reads as the
    record with every path absent.  A rejection with [undefined] or [null]
    is not such a record: see [sendApiRequest_rejected_nullish]. *)
Record ApiError : Type := {
  err_response_data_error_message : option string;
  err_tostring : option string;
  err_message : option string;
  err_name : option string;
  err_response_status : option N;
  err_response_statusText : option string;
  err_statusCode : option N
}.

Definition truthyBool (b : option bool) : bool :=
  match b with Some true => true | _ => false end.

Definition truthyNumber (n : option N) : bool :=
  match n with Some k => negb (k =? 0)%N | None => false end.

Definition isSome {A} (o : option A) : bool :=
  match o with Some _ => true | None => false end.

(** A value interpolated in a template literal. *)
Definition interpolate (v : option string) : string :=
  match v with Some s => s | None => "undefined" end.

Definition missingKeyText : string :=
  "请添加您的API密钥以使用OpenAI官方API。出于安全原因，不建议将API密钥存储在设置中，但您仍然可以选择将其持久化到设置中以使用它。您也可以临时设置API密钥：每次重新启动vs-code后，您都需要重新输入API密钥".

(** Lines 231-309.  The choices offered when the key is missing are handled
    by the host later, outside this call. *)
Definition prepareConversation (modelChanged : bool) (host : Host) (w : World)
    : bool * World :=
  if modelChanged && truthyBool (useAutoLogin (self w)) then (false, w)
  else
    let proceed (w : World) :=
      (true, sendMessage (loginSuccessful (useAutoLogin (self w))) true w) in
    if truthyBool (useGpt3 (self w)) then
      if (isGpt35Model (self w) && negb (isSome (apiGpt35 (self w))))
         || (negb (isGpt35Model (self w)) && negb (isSome (apiGpt3 (self w))))
         || modelChanged
      then
        let apiKey := Js.or_else (cfg_apiKey (configuration host)) (globalState_apiKey host) in
        match apiKey with
        | Some key =>
            if Js.truthy apiKey then
              let w :=
                if isGpt35Model (self w)
                then update (set_apiGpt35
                       (Some {| api35_apiKey := key; api35_model := model (self w) |})) w
                else update (set_apiGpt3
                       (Some {| api3_apiKey := key; api3_model := model (self w) |})) w in
              proceed w
            else
              (false, call (showErrorMessage missingKeyText
                              ["存储在会话中（推荐）"; "打开设置"]) w)
        | None =>
            (false, call (showErrorMessage missingKeyText
                            ["存储在会话中（推荐）"; "打开设置"]) w)
        end
      else proceed w
    else proceed w.

(** Line 311. *)
Definition systemContext : string := "你是ChatGPT，正在帮助用户进行编程对档.".

(** Lines 315-321. *)
Definition processQuestion (question : string) (code language : option string) : string :=
  let question :=
    match code with
    | Some c =>
        question
        ++ (if Js.truthy language
            then " (The following code is in " ++ interpolate language
                 ++ " programming language)"
            else "")
        ++ ": " ++ c
    | None => question
    end in
  question ++ Js.CRLF.

(** The locals of one [sendApiRequest] activation that its later parts and
    its callbacks close over. *)
Record Request : Type := {
  req_prompt : string;
  req_options : Options;
  req_question : string;
  req_responseInMarkdown : bool;
  req_signal : AbortController
}.

(** How far a call of [sendApiRequest] got before giving control back:
    turned away by the guard, stopped because no client could be prepared,
    suspended on a client call, or run to its end without one. *)
Inductive Progress : Type :=
| rejected
| notPrepared
| awaiting (path : ClientPath) (r : Request)
| finished.

Definition continueOffer : string :=
  "好的，我可以继续回答你的编程问题。请告诉我你的问题是什么，我会尽力回答并提供帮助".

(** Lines 383-405: the rest of the [try] block after the client call. *)
Definition publishAnswer (r : Request) (w : World) : World :=
  let w :=
    match previousAnswer (req_options r) with
    | Some prev => update (set_response (prev ++ response (self w))) w
    | None => w
    end in
  let w :=
    if hasContinuation (response (self w)) then
      let w := update (set_response (response (self w) ++ closingFence)) w in
      call (showInformationMessage continueOffer ["继续并组合答案"]) w
    else w in
  let w := sendMessage (addResponse (response (self w)) true
                          (Some (currentMessageId (self w)))
                          (autoScroll (self w)) (req_responseInMarkdown r)) false w in
  if subscribeToResponse (self w)
  then call (showInformationMessage "ChatGPT回答了您的问题." ["打开对话"]) w
  else w.

(** Lines 447-450: the [finally] block. *)
Definition finally (w : World) : World :=
  let w := update (set_inProgress false) w in
  sendMessage (showInProgress (inProgress (self w)) None) false w.

(** Lines 323-333: [sendApiRequest] up to its first wait.  The guard, the
    counter and the log run in the turn of the caller, and so does the body
    of [prepareConversation], which has no wait on its way; the call is then
    suspended on the promise that [prepareConversation] returned.  [None] is
    the return at the guard, [Some prepared] the suspension, with the value
    the promise holds.  The in-flight flag is not written here. *)
Definition sendApiRequest_enter (options : Options) (host : Host) (w : World)
    : option bool * World :=
  if inProgress (self w) then (None, w)
  else
    let w := update (set_questionCounter (questionCounter (self w) + 1)%N) w in
    let w := logEvent "api-request-sent"
               [("chatgpt.command", command options);
                ("chatgpt.hasCode", Js.string_of_bool (Js.truthy (code options)));
                ("chatgpt.hasPreviousAnswer",
                 Js.string_of_bool (Js.truthy (previousAnswer options)))] w in
    let (prepared, w) := prepareConversation false host w in
    (Some prepared, w).

(** Lines 333-381: the resumption of a suspended call, from the test of the
    awaited value to the client call, in the world as it is by then:
    whatever ran since the suspension (the rest of the caller's turn, other
    calls, resumptions queued before this one) has had its effect.
    [randomId] is the value [getRandomId()] draws. *)
Definition sendApiRequest_resume (prompt : string) (options : Options)
    (randomId : string) (prepared : bool) (w : World) : Progress * World :=
  if negb prepared then (notPrepared, w)
  else
    let w := update (set_response "") w in
    let question := processQuestion prompt (code options) (language options) in
    let responseInMarkdown := negb (isCodexModel (self w)) in
    let w :=
      match webView (self w) with
      | None => call (executeCommand "vscode-chatgpt.view.focus" []) w
      | Some view => call (webviewShow view) w
      end in
    let w := update (set_inProgress true) w in
    let (controller, w) := newAbortController w in
    let w := update (set_abortController (Some controller)) w in
    let w := sendMessage (showInProgress (inProgress (self w)) (useGpt3 (self w))) false w in
    let w := update (set_currentMessageId randomId) w in
    let w := sendMessage (addQuestion prompt (code options) (autoScroll (self w))) false w in
    let r := {| req_prompt := prompt; req_options := options; req_question := question;
                req_responseInMarkdown := responseInMarkdown;
                req_signal := controller |} in
    let send (path : ClientPath) :=
      (awaiting path r,
       call (clientSendMessage path question systemContext (conversationId (self w))
               (messageId (self w)) controller) w) in
    if truthyBool (useGpt3 (self w)) then
      if isGpt35Model (self w) && isSome (apiGpt35 (self w)) then send viaGpt35
      else if negb (isGpt35Model (self w)) && isSome (apiGpt3 (self w)) then send viaGpt3
      else (finished, finally (publishAnswer r w))
    else (finished, finally (publishAnswer r w)).

(** A call of [sendApiRequest] together with its resumption, for a call
    whose first wait nothing uses: no other step of the provider runs
    between the suspension of line 333 and the resumption.  That is the case
    when the caller does nothing more with the provider in the same turn;
    the calls made by [onDidReceiveMessage] and [continueAndCombine] are
    taken to stand alone in their turn. *)
Definition sendApiRequest (prompt : string) (options : Options) (host : Host)
    (randomId : string) (w : World) : Progress * World :=
  let (entry, w) := sendApiRequest_enter options host w in
  match entry with
  | None => (rejected, w)
  | Some prepared => sendApiRequest_resume prompt options randomId prepared w
  end.

(** Lines 363-366 and 375-378: the progress callbacks. *)
Definition onProgress (path : ClientPath) (r : Request) (partialText : string)
    (w : World) : World :=
  let w := update (set_response partialText) w in
  let id := match path with
            | viaGpt35 => conversationId (self w)
            | viaGpt3 => messageId (self w)
            end in
  sendMessage (addResponse (response (self w)) false id (autoScroll (self w))
                 (req_responseInMarkdown r)) false w.

(** Lines 368 and 370: the client call resolved; then the rest of [try] and
    the [finally] block. *)
Definition sendApiRequest_fulfilled (path : ClientPath) (r : Request)
    (result : ChatMessage) (w : World) : World :=
  let w := update (set_response (res_text result)) w in
  let w := update (set_conversationId
                     match path with
                     | viaGpt35 => res_id result
                     | viaGpt3 => res_conversationId result
                     end) w in
  let w := update (set_messageId (res_parentMessageId result)) w in
  finally (publishAnswer r w).

(** Line 391-396: the user took the offer; [this.response] is read when the
    choice arrives. *)
Definition continueAndCombine (r : Request) (host : Host) (randomId : string)
    (w : World) : Progress * World :=
  sendApiRequest "Continue"
    {| command := command (req_options r); code := None;
       previousAnswer := Some (response (self w)); language := None |}
    host randomId w.

Definition retryHint : string :=
  "出现错误。如果这是由于max_token造成的，您可以尝试“ChatGPT:Clear Conversation”命令，然后重试发送提示语.".

Definition statusIs (n : N) (statusCode : option N) : bool :=
  match statusCode with Some k => (k =? n)%N | None => false end.

(** Lines 422-435: the fixed texts per status code. *)
Definition statusCodeMessage (p : ChatGptViewProvider) (statusCode : option N)
    : option string :=
  if statusIs 400 statusCode then
    Some ("Your method: '" ++ interpolate (loginMethod p) ++ "' and your model: '"
          ++ interpolate (model p)
          ++ "' may be incompatible or one of your parameters is unknown. Reset your settings to default. (HTTP 400 Bad Request)")
  else if statusIs 401 statusCode then
    Some ("Make sure you are properly signed in. If you are using Browser Auto-login method, make sure the browser is open (You could refresh the browser tab manually if you face any issues, too). If you stored your API key in settings.json, make sure it is accurate. If you stored API key in session, you can reset it with `ChatGPT: 重置会话` command. (HTTP 401 Unauthorized) Potential reasons: "
          ++ Js.CRLF ++ "- 1.Invalid Authentication" ++ Js.CRLF
          ++ "- 2.Incorrect API key provided." ++ Js.CRLF
          ++ "- 3.Incorrect Organization provided. " ++ Js.CRLF
          ++ " See https://platform.openai.com/docs/guides/error-codes for more details.")
  else if statusIs 403 statusCode then
    Some "Your token has expired. Please try authenticating again. (HTTP 403 Forbidden)"
  else if statusIs 404 statusCode then
    Some ("Your method: '" ++ interpolate (loginMethod p) ++ "' and your model: '"
          ++ interpolate (model p)
          ++ "' may be incompatible or you may have exhausted your ChatGPT subscription allowance. (HTTP 404 Not Found)")
  else if statusIs 429 statusCode then
    Some ("Too many requests try again later. (HTTP 429 Too Many Requests) Potential reasons: "
          ++ Js.CRLF
          ++ " 1. You exceeded your current quota, please check your plan and billing details"
          ++ Js.CRLF ++ " 2. You are sending requests too quickly " ++ Js.CRLF
          ++ " 3. The engine is currently overloaded, please try again later. " ++ Js.CRLF
          ++ " See https://platform.openai.com/docs/guides/error-codes for more details.")
  else if statusIs 500 statusCode then
    Some ("The server had an error while processing your request, please try again. (HTTP 500 Internal Server Error)"
          ++ Js.CRLF
          ++ " See https://platform.openai.com/docs/guides/error-codes for more details.")
  else None.

(** Lines 406-450: the client call rejected with a value that is neither
    [undefined] nor [null]; the [catch] block, then the [finally] block. *)
Definition sendApiRequest_rejected (r : Request) (error : ApiError) (w : World) : World :=
  let apiMessage :=
    Js.or_else (err_response_data_error_message error)
      (Js.or_else (err_tostring error)
         (Js.or_else (err_message error) (err_name error))) in
  let w := logError "api-request-failed" w in
  let '(message, w) :=
    if truthyNumber (err_response_status error) || Js.truthy (err_response_statusText error)
    then
      (Some ((if truthyNumber (err_response_status error)
              then match err_response_status error with
                   | Some n => Js.string_of_number n
                   | None => ""
                   end
              else "")
             ++ " "
             ++ (if Js.truthy (err_response_statusText error)
                 then interpolate (err_response_statusText error)
                 else "")),
       call (showErrorMessage retryHint ["清除对话并重试"]) w)
    else (statusCodeMessage (self w) (err_statusCode error), w) in
  let message :=
    if Js.truthy apiMessage
    then Some ((if Js.truthy message then interpolate message ++ " " else "")
               ++ Js.LF ++ Js.LF ++ Js.TAB ++ interpolate apiMessage ++ Js.LF)
    else message in
  let w := sendMessage (addError message (autoScroll (self w))) false w in
  finally w.

(** Lines 406-450 when the client call rejected with [undefined] or [null].
    The reads through [?.] (lines 408 and 412) give [undefined], so
    [apiMessage] is undefined and the test of line 412 is false; the event is
    logged (line 410); then [error.statusCode] (line 422), read without
    [?.], throws a TypeError out of the [catch] block.  The [finally] block
    runs, and the promise of [sendApiRequest] rejects with the TypeError.  No
    [addError] is published. *)
Definition sendApiRequest_rejected_nullish (w : World) : World :=
  let w := logError "api-request-failed" w in
  finally w.

(** ** Runs and observations *)

(** How a pending client call ends. *)
Inductive Settlement : Type :=
| resolves (result : ChatMessage)
| rejects (error : ApiError)
| rejectsNullish.

Definition settle (path : ClientPath) (r : Request) (s : Settlement) (w : World) : World :=
  match s with
  | resolves result => sendApiRequest_fulfilled path r result w
  | rejects error => sendApiRequest_rejected r error w
  | rejectsNullish => sendApiRequest_rejected_nullish w
  end.

(** What may run between the client call and its end: a progress callback,
    the stop command, the host attaching the webview. *)
Inductive Interleaved : Type :=
| progress (partialText : string)
| stop
| attach (view : WebviewView).

Definition interleave (path : ClientPath) (r : Request) (w : World) (e : Interleaved)
    : World :=
  match e with
  | progress partialText => onProgress path r partialText w
  | stop => stopGenerating w
  | attach view => resolveWebviewView view w
  end.

Definition run (path : ClientPath) (r : Request) (es : list Interleaved) (w : World)
    : World :=
  fold_left (interleave path r) es w.

(** The calls made between two worlds of one run. *)
Definition since (before after : World) : list HostCall :=
  skipn (List.length (trace before)) (trace after).

(** The messages handed to [sendMessage], and those delivered to a webview. *)
Fixpoint publishedMessages (t : list HostCall) : list Message :=
  match t with
  | [] => []
  | published m _ :: t' => m :: publishedMessages t'
  | _ :: t' => publishedMessages t'
  end.

Fixpoint deliveredMessages (t : list HostCall) : list Message :=
  match t with
  | [] => []
  | postMessage _ m :: t' => m :: deliveredMessages t'
  | _ :: t' => deliveredMessages t'
  end.

(** A terminal message: an [addResponse] marked done, or an [addError]. *)
Definition isTerminal (m : Message) : bool :=
  match m with
  | addResponse _ done _ _ _ => done
  | addError _ _ => true
  | _ => false
  end.

Definition terminals (t : list HostCall) : nat :=
  List.length (filter isTerminal (publishedMessages t)).

(** The offer to continue and combine (line 391). *)
Definition isOffer (c : HostCall) : bool :=
  match c with
  | showInformationMessage text items =>
      String.eqb text continueOffer
      && match items with
         | [item] => String.eqb item "继续并组合答案"
         | _ => false
         end
  | _ => false
  end.

Definition offered (t : list HostCall) : bool := existsb isOffer t.

(** What one [sendMessage] adds to the trace. *)
Definition emitted (view : option WebviewView) (m : Message) (ignore : bool)
    : list HostCall :=
  published m ignore
  :: match view with
     | Some v => [postMessage v m]
     | None => []
     end.


(** A host with the given model and API key settings, on Linux with Chrome
    installed, and the provider it constructs: the fixtures the concrete
    checks below run on. *)
Definition hostWith (modelName : option string) (apiKey : option string) : Host :=
  {| configuration :=
       {| cfg_showNotification := None; cfg_autoScroll := Some true;
          cfg_model := modelName; cfg_method := Some "GPT3 OpenAI API Key";
          cfg_authenticationType := None; cfg_chromiumPath := None;
          cfg_profilePath := None; cfg_proxyServer := None; cfg_apiKey := apiKey |};
     globalState_apiKey := None;
     platform := "linux";
     chromeExists := true |}.

Definition gpt4Host : Host := hostWith (Some "gpt-4") (Some "sk-test").
Definition codexHost : Host := hostWith (Some "code-davinci-002") (Some "sk-test").
Definition keylessHost : Host := hostWith (Some "gpt-4") None.

Definition freeText : Options :=
  {| command := "freeText"; code := None; previousAnswer := None; language := None |}.

Definition answer (text : string) : ChatMessage :=
  {| res_text := text; res_id := Some "msg-2"; res_conversationId := Some "conv-1";
     res_parentMessageId := Some "msg-1" |}.

Definition abortError : ApiError :=
  {| err_response_data_error_message := None; err_tostring := None;
     err_message := Some "This operation was aborted"; err_name := Some "AbortError";
     err_response_status := None; err_response_statusText := None;
     err_statusCode := None |}.

(** What a [sendMessage] leaves in the one-slot buffer. *)
Definition buffer (view : option WebviewView) (ignore : bool) (m : Message)
    (old : option Message) : option Message :=
  match view with
  | Some _ => old
  | None => if ignore then old else Some m
  end.

(** The two messages [stopGenerating] hands to [sendMessage] (lines 159-161). *)
Definition stopMessages (p : ChatGptViewProvider) : list Message :=
  [showInProgress false None;
   addResponse (response p) true (Some (currentMessageId p)) (autoScroll p)
     (negb (isCodexModel p))].

(** A batch of [sendMessage] calls, each with its flag. *)
Definition publishAll (ms : list (Message * bool)) (w : World) : World :=
  fold_left (fun w mi => sendMessage (fst mi) (snd mi) w) ms w.

(** The most recent message of a batch that was sent without the
    ignore-if-detached flag. *)
Fixpoint lastUnflagged (ms : list (Message * bool)) : option Message :=
  match ms with
  | [] => None
  | (m, ignore) :: ms' =>
      match lastUnflagged ms' with
      | Some m' => Some m'
      | None => if ignore then None else Some m
      end
  end.

(** The text a request ends with before the fence heuristic looks at it. *)
Definition joined (previous : option string) (text : string) : string :=
  match previous with
  | Some prev => prev ++ text
  | None => text
  end.

(** The text [publishAnswer] publishes: the joined text, with the closing
    fence when line 387 fires. *)
Definition finalText (previous : option string) (text : string) : string :=
  if hasContinuation (joined previous text)
  then joined previous text ++ closingFence
  else joined previous text.

(** The fields and signals a step leaves as they were, for steps that write
    at most the clients, the buffer, the counter and the response. *)
Definition kept (w w' : World) : Prop :=
  signals w' = signals w
  /\ webView (self w') = webView (self w)
  /\ useGpt3 (self w') = useGpt3 (self w)
  /\ autoScroll (self w') = autoScroll (self w)
  /\ subscribeToResponse (self w') = subscribeToResponse (self w)
  /\ model (self w') = model (self w)
  /\ conversationId (self w') = conversationId (self w)
  /\ messageId (self w') = messageId (self w)
  /\ inProgress (self w') = inProgress (self w).

(** A first question on the gpt-4 fixture, suspended on its client call. *)
Definition gpt4Asked : Progress * World :=
  sendApiRequest "q" freeText gpt4Host "id1" (constructor gpt4Host).

Definition gpt4Request : Request :=
  {| req_prompt := "q"; req_options := freeText; req_question := "q" ++ Js.CRLF;
     req_responseInMarkdown := true; req_signal := 0 |}.


(** The follow-up request of a continuation: [prompt = "Continue"] and the
    text so far as [previousAnswer]. *)
Definition continueRequest (previous : string) : Request :=
  {| req_prompt := "Continue";
     req_options := {| command := "freeText"; code := None;
                       previousAnswer := Some previous; language := None |};
     req_question := "Continue" ++ Js.CRLF;
     req_responseInMarkdown := true; req_signal := 1 |}.

(** The gpt-4 fixture after its first answer, and a second question on it. *)
Definition gpt4Answered : World :=
  sendApiRequest_fulfilled viaGpt35 gpt4Request (answer "Hello") (snd gpt4Asked).

Definition gpt4AskedAgain : Progress * World :=
  sendApiRequest "again" freeText gpt4Host "id2" gpt4Answered.

Definition secondRequest : Request :=
  {| req_prompt := "again"; req_options := freeText; req_question := "again" ++ Js.CRLF;
     req_responseInMarkdown := true; req_signal := 1 |}.

(** ** The commands of the webview *)

(** Line 91: [value.replace(/\$/g, '\\$')].  Every dollar sign gets a
    backslash in front of it; the replacement text is a backslash and a lone
    [$], which stands for itself. *)
Fixpoint escapeDollars (s : string) : string :=
  match s with
  | EmptyString => EmptyString
  | String c rest =>
      if Ascii.eqb c "$"
      then String "\" (String "$" (escapeDollars rest))
      else String c (escapeDollars rest)
  end.

(** The object a webview message carries: its [type], and the [value] and
    [language] properties that some types read. *)
Record WebviewData : Type := {
  data_type : string;
  data_value : string;
  data_language : option string
}.

(** Calls on the editor side of the host.  They hand text over and do not
    come back to the provider. *)
Inductive EditorCall : Type :=
| insertSnippet (snippet : string)
| openTextDocument (content : string) (language : option string)
| showTextDocument.

(** Lines 85-147: the handler registered with [onDidReceiveMessage].
    [activeTextEditor] tells whether the window has an active editor (line
    92); opening a document (line 97) is taken to succeed.  The handler is
    taken to run alone in its turn, so that the resumption of the request of
    line 88 and the callback of line 120 follow it directly.  The result
    holds the progress of the request a free-text question starts, the
    editor calls made and the world. *)
Definition onDidReceiveMessage (data : WebviewData) (activeTextEditor : bool)
    (host : Host) (randomId : string) (w : World)
    : option Progress * list EditorCall * World :=
  if String.eqb (data_type data) "addFreeTextQuestion" then
    let (out, w) :=
      sendApiRequest (data_value data)
        {| command := "freeText"; code := None; previousAnswer := None;
           language := None |} host randomId w in
    (Some out, [], w)
  else if String.eqb (data_type data) "editCode" then
    let escapedString := escapeDollars (data_value data) in
    (None,
     if activeTextEditor then [insertSnippet escapedString] else [],
     logEvent "code-inserted" [] w)
  else if String.eqb (data_type data) "openNew" then
    (None,
     [openTextDocument (data_value data) (data_language data); showTextDocument],
     logEvent (match data_language data with
               | Some l => if String.eqb l "markdown" then "code-exported"
                           else "code-opened"
               | None => "code-opened"
               end) [] w)
  else if String.eqb (data_type data) "clearConversation" then
    (None, [], clearConversation w)
  else if String.eqb (data_type data) "clearBrowser" then
    (None, [], logEvent "browser-cleared" [] w)
  else if String.eqb (data_type data) "cleargpt3" then
    (None, [], cleargpt3 w)
  else if String.eqb (data_type data) "login" then
    let (success, w) := prepareConversation false host w in
    (None, [],
     if success then
       let w := sendMessage (loginSuccessful (useAutoLogin (self w))) true w in
       logEvent "logged-in" [] w
     else w)
  else if String.eqb (data_type data) "openSettings" then
    let w := call (executeCommand "workbench.action.openSettings"
                     ["@ext:gentlythink.chatgpt-zh chatgpt."]) w in
    (None, [], logEvent "settings-opened" [] w)
  else if String.eqb (data_type data) "openSettingsPrompt" then
    let w := call (executeCommand "workbench.action.openSettings"
                     ["@ext:gentlythink.chatgpt-zh promptPrefix"]) w in
    (None, [], logEvent "settings-prompt-opened" [] w)
  else if String.eqb (data_type data) "showConversation" then
    (None, [], w)
  else if String.eqb (data_type data) "stopGenerating" then
    (None, [], stopGenerating w)
  else (None, [], w).

(** ** Message identifiers *)

(** Line 580. *)
Definition possible : string :=
  "ABCDEFGHIJKLMNOPQRSTUVWXYZabcdefghijklmnopqrstuvwxyz0123456789".

(** [String.prototype.charAt]: the empty string out of range. *)
Definition charAt (s : string) (i : nat) : string :=
  match String.get i s with
  | Some c => String c EmptyString
  | None => EmptyString
  end.

(** Lines 581-583: the loop of [getRandomId], [n] rounds from round [i] on.
    [random i] is the index round [i] draws,
    [Math.floor(Math.random() * possible.length)]. *)
Fixpoint getRandomId_loop (random : nat -> nat) (i n : nat) (text : string) : string :=
  match n with
  | O => text
  | S n' => getRandomId_loop random (S i) n' (text ++ charAt possible (random i))
  end.

(** Lines 578-585. *)
Definition getRandomId (random : nat -> nat) : string :=
  getRandomId_loop random 0 32 EmptyString.

(** ** Observations on a request's start *)

(** The event [sendApiRequest] logs first (line 331). *)
Definition requestLogged (options : Options) (w : World) : World :=
  logEvent "api-request-sent"
    [("chatgpt.command", command options);
     ("chatgpt.hasCode", Js.string_of_bool (Js.truthy (code options)));
     ("chatgpt.hasPreviousAnswer",
      Js.string_of_bool (Js.truthy (previousAnswer options)))]
    (update (set_questionCounter (questionCounter (self w) + 1)%N) w).

(** Lines 337-353 of [sendApiRequest], from the reset of the response to the
    echo of the question, on the world the preparation left. *)
Definition begun (prompt : string) (options : Options) (randomId : string)
    (w : World) : World :=
  let w := update (set_response "") w in
  let w :=
    match webView (self w) with
    | None => call (executeCommand "vscode-chatgpt.view.focus" []) w
    | Some view => call (webviewShow view) w
    end in
  let w := update (set_inProgress true) w in
  let (controller, w) := newAbortController w in
  let w := update (set_abortController (Some controller)) w in
  let w := sendMessage (showInProgress (inProgress (self w)) (useGpt3 (self w))) false w in
  let w := update (set_currentMessageId randomId) w in
  sendMessage (addQuestion prompt (code options) (autoScroll (self w))) false w.

(** The client calls of a trace. *)
Fixpoint clientCalls (t : list HostCall) : list HostCall :=
  match t with
  | [] => []
  | clientSendMessage path q s m p c :: t' =>
      clientSendMessage path q s m p c :: clientCalls t'
  | _ :: t' => clientCalls t'
  end.

(** Line 241: whether [prepareConversation] has to build a client. *)
Definition needsClient (modelChanged : bool) (p : ChatGptViewProvider) : bool :=
  (isGpt35Model p && negb (isSome (apiGpt35 p)))
  || (negb (isGpt35Model p) && negb (isSome (apiGpt3 p)))
  || modelChanged.

(** Line 242: the key a new client is built with. *)
Definition apiKeyOf (host : Host) : option string :=
  Js.or_else (cfg_apiKey (configuration host)) (globalState_apiKey host).

(** Lines 276-302: the client built for the model class of the provider. *)
Definition withClient (key : string) (w : World) : World :=
  if isGpt35Model (self w)
  then update (set_apiGpt35 (Some {| api35_apiKey := key; api35_model := model (self w) |})) w
  else update (set_apiGpt3 (Some {| api3_apiKey := key; api3_model := model (self w) |})) w.

(** The dialog shown when no key is found (line 250). *)
Definition missingKeyDialog : HostCall :=
  showErrorMessage missingKeyText ["存储在会话中（推荐）"; "打开设置"].

(** How a snippet reads an escaped text back: a backslash in front of a
    dollar sign stands for the dollar sign. *)
Fixpoint unescapeDollars (s : string) : string :=
  match s with
  | EmptyString => EmptyString
  | String c rest =>
      match rest with
      | String d rest' =>
          if Ascii.eqb c "\" && Ascii.eqb d "$"
          then String "$" (unescapeDollars rest')
          else String c (unescapeDollars rest)
      | EmptyString => String c EmptyString
      end
  end.

(** ** The operations on a provider *)

(** The five configuration setters (lines 173-221). *)
Inductive Setting : Type :=
| proxyServerSetting
| methodSetting
| authTypeSetting
| chromeExecutablePathSetting
| profilePathSetting.

(** What can happen to a provider once it is constructed, one step of the
    class at a time: a message from the webview, the attachment of a webview,
    a call of one of the public methods, a progress callback or the end of a
    client call, the user taking the offer to continue.  A call of
    [sendApiRequest] is either [asked], when nothing uses its first wait, or
    [entered] and, after any other steps, [resumed]; [resumed] may come with
    either awaited value and at any time, which covers every order in which
    calls made in one turn can be resumed.  Assignments to the public fields
    from outside the class are not steps of the class. *)
Inductive Operation : Type :=
| received (data : WebviewData) (activeTextEditor : bool) (randomId : string)
| attached (view : WebviewView)
| asked (prompt : string) (options : Options) (randomId : string)
| entered (options : Options)
| resumed (prompt : string) (options : Options) (randomId : string) (awaited : bool)
| sent (message : Message) (ignoreMessageIfNullWebView : bool)
| progressed (path : ClientPath) (r : Request) (partialText : string)
| settled (path : ClientPath) (r : Request) (s : Settlement)
| continued (r : Request) (randomId : string)
| prepared (modelChanged : bool)
| cleared
| configured (setting : Setting).

(** One operation, on the host as it is at that moment. *)
Definition perform (w : World) (step : Host * Operation) : World :=
  let (host, operation) := step in
  match operation with
  | received data activeTextEditor randomId =>
      snd (onDidReceiveMessage data activeTextEditor host randomId w)
  | attached view => resolveWebviewView view w
  | asked prompt options randomId => snd (sendApiRequest prompt options host randomId w)
  | entered options => snd (sendApiRequest_enter options host w)
  | resumed prompt options randomId awaited =>
      snd (sendApiRequest_resume prompt options randomId awaited w)
  | sent message ignoreMessageIfNullWebView =>
      sendMessage message ignoreMessageIfNullWebView w
  | progressed path r partialText => onProgress path r partialText w
  | settled path r s => settle path r s w
  | continued r randomId => snd (continueAndCombine r host randomId w)
  | prepared modelChanged => snd (prepareConversation modelChanged host w)
  | cleared => clearSession w
  | configured proxyServerSetting => setProxyServer host w
  | configured methodSetting => setMethod host w
  | configured authTypeSetting => setAuthType host w
  | configured chromeExecutablePathSetting => setChromeExecutablePath host w
  | configured profilePathSetting => setProfilePath host w
  end.

Definition performAll (steps : list (Host * Operation)) (w : World) : World :=
  fold_left perform steps w.

(** The flags the constructor sets, a controller that is one of the signals
    allocated, and, while a request is in flight, a signal that is not
    aborted. *)
Definition consistent (w : World) : Prop :=
  useGpt3 (self w) = Some true
  /\ useAutoLogin (self w) = Some false
  /\ (forall c, abortController (self w) = Some c -> c < List.length (signals w))
  /\ (inProgress (self w) = true ->
      exists c, abortController (self w) = Some c /\ aborted c w = false).

(** * Properties *)

(** ** Sanity checks of the string model *)

Example split_one_fence : Js.split "```code" fence = [""; "code"].
Proof. reflexivity. Qed.

Example split_two_fences : Js.split "```code```" fence = [""; "code"; ""].
Proof. reflexivity. Qed.

Example split_no_fence : Js.split "plain" fence = ["plain"].
Proof. reflexivity. Qed.

Example split_four_backticks : Js.split "a````b" fence = ["a"; "`b"].
Proof. reflexivity. Qed.

Example count_examples :
  countFences "```code" = 1 /\ countFences "```code```" = 2 /\ countFences "a````b" = 1.
Proof. repeat split; reflexivity. Qed.

Example status_line_rendered :
  Js.string_of_number 429 ++ " " ++ "Too Many Requests" = "429 Too Many Requests".
Proof. reflexivity. Qed.

Example gpt4Asked_awaits : fst gpt4Asked = awaiting viaGpt35 gpt4Request.
Proof. vm_compute. reflexivity. Qed.

Example gpt4Answered_ids :
  conversationId (self gpt4Answered) = Some "msg-2"
  /\ messageId (self gpt4Answered) = Some "msg-1"
  /\ fst gpt4AskedAgain = awaiting viaGpt35 secondRequest.
Proof. vm_compute. repeat split. Qed.

(** ** The fence heuristic counts pieces, not fences *)

Section Fences.

Local Open Scope nat_scope.

Lemma split_from_fence_hit (piece rest : string) :
  Js.split_from fence 0 piece ("```" ++ rest)
  = piece :: Js.split_from fence 0 EmptyString rest.
Proof. reflexivity. Qed.

Lemma split_from_scan (sep piece : string) (c : ascii) (rest : string) :
  Js.split_from sep 0 piece (String c rest)
  = if Js.startsWith (String c rest) sep
    then piece :: Js.split_from sep (String.length sep - 1) EmptyString rest
    else Js.split_from sep 0 (piece ++ String c EmptyString) rest.
Proof. reflexivity. Qed.

Lemma split_from_skip (sep : string) (k : nat) (piece : string) (c : ascii)
    (rest : string) :
  Js.split_from sep (S k) piece (String c rest) = Js.split_from sep k piece rest.
Proof. reflexivity. Qed.

Lemma startsWith_fence (c1 c2 c3 : ascii) (rest : string) :
  Js.startsWith (String c1 (String c2 (String c3 rest))) fence
  = Ascii.eqb c1 "`" && Ascii.eqb c2 "`" && Ascii.eqb c3 "`".
Proof.
  cbn [Js.startsWith fence].
  rewrite (Ascii.eqb_sym c1), (Ascii.eqb_sym c2), (Ascii.eqb_sym c3).
  rewrite andb_true_r, andb_assoc. reflexivity.
Qed.

Lemma countFences_scan (c1 c2 c3 : ascii) (rest : string) :
  countFences (String c1 (String c2 (String c3 rest)))
  = if Ascii.eqb c1 "`" && Ascii.eqb c2 "`" && Ascii.eqb c3 "`"
    then S (countFences rest)
    else countFences (String c2 (String c3 rest)).
Proof. reflexivity. Qed.

(** Splitting at the fence yields one piece more than there are fences. *)
Lemma split_length_countFences (s : string) :
  List.length (Js.split s fence) = S (countFences s).
Proof.
  unfold Js.split. generalize EmptyString as piece.
  remember (String.length s) as n eqn:Hn.
  revert s Hn.
  induction n as [n IH] using lt_wf_ind. intros s Hn piece.
  destruct s as [|c1 s1]; [reflexivity|].
  destruct s1 as [|c2 s2].
  { cbn [Js.split_from Js.startsWith fence].
    destruct (Ascii.eqb "`" c1); reflexivity. }
  destruct s2 as [|c3 rest].
  { cbn [Js.split_from Js.startsWith fence].
    destruct (Ascii.eqb "`" c1), (Ascii.eqb "`" c2); reflexivity. }
  cbn [String.length] in Hn.
  rewrite split_from_scan, startsWith_fence, countFences_scan.
  destruct (Ascii.eqb c1 "`" && Ascii.eqb c2 "`" && Ascii.eqb c3 "`").
  - change (String.length fence - 1) with 2.
    rewrite !split_from_skip. cbn [List.length]. f_equal.
    apply (IH (String.length rest)); [lia | reflexivity].
  - apply (IH (S (S (String.length rest)))); [lia | reflexivity].
Qed.

Lemma succ_mod2_is_1 (k : nat) : (S k mod 2 =? 1) = Nat.even k.
Proof.
  rewrite <- Nat.bit0_mod, Nat.bit0_odd, Nat.odd_succ.
  destruct (Nat.even k); reflexivity.
Qed.

(** Line 387 is true exactly when the number of fences is even. *)
Lemma hasContinuation_even (response : string) :
  hasContinuation response = Nat.even (countFences response).
Proof.
  unfold hasContinuation. rewrite split_length_countFences. apply succ_mod2_is_1.
Qed.

End Fences.

(** ** Reading fields through the basic steps *)

Arguments Js.startsWith : simpl never.
Arguments Js.truthy : simpl never.
Arguments hasContinuation : simpl never.
Arguments closingFence : simpl never.
Arguments statusCodeMessage : simpl never.
Arguments processQuestion : simpl never.
Arguments String.append : simpl never.

(** Name the fields of a world. *)
Ltac open_world w :=
  destruct w as [[view sub scroll autoLogin gpt3 chrome profile mdl api3 api35
                  convId msgId proxy method auth counter busy ctl curId resp buffered]
                 sigs tr].

(** The projections of the provider and the functions that write one. *)
Ltac is_field f :=
  lazymatch f with
  | webView => idtac | subscribeToResponse => idtac | autoScroll => idtac
  | useAutoLogin => idtac | useGpt3 => idtac | chromiumPath => idtac
  | profilePath => idtac | model => idtac | apiGpt3 => idtac | apiGpt35 => idtac
  | conversationId => idtac | messageId => idtac | proxyServer => idtac
  | loginMethod => idtac | authType => idtac | questionCounter => idtac
  | inProgress => idtac | abortController => idtac | currentMessageId => idtac
  | response => idtac | leftOverMessage => idtac
  end.

Ltac is_write g :=
  lazymatch g with
  | set_webView => idtac | set_useAutoLogin => idtac | set_useGpt3 => idtac
  | set_chromiumPath => idtac | set_profilePath => idtac | set_apiGpt3 => idtac
  | set_apiGpt35 => idtac | set_conversationId => idtac | set_messageId => idtac
  | set_proxyServer => idtac | set_loginMethod => idtac | set_authType => idtac
  | set_questionCounter => idtac | set_inProgress => idtac
  | set_abortController => idtac | set_currentMessageId => idtac
  | set_response => idtac | set_leftOverMessage => idtac
  end.

(** Read one field through the writes in front of it, where it stands. *)
Ltac read_write :=
  match goal with
  | |- context [?f (?g ?v ?p)] =>
      is_field f; is_write g;
      let r := eval cbn
                 [webView subscribeToResponse autoScroll useAutoLogin useGpt3
                  chromiumPath profilePath model apiGpt3 apiGpt35 conversationId
                  messageId proxyServer loginMethod authType questionCounter
                  inProgress abortController currentMessageId response
                  leftOverMessage
                  set_webView set_useAutoLogin set_useGpt3 set_chromiumPath
                  set_profilePath set_apiGpt3 set_apiGpt35 set_conversationId
                  set_messageId set_proxyServer set_loginMethod set_authType
                  set_questionCounter set_inProgress set_abortController
                  set_currentMessageId set_response set_leftOverMessage]
               in (f (g v p)) in
      change (f (g v p)) with r
  end.

Section Steps.

Local Open Scope list_scope.

Lemma self_update g w : self (update g w) = g (self w).
Proof. reflexivity. Qed.

Lemma signals_update g w : signals (update g w) = signals w.
Proof. reflexivity. Qed.

Lemma trace_update g w : trace (update g w) = trace w.
Proof. reflexivity. Qed.

Lemma self_call c w : self (call c w) = self w.
Proof. reflexivity. Qed.

Lemma signals_call c w : signals (call c w) = signals w.
Proof. reflexivity. Qed.

Lemma trace_call c w : trace (call c w) = trace w ++ [c].
Proof. reflexivity. Qed.

Lemma skipn_length_app {A} (l l' : list A) : skipn (List.length l) (l ++ l') = l'.
Proof. induction l as [|a l IH]; [reflexivity | exact IH]. Qed.

Lemma since_app (w w' : World) (delta : list HostCall) :
  trace w' = trace w ++ delta -> since w w' = delta.
Proof. intros H. unfold since. rewrite H. apply skipn_length_app. Qed.

Lemma since_same_trace (w w1 w' : World) :
  trace w1 = trace w -> since w w' = since w1 w'.
Proof. unfold since. intros ->. reflexivity. Qed.

Lemma publishedMessages_app (t t' : list HostCall) :
  publishedMessages (t ++ t') = publishedMessages t ++ publishedMessages t'.
Proof.
  induction t as [|c t IH]; [reflexivity|].
  destruct c; cbn; rewrite IH; reflexivity.
Qed.

Lemma deliveredMessages_app (t t' : list HostCall) :
  deliveredMessages (t ++ t') = deliveredMessages t ++ deliveredMessages t'.
Proof.
  induction t as [|c t IH]; [reflexivity|].
  destruct c; cbn; rewrite IH; reflexivity.
Qed.

Lemma publishedMessages_emitted view m ignore :
  publishedMessages (emitted view m ignore) = [m].
Proof. destruct view; reflexivity. Qed.

Lemma offered_app (t t' : list HostCall) : offered (t ++ t') = offered t || offered t'.
Proof. apply existsb_app. Qed.

Lemma offered_emitted view m ignore : offered (emitted view m ignore) = false.
Proof. destruct view; reflexivity. Qed.

Lemma terminals_app (t t' : list HostCall) :
  terminals (t ++ t') = terminals t + terminals t'.
Proof.
  unfold terminals. rewrite publishedMessages_app, filter_app. apply length_app.
Qed.

Lemma terminals_emitted view m ignore :
  terminals (emitted view m ignore) = if isTerminal m then 1 else 0.
Proof.
  unfold terminals. rewrite publishedMessages_emitted. cbn.
  destruct (isTerminal m); reflexivity.
Qed.

(** [sendMessage] writes the buffer and nothing else. *)
Lemma sendMessage_self m ignore w :
  self (sendMessage m ignore w)
  = set_leftOverMessage
      (buffer (webView (self w)) ignore m (leftOverMessage (self w))) (self w).
Proof.
  unfold sendMessage, buffer. open_world w.
  destruct view; [|destruct ignore]; reflexivity.
Qed.

Lemma sendMessage_signals m ignore w : signals (sendMessage m ignore w) = signals w.
Proof.
  unfold sendMessage. open_world w.
  destruct view; [|destruct ignore]; reflexivity.
Qed.

Lemma sendMessage_trace m ignore w :
  trace (sendMessage m ignore w) = trace w ++ emitted (webView (self w)) m ignore.
Proof.
  unfold sendMessage, emitted. open_world w.
  destruct view; [|destruct ignore]; cbn; rewrite <- ?app_assoc; reflexivity.
Qed.

End Steps.

(** Push the reads of the goal through [update], [call], [sendMessage] and
    the field writes, one rewriting step at a time. *)
Ltac proj :=
  try unfold isCodexModel, isGpt35Model, logEvent, logError;
  repeat (progress (rewrite ?self_update, ?signals_update, ?trace_update,
                      ?self_call, ?signals_call, ?trace_call,
                      ?sendMessage_self, ?sendMessage_signals, ?sendMessage_trace)
          || read_write).

(** ** What each method does to the fields, the signals and the trace *)

Section Methods.

Local Open Scope list_scope.

Lemma stopGenerating_self (w : World) :
  exists left,
    self (stopGenerating w) = set_leftOverMessage left (set_inProgress false (self w)).
Proof.
  unfold stopGenerating, abortSignal. cbv zeta.
  destruct (abortController (self w)); proj; eexists; reflexivity.
Qed.

Lemma stopGenerating_signals (w : World) :
  signals (stopGenerating w)
  = match abortController (self w) with
    | Some c => setAborted c (signals w)
    | None => signals w
    end.
Proof.
  unfold stopGenerating, abortSignal. cbv zeta.
  destruct (abortController (self w)); proj; reflexivity.
Qed.

Lemma stopGenerating_trace (w : World) :
  trace (stopGenerating w)
  = trace w
    ++ match abortController (self w) with Some c => [abort c] | None => [] end
    ++ emitted (webView (self w)) (showInProgress false None) false
    ++ emitted (webView (self w))
         (addResponse (response (self w)) true (Some (currentMessageId (self w)))
            (autoScroll (self w)) (negb (isCodexModel (self w)))) false
    ++ [consoleDebug "stopped-generating" []].
Proof.
  unfold stopGenerating, abortSignal. cbv zeta.
  destruct (abortController (self w)); proj; rewrite <- ?app_assoc; reflexivity.
Qed.

Lemma stopGenerating_published (w : World) :
  publishedMessages (since w (stopGenerating w)) = stopMessages (self w).
Proof.
  rewrite (since_app _ _ _ (stopGenerating_trace w)).
  rewrite !publishedMessages_app, !publishedMessages_emitted.
  destruct (abortController (self w)); reflexivity.
Qed.

Lemma clearSession_self (w : World) :
  self (clearSession w)
  = set_conversationId None
      (set_messageId None (set_apiGpt3 None (self (stopGenerating w)))).
Proof. reflexivity. Qed.

Lemma clearSession_published (w : World) :
  publishedMessages (since w (clearSession w)) = stopMessages (self w).
Proof.
  rewrite (since_app w (clearSession w)
             (since w (stopGenerating w) ++ [consoleDebug "cleared-session" []])).
  - rewrite publishedMessages_app, stopGenerating_published. apply app_nil_r.
  - rewrite (since_app _ _ _ (stopGenerating_trace w)).
    unfold clearSession. cbv zeta. proj.
    rewrite stopGenerating_trace, <- !app_assoc. reflexivity.
Qed.

(** A setter that ends in [clearSession] publishes what [stopGenerating]
    publishes, whatever fields it wrote first, as long as it left the
    trace and the fields read by [stopMessages] alone. *)
Lemma setter_published (w w1 : World) :
  trace w1 = trace w ->
  stopMessages (self w1) = stopMessages (self w) ->
  publishedMessages (since w (clearSession w1)) = stopMessages (self w).
Proof.
  intros Ht Hm. rewrite (since_same_trace w w1 _ Ht), clearSession_published. exact Hm.
Qed.

Lemma finally_self (w : World) :
  self (finally w)
  = set_leftOverMessage
      (buffer (webView (self w)) false (showInProgress false None)
         (leftOverMessage (self w)))
      (set_inProgress false (self w)).
Proof. unfold finally. cbv zeta. proj. reflexivity. Qed.

Lemma finally_signals (w : World) : signals (finally w) = signals w.
Proof. unfold finally. cbv zeta. proj. reflexivity. Qed.

Lemma finally_trace (w : World) :
  trace (finally w)
  = trace w ++ emitted (webView (self w)) (showInProgress false None) false.
Proof. unfold finally. cbv zeta. proj. reflexivity. Qed.

(** The progress callback: one store, one publish. *)
Lemma onProgress_self path r partialText w :
  exists left,
    self (onProgress path r partialText w)
    = set_leftOverMessage left (set_response partialText (self w)).
Proof. unfold onProgress. cbv zeta. proj. eexists. reflexivity. Qed.

Lemma onProgress_signals path r partialText w :
  signals (onProgress path r partialText w) = signals w.
Proof. unfold onProgress. cbv zeta. proj. reflexivity. Qed.

Lemma onProgress_trace path r partialText w :
  trace (onProgress path r partialText w)
  = trace w
    ++ emitted (webView (self w))
         (addResponse partialText false
            match path with
            | viaGpt35 => conversationId (self w)
            | viaGpt3 => messageId (self w)
            end
            (autoScroll (self w)) (req_responseInMarkdown r)) false.
Proof. unfold onProgress. cbv zeta. proj. reflexivity. Qed.

Lemma resolveWebviewView_self view w :
  exists left,
    self (resolveWebviewView view w)
    = set_leftOverMessage left (set_webView (Some view) (self w)).
Proof.
  unfold resolveWebviewView. cbv zeta. proj.
  destruct (leftOverMessage (self w)); proj; eexists; reflexivity.
Qed.

Lemma resolveWebviewView_signals view w :
  signals (resolveWebviewView view w) = signals w.
Proof.
  unfold resolveWebviewView. cbv zeta. proj.
  destruct (leftOverMessage (self w)); proj; reflexivity.
Qed.

Lemma resolveWebviewView_trace view w :
  trace (resolveWebviewView view w)
  = trace w
    ++ match leftOverMessage (self w) with
       | Some m => [published m false; postMessage view m]
       | None => []
       end.
Proof.
  unfold resolveWebviewView. cbv zeta. proj.
  destruct (leftOverMessage (self w)); proj; [reflexivity|].
  symmetry. apply app_nil_r.
Qed.

Lemma resolveWebviewView_buffer view w :
  leftOverMessage (self (resolveWebviewView view w)) = None.
Proof.
  unfold resolveWebviewView. cbv zeta. proj.
  destruct (leftOverMessage (self w)) eqn:Hleft; proj; [reflexivity | exact Hleft].
Qed.

End Methods.

Section Settling.

Local Open Scope list_scope.

Lemma publishAnswer_self r w :
  exists left,
    self (publishAnswer r w)
    = set_leftOverMessage left
        (set_response (finalText (previousAnswer (req_options r)) (response (self w)))
           (self w)).
Proof.
  unfold publishAnswer, finalText, joined.
  destruct (previousAnswer (req_options r)) as [prev|]; cbv zeta; proj.
  - destruct (hasContinuation (prev ++ response (self w))); proj;
      destruct (subscribeToResponse (self w)); proj; eexists; reflexivity.
  - destruct (hasContinuation (response (self w))); proj;
      destruct (subscribeToResponse (self w)); proj; eexists.
    + reflexivity.
    + reflexivity.
    + open_world w. reflexivity.
    + open_world w. reflexivity.
Qed.

Lemma publishAnswer_signals r w : signals (publishAnswer r w) = signals w.
Proof.
  unfold publishAnswer.
  destruct (previousAnswer (req_options r)) as [prev|]; cbv zeta; proj.
  - destruct (hasContinuation (prev ++ response (self w))); proj;
      destruct (subscribeToResponse (self w)); proj; reflexivity.
  - destruct (hasContinuation (response (self w))); proj;
      destruct (subscribeToResponse (self w)); proj; reflexivity.
Qed.

Lemma publishAnswer_trace r w :
  trace (publishAnswer r w)
  = trace w
    ++ (if hasContinuation (joined (previousAnswer (req_options r)) (response (self w)))
        then [showInformationMessage continueOffer ["继续并组合答案"]]
        else [])
    ++ emitted (webView (self w))
         (addResponse (finalText (previousAnswer (req_options r)) (response (self w)))
            true (Some (currentMessageId (self w))) (autoScroll (self w))
            (req_responseInMarkdown r)) false
    ++ (if subscribeToResponse (self w)
        then [showInformationMessage "ChatGPT回答了您的问题." ["打开对话"]]
        else []).
Proof.
  unfold publishAnswer, finalText, joined.
  destruct (previousAnswer (req_options r)) as [prev|]; cbv zeta; proj.
  - destruct (hasContinuation (prev ++ response (self w))); proj;
      destruct (subscribeToResponse (self w)); proj;
      rewrite <- ?app_assoc, ?app_nil_r; reflexivity.
  - destruct (hasContinuation (response (self w))); proj;
      destruct (subscribeToResponse (self w)); proj;
      rewrite <- ?app_assoc, ?app_nil_r; reflexivity.
Qed.

Lemma fulfilled_self path r result w :
  exists left,
    self (sendApiRequest_fulfilled path r result w)
    = set_leftOverMessage left
        (set_inProgress false
           (set_response (finalText (previousAnswer (req_options r)) (res_text result))
              (set_messageId (res_parentMessageId result)
                 (set_conversationId
                    match path with
                    | viaGpt35 => res_id result
                    | viaGpt3 => res_conversationId result
                    end (self w))))).
Proof.
  unfold sendApiRequest_fulfilled. cbv zeta.
  rewrite finally_self.
  match goal with |- context [publishAnswer r ?x] =>
    destruct (publishAnswer_self r x) as [left ->] end.
  proj. eexists. reflexivity.
Qed.

Lemma fulfilled_signals path r result w :
  signals (sendApiRequest_fulfilled path r result w) = signals w.
Proof.
  unfold sendApiRequest_fulfilled. cbv zeta.
  rewrite finally_signals, publishAnswer_signals. reflexivity.
Qed.

Lemma fulfilled_trace path r result w :
  exists delta,
    trace (sendApiRequest_fulfilled path r result w) = trace w ++ delta
    /\ publishedMessages delta
       = [addResponse (finalText (previousAnswer (req_options r)) (res_text result))
            true (Some (currentMessageId (self w))) (autoScroll (self w))
            (req_responseInMarkdown r);
          showInProgress false None]
    /\ offered delta
       = hasContinuation (joined (previousAnswer (req_options r)) (res_text result)).
Proof.
  unfold sendApiRequest_fulfilled. cbv zeta.
  rewrite finally_trace, publishAnswer_trace. proj.
  eexists. split; [rewrite <- !app_assoc; reflexivity|].
  rewrite !publishedMessages_app, !publishedMessages_emitted.
  rewrite !offered_app, !offered_emitted.
  destruct (hasContinuation _), (subscribeToResponse (self w)); split; reflexivity.
Qed.

Lemma rejected_self r error w :
  exists left,
    self (sendApiRequest_rejected r error w)
    = set_leftOverMessage left (set_inProgress false (self w)).
Proof.
  unfold sendApiRequest_rejected.
  destruct (truthyNumber (err_response_status error)
            || Js.truthy (err_response_statusText error));
    cbv zeta; rewrite finally_self; proj; eexists; reflexivity.
Qed.

Lemma rejected_signals r error w :
  signals (sendApiRequest_rejected r error w) = signals w.
Proof.
  unfold sendApiRequest_rejected.
  destruct (truthyNumber (err_response_status error)
            || Js.truthy (err_response_statusText error));
    cbv zeta; rewrite finally_signals; proj; reflexivity.
Qed.


(** A rejection with [undefined] or [null]: the log and the [finally] block. *)
Lemma nullish_self w :
  exists left,
    self (sendApiRequest_rejected_nullish w)
    = set_leftOverMessage left (set_inProgress false (self w)).
Proof.
  unfold sendApiRequest_rejected_nullish. cbv zeta. rewrite finally_self. proj.
  eexists. reflexivity.
Qed.

Lemma nullish_signals w : signals (sendApiRequest_rejected_nullish w) = signals w.
Proof.
  unfold sendApiRequest_rejected_nullish. cbv zeta. rewrite finally_signals. proj.
  reflexivity.
Qed.

Lemma nullish_trace w :
  trace (sendApiRequest_rejected_nullish w)
  = trace w
    ++ [consoleError "api-request-failed"]
    ++ emitted (webView (self w)) (showInProgress false None) false.
Proof.
  unfold sendApiRequest_rejected_nullish. cbv zeta. rewrite finally_trace. proj.
  rewrite <- app_assoc. reflexivity.
Qed.

Lemma nullish_published w :
  publishedMessages (since w (sendApiRequest_rejected_nullish w))
  = [showInProgress false None].
Proof.
  rewrite (since_app _ _ _ (nullish_trace w)).
  rewrite !publishedMessages_app, publishedMessages_emitted. reflexivity.
Qed.

End Settling.

(** ** The two parts of a call *)

Section Parts.

(** A call that nothing interrupts, written out: the guard, the preparation
    and the steps to the client call, one after the other. *)
Lemma sendApiRequest_unfold prompt options host randomId w :
  sendApiRequest prompt options host randomId w
  = if inProgress (self w) then (rejected, w)
    else
      let w := update (set_questionCounter (questionCounter (self w) + 1)%N) w in
      let w := logEvent "api-request-sent"
                 [("chatgpt.command", command options);
                  ("chatgpt.hasCode", Js.string_of_bool (Js.truthy (code options)));
                  ("chatgpt.hasPreviousAnswer",
                   Js.string_of_bool (Js.truthy (previousAnswer options)))] w in
      let (prepared, w) := prepareConversation false host w in
      if negb prepared then (notPrepared, w)
      else
        let w := update (set_response "") w in
        let question := processQuestion prompt (code options) (language options) in
        let responseInMarkdown := negb (isCodexModel (self w)) in
        let w :=
          match webView (self w) with
          | None => call (executeCommand "vscode-chatgpt.view.focus" []) w
          | Some view => call (webviewShow view) w
          end in
        let w := update (set_inProgress true) w in
        let (controller, w) := newAbortController w in
        let w := update (set_abortController (Some controller)) w in
        let w := sendMessage (showInProgress (inProgress (self w)) (useGpt3 (self w)))
                   false w in
        let w := update (set_currentMessageId randomId) w in
        let w := sendMessage (addQuestion prompt (code options) (autoScroll (self w)))
                   false w in
        let r := {| req_prompt := prompt; req_options := options;
                    req_question := question;
                    req_responseInMarkdown := responseInMarkdown;
                    req_signal := controller |} in
        let send (path : ClientPath) :=
          (awaiting path r,
           call (clientSendMessage path question systemContext (conversationId (self w))
                   (messageId (self w)) controller) w) in
        if truthyBool (useGpt3 (self w)) then
          if isGpt35Model (self w) && isSome (apiGpt35 (self w)) then send viaGpt35
          else if negb (isGpt35Model (self w)) && isSome (apiGpt3 (self w))
               then send viaGpt3
          else (finished, finally (publishAnswer r w))
        else (finished, finally (publishAnswer r w)).
Proof.
  unfold sendApiRequest, sendApiRequest_enter.
  destruct (inProgress (self w)); [reflexivity|].
  cbv zeta.
  destruct (prepareConversation false host _) as [prepared W].
  reflexivity.
Qed.

End Parts.

(** ** Starting a request *)

Section Starting.

Local Open Scope list_scope.

Ltac prepare_cases H :=
  unfold prepareConversation in H; cbn [andb] in H; cbv zeta in H;
  rewrite orb_false_r in H;
  destruct (truthyBool (useGpt3 (self _))) eqn:Hgpt3 in H;
  [ destruct (isGpt35Model (self _)) eqn:H35 in H; cbn [andb orb negb] in H;
    [ destruct (isSome (apiGpt35 (self _))) eqn:Hhas in H
    | destruct (isSome (apiGpt3 (self _))) eqn:Hhas in H ];
    cbn [negb] in H;
    [ | destruct (Js.or_else _ _) as [key|] eqn:Hkey in H;
        [ destruct (Js.truthy (Some key)) eqn:Htruthy in H | ]
      | | destruct (Js.or_else _ _) as [key|] eqn:Hkey in H;
        [ destruct (Js.truthy (Some key)) eqn:Htruthy in H | ] ]
  | ];
  first [discriminate H | injection H as <- <- | injection H as <-].

Lemma prepareConversation_kept host w b W :
  prepareConversation false host w = (b, W) -> kept w W.
Proof.
  intros H. unfold kept. prepare_cases H; proj; repeat split; reflexivity.
Qed.

Lemma prepareConversation_trace host w b W :
  prepareConversation false host w = (b, W) ->
  exists delta,
    trace W = trace w ++ delta
    /\ publishedMessages delta
       = if b then [loginSuccessful (useAutoLogin (self w))] else [].
Proof.
  intros H. prepare_cases H; proj; eexists; (split; [reflexivity|]);
    rewrite ?publishedMessages_emitted; reflexivity.
Qed.

(** After a successful preparation the client of the model class exists. *)
Lemma prepareConversation_client host w W :
  prepareConversation false host w = (true, W) ->
  truthyBool (useGpt3 (self w)) = true ->
  if isGpt35Model (self w)
  then isSome (apiGpt35 (self W)) = true
  else isSome (apiGpt3 (self W)) = true.
Proof.
  intros H Hon. prepare_cases H; try congruence; rewrite ?H35; proj; try assumption;
    reflexivity.
Qed.

(** Preparation fails only for want of an API key. *)
Lemma prepareConversation_keyless host w W :
  prepareConversation false host w = (false, W) ->
  Js.truthy (Js.or_else (cfg_apiKey (configuration host)) (globalState_apiKey host))
  = false.
Proof.
  intros H. prepare_cases H; try rewrite Hkey; try assumption; reflexivity.
Qed.

Ltac case_on c := match goal with |- context [c] => destruct c eqn:? end.

Ltac use_kept :=
  repeat match goal with
         | E : _ (self ?W) = _ |- context [self ?W] => rewrite E
         | E : signals ?W = _ |- context [signals ?W] => rewrite E
         | E : trace ?W = _ |- context [trace ?W] => rewrite E
         end.

Ltac reads := repeat (progress (proj; cbn [self signals trace]; use_kept)).

(** Replace the reads of field [f] in the goal by what they read. *)
Ltac read_field f :=
  repeat match goal with
         | |- context [f (self ?X)] =>
             lazymatch X with
             | update _ _ => idtac
             | call _ _ => idtac
             | sendMessage _ _ _ => idtac
             | Build_World _ _ _ => idtac
             end;
             let E := fresh "E" in
             let v := fresh "v" in
             evar (v : ltac:(let T := type of (f (self X)) in exact T));
             assert (E : f (self X) = v) by (subst v; reads; reflexivity);
             subst v; rewrite E; clear E
         end.

Lemma kept_trans w1 w2 w3 : kept w1 w2 -> kept w2 w3 -> kept w1 w3.
Proof.
  unfold kept. intros (A1 & A2 & A3 & A4 & A5 & A6 & A7 & A8 & A9)
    (B1 & B2 & B3 & B4 & B5 & B6 & B7 & B8 & B9).
  repeat split; etransitivity; eassumption.
Qed.

Lemma kept_counted e props n w :
  kept w (logEvent e props (update (set_questionCounter n) w)).
Proof. unfold kept. repeat split. Qed.

Ltac finish_case H :=
  first [discriminate H | injection H as <- <- <- | injection H as <- <- | injection H as <-].

(** Run [sendApiRequest] in [H] up to its result, one case per path. *)
Ltac after_prepare H w W :=
  unfold newAbortController in H; cbv beta iota in H;
  revert H; unfold isGpt35Model, isCodexModel;
  read_field webView;
  destruct (webView (self w)) as [view|] eqn:?;
  read_field useGpt3;
  destruct (truthyBool (useGpt3 (self w))) eqn:?;
  try (read_field model; read_field apiGpt35; read_field apiGpt3;
       destruct (model (self w)) as [m|] eqn:?;
       [destruct (Js.startsWith m "gpt-") eqn:?|]; cbn [andb negb];
       try case_on (isSome (apiGpt35 (self W)));
       try case_on (isSome (apiGpt3 (self W))));
  intros H; finish_case H.

Ltac begin_cases H w :=
  rewrite sendApiRequest_unfold in H;
  destruct (inProgress (self w)) eqn:?;
  [ finish_case H
  | cbv zeta in H;
    let Hprep := fresh "Hprep" in
    let W := fresh "W" in
    let b := fresh "b" in
    destruct (prepareConversation false _ _) as [b W] eqn:Hprep in H;
    destruct (kept_trans _ _ _ (kept_counted _ _ _ w)
                (prepareConversation_kept _ _ _ _ Hprep))
      as (? & ? & ? & ? & ? & ? & ? & ? & ?);
    let Htrace := fresh "Htrace" in
    let Hpub := fresh "Hpub" in
    destruct (prepareConversation_trace _ _ _ _ Hprep) as (? & Htrace & Hpub);
    unfold logEvent in Htrace, Hpub;
    rewrite trace_call, trace_update in Htrace;
    rewrite self_call, self_update in Hpub;
    change (useAutoLogin (set_questionCounter _ (self w)))
      with (useAutoLogin (self w)) in Hpub;
    destruct b; cbn [negb] in H;
    [ after_prepare H w W | finish_case H ] ].

Ltac dead_case :=
  exfalso;
  match goal with
  | Hprep : prepareConversation false _ _ = (true, _),
    Hon : truthyBool (useGpt3 (self ?w)) = true |- _ =>
      let Hc := fresh "Hc" in
      pose proof (prepareConversation_client _ _ _ Hprep Hon) as Hc;
      unfold isGpt35Model, logEvent in Hc; rewrite self_call, self_update in Hc;
      change (model (set_questionCounter _ (self w))) with (model (self w)) in Hc;
      match goal with Em : model (self w) = _ |- _ => rewrite Em in Hc end;
      try match goal with E35 : Js.startsWith _ _ = _ |- _ => rewrite E35 in Hc end;
      congruence
  end.

Lemma terminals_published (t : list HostCall) (ms : list Message) :
  publishedMessages t = ms -> terminals t = List.length (filter isTerminal ms).
Proof. unfold terminals. intros ->. reflexivity. Qed.

(** What a call of [sendApiRequest] has done when it gives control back. *)
Lemma sendApiRequest_spec prompt options host randomId w out w1 :
  sendApiRequest prompt options host randomId w = (out, w1) ->
  match out with
  | rejected => inProgress (self w) = true /\ w1 = w
  | notPrepared =>
      inProgress (self w) = false
      /\ inProgress (self w1) = false
      /\ conversationId (self w1) = conversationId (self w)
      /\ messageId (self w1) = messageId (self w)
      /\ Js.truthy (Js.or_else (cfg_apiKey (configuration host))
                      (globalState_apiKey host)) = false
      /\ exists delta, trace w1 = trace w ++ delta /\ publishedMessages delta = []
  | awaiting path r =>
      inProgress (self w) = false
      /\ inProgress (self w1) = true
      /\ conversationId (self w1) = conversationId (self w)
      /\ messageId (self w1) = messageId (self w)
      /\ model (self w1) = model (self w)
      /\ signals w1 = signals w ++ [false]
      /\ abortController (self w1) = Some (req_signal r)
      /\ req_signal r = List.length (signals w)
      /\ req_options r = options
      /\ req_responseInMarkdown r = negb (isCodexModel (self w))
      /\ path = (if isGpt35Model (self w) then viaGpt35 else viaGpt3)
      /\ exists delta,
           trace w1 = trace w ++ delta
           /\ publishedMessages delta
              = [loginSuccessful (useAutoLogin (self w));
                 showInProgress true (useGpt3 (self w));
                 addQuestion prompt (code options) (autoScroll (self w))]
  | finished =>
      inProgress (self w) = false
      /\ truthyBool (useGpt3 (self w)) = false
      /\ inProgress (self w1) = false
      /\ conversationId (self w1) = conversationId (self w)
      /\ messageId (self w1) = messageId (self w)
      /\ exists delta, trace w1 = trace w ++ delta /\ terminals delta = 1
  end.
Proof.
  intros H. begin_cases H w.
  all: lazymatch goal with
       | |- _ /\ ?x = ?x => split; reflexivity
       | |- _ /\ true = false /\ _ => dead_case
       | _ => idtac
       end.
  all: lazymatch goal with
       | |- context [finally] =>
           rewrite !finally_self, finally_trace;
           match goal with |- context [publishAnswer ?r ?x] =>
             let left := fresh "left" in
             let Hpa := fresh "Hpa" in
             destruct (publishAnswer_self r x) as [left Hpa];
             rewrite !Hpa, publishAnswer_trace; clear Hpa
           end
       | _ => idtac
       end.
  all: reads.
  all: repeat (split; [first [ reflexivity | assumption
                             | eapply prepareConversation_keyless; eassumption ]|]).
  all: rewrite <- ?app_assoc; eexists; (split; [reflexivity|]).
  all: rewrite ?terminals_app, ?terminals_emitted, ?publishedMessages_app,
         ?publishedMessages_emitted.
  all: match goal with
       | E : publishedMessages ?x = _ |- _ =>
           rewrite ?E, ?(terminals_published _ _ E)
       end.
  all: cbn [isTerminal].
  all: repeat match goal with |- context [if ?c then _ else _] => destruct c end;
         reflexivity.
Qed.
End Starting.

(** * The claims *)

(** ** The fence heuristic and the join (C1, C6) *)

Section Answers.
Local Open Scope list_scope.

Lemma fulfilled_published path r result w :
  publishedMessages (since w (sendApiRequest_fulfilled path r result w))
  = [addResponse (finalText (previousAnswer (req_options r)) (res_text result))
       true (Some (currentMessageId (self w))) (autoScroll (self w))
       (req_responseInMarkdown r);
     showInProgress false None].
Proof.
  destruct (fulfilled_trace path r result w) as (delta & Htrace & Hpub & _).
  rewrite (since_app _ _ _ Htrace). exact Hpub.
Qed.

Lemma fulfilled_offered path r result w :
  offered (since w (sendApiRequest_fulfilled path r result w))
  = hasContinuation (joined (previousAnswer (req_options r)) (res_text result)).
Proof.
  destruct (fulfilled_trace path r result w) as (delta & Htrace & _ & Hoffer).
  rewrite (since_app _ _ _ Htrace). exact Hoffer.
Qed.

Lemma finalText_even (previous : option string) (text : string) :
  finalText previous text
  = if Nat.even (countFences (joined previous text))
    then (joined previous text ++ closingFence)%string
    else joined previous text.
Proof. unfold finalText. rewrite hasContinuation_even. reflexivity. Qed.
End Answers.

(** C1: the offer to continue is made exactly when the number of fence
    markers of the final text is EVEN, not odd: line 387 tests the number of
    pieces [split] returns, which is one more than the number of fences.  A
    response with one fence ("```code") gets no offer and is published as it
    is; a response with two fences ("```code```") gets the offer and the
    closing fence appended. *)
Theorem fence_offer_on_even_count :
  (forall path r result w,
      offered (since w (sendApiRequest_fulfilled path r result w))
      = Nat.even (countFences (joined (previousAnswer (req_options r)) (res_text result))))
  /\ (forall path w,
        offered (since w (sendApiRequest_fulfilled path gpt4Request (answer "```code") w))
        = false
        /\ publishedMessages
             (since w (sendApiRequest_fulfilled path gpt4Request (answer "```code") w))
           = [addResponse "```code" true (Some (currentMessageId (self w)))
                (autoScroll (self w)) true;
              showInProgress false None])
  /\ (forall path w,
        offered (since w (sendApiRequest_fulfilled path gpt4Request (answer "```code```") w))
        = true
        /\ publishedMessages
             (since w (sendApiRequest_fulfilled path gpt4Request (answer "```code```") w))
           = [addResponse ("```code```" ++ closingFence) true
                (Some (currentMessageId (self w))) (autoScroll (self w)) true;
              showInProgress false None]).
Proof.
  split; [|split].
  - intros. rewrite fulfilled_offered. apply hasContinuation_even.
  - intros. rewrite fulfilled_offered, fulfilled_published. split; reflexivity.
  - intros. rewrite fulfilled_offered, fulfilled_published. split; reflexivity.
Qed.

(** C6: the previous answer is prepended to the client's text with nothing
    in between, and the fence heuristic then runs on the joined text; for
    previousAnswer "A" and client text "B" the joined text "AB" has no fence,
    line 387 fires, and the terminal message carries "AB" followed by the
    closing fence, not "AB". *)
Theorem continuation_join_then_fence :
  (forall path r result w,
      publishedMessages (since w (sendApiRequest_fulfilled path r result w))
      = [addResponse (finalText (previousAnswer (req_options r)) (res_text result))
           true (Some (currentMessageId (self w))) (autoScroll (self w))
           (req_responseInMarkdown r);
         showInProgress false None])
  /\ (forall a b,
        finalText (Some a) b
        = if Nat.even (countFences (a ++ b)) then (a ++ b) ++ closingFence else a ++ b)
  /\ (forall path w,
        publishedMessages
          (since w (sendApiRequest_fulfilled path (continueRequest "A") (answer "B") w))
        = [addResponse ("AB" ++ closingFence) true (Some (currentMessageId (self w)))
             (autoScroll (self w)) true;
           showInProgress false None])
  /\ "AB" ++ closingFence <> "AB".
Proof.
  split; [exact fulfilled_published|].
  split; [intros; apply (finalText_even (Some a) b)|].
  split; [intros; rewrite fulfilled_published; reflexivity|].
  vm_compute. discriminate.
Qed.

(** ** One terminal message per settled request (C2) *)

Section Once.

Local Open Scope list_scope.


End Once.




(** ** Stopping and clearing (C3, C10) *)

(** C3: what [clearSession] does in every state: the current abort
    controller, if any, is aborted and the in-flight flag cleared, both
    continuation identifiers are unset and the legacy client [apiGpt3] is
    discarded; the newer client [apiGpt35] is left in place, so a session on
    a gpt- model keeps its client across [clearSession]. *)
Theorem clearSession_leaves_newer_client (w : World) :
  conversationId (self (clearSession w)) = None
  /\ messageId (self (clearSession w)) = None
  /\ inProgress (self (clearSession w)) = false
  /\ signals (clearSession w)
     = match abortController (self w) with
       | Some c => setAborted c (signals w)
       | None => signals w
       end
  /\ apiGpt3 (self (clearSession w)) = None
  /\ apiGpt35 (self (clearSession w)) = apiGpt35 (self w)
  /\ apiGpt35 (self (clearSession (snd gpt4Asked)))
     = Some {| api35_apiKey := "sk-test"; api35_model := Some "gpt-4" |}.
Proof.
  destruct (stopGenerating_self w) as [left Hstop].
  split; [reflexivity|]. split; [reflexivity|].
  split; [rewrite clearSession_self, Hstop; reflexivity|].
  split; [apply stopGenerating_signals|].
  split; [reflexivity|].
  split; [rewrite clearSession_self, Hstop; reflexivity|].
  vm_compute. reflexivity.
Qed.

(** C10: stopping is never silent.  In every state, also when no request is
    active, [stopGenerating] hands [sendMessage] a [showInProgress] with
    [inProgress = false] and then a terminal [addResponse] with [done: true]
    carrying the accumulated response text; [clearSession] does the same, and
    so does each of the setters [setMethod], [setAuthType],
    [setChromeExecutablePath] and [setProfilePath]; the constructor, which
    runs the four of them, publishes the pair four times. *)
Theorem stop_is_never_silent (host : Host) (w : World) :
  publishedMessages (since w (stopGenerating w)) = stopMessages (self w)
  /\ publishedMessages (since w (clearSession w)) = stopMessages (self w)
  /\ publishedMessages (since w (setMethod host w)) = stopMessages (self w)
  /\ publishedMessages (since w (setAuthType host w)) = stopMessages (self w)
  /\ publishedMessages (since w (setChromeExecutablePath host w)) = stopMessages (self w)
  /\ publishedMessages (since w (setProfilePath host w)) = stopMessages (self w)
  /\ publishedMessages (trace (constructor host))
     = (stopMessages (fresh host) ++ stopMessages (fresh host)
        ++ stopMessages (fresh host) ++ stopMessages (fresh host))%list.
Proof.
  split; [apply stopGenerating_published|].
  split; [apply clearSession_published|].
  repeat (split; [unfold setMethod, setAuthType, setChromeExecutablePath, setProfilePath;
                   apply setter_published; reflexivity|]).
  vm_compute. reflexivity.
Qed.

(** ** The in-flight guard (C4) *)

Section Guard.

Local Open Scope list_scope.


(** A request that reached its client call has set the flag. *)
Lemma accepted_request_is_in_flight prompt options host randomId w path r w1 :
  sendApiRequest prompt options host randomId w = (awaiting path r, w1) ->
  inProgress (self w) = false /\ inProgress (self w1) = true.
Proof.
  intros Hcall.
  destruct (sendApiRequest_spec _ _ _ _ _ _ _ Hcall) as (Hidle & Hbusy & _).
  split; assumption.
Qed.


End Guard.




(** ** Progress callbacks and cancellation (C5) *)

(** C5 (amended): the progress callbacks make no cancellation check.  In
    every world, aborted or not, an invocation stores the partial text as the
    response, leaves the abort signals alone and hands [sendMessage] one
    non-terminal [addResponse] carrying that text. *)
Theorem onProgress_publishes_regardless (path : ClientPath) (r : Request)
    (partialText : string) (w : World) :
  publishedMessages (since w (onProgress path r partialText w))
  = [addResponse partialText false
       match path with
       | viaGpt35 => conversationId (self w)
       | viaGpt3 => messageId (self w)
       end
       (autoScroll (self w)) (req_responseInMarkdown r)]
  /\ response (self (onProgress path r partialText w)) = partialText
  /\ signals (onProgress path r partialText w) = signals w.
Proof.
  split; [|split].
  - rewrite (since_app _ _ _ (onProgress_trace path r partialText w)).
    apply publishedMessages_emitted.
  - destruct (onProgress_self path r partialText w) as [left ->]. reflexivity.
  - apply onProgress_signals.
Qed.

(** Counterexample to C5 as stated: after [stopGenerating] has aborted the
    signal of the pending request, a progress callback still publishes its
    partial text. *)
Lemma partial_text_after_cancellation :
  let w2 := stopGenerating (snd gpt4Asked) in
  aborted (req_signal gpt4Request) w2 = true
  /\ publishedMessages (since w2 (onProgress viaGpt35 gpt4Request "partial" w2))
     = [addResponse "partial" false None true true].
Proof. vm_compute. split; reflexivity. Qed.

(** ** The one-slot buffer (C7) *)

Section Buffer.

Local Open Scope list_scope.

(** While detached, a batch of [sendMessage] calls delivers nothing, keeps
    the webview unset and leaves in the buffer the last message sent
    without the flag, or the old content when there is none. *)
Lemma publishAll_detached (ms : list (Message * bool)) (w : World) :
  webView (self w) = None ->
  webView (self (publishAll ms w)) = None
  /\ leftOverMessage (self (publishAll ms w))
     = match lastUnflagged ms with
       | Some m => Some m
       | None => leftOverMessage (self w)
       end
  /\ exists delta,
       trace (publishAll ms w) = trace w ++ delta /\ deliveredMessages delta = [].
Proof.
  revert w. induction ms as [|[m ignore] ms IH]; intros w Hdetached.
  - cbn. repeat split; [assumption|].
    exists []. split; [symmetry; apply app_nil_r | reflexivity].
  - change (publishAll ((m, ignore) :: ms) w)
      with (publishAll ms (sendMessage m ignore w)).
    assert (Hstill : webView (self (sendMessage m ignore w)) = None).
    { rewrite sendMessage_self. exact Hdetached. }
    destruct (IH _ Hstill) as (Hview & Hleft & delta & Htrace & Hnone).
    split; [exact Hview|]. split.
    + rewrite Hleft. cbn [lastUnflagged].
      destruct (lastUnflagged ms); [reflexivity|].
      rewrite sendMessage_self, Hdetached. cbn. destruct ignore; reflexivity.
    + rewrite sendMessage_trace, Hdetached, <- app_assoc in Htrace.
      eexists. split; [exact Htrace|].
      rewrite deliveredMessages_app, Hnone. reflexivity.
Qed.

End Buffer.

(** C7 (amended): while the webview is detached nothing is delivered, and
    the attachment that follows delivers exactly one message: the most recent
    one sent without the ignore-if-detached flag (or, when the batch has
    none, what the buffer held before), after which the buffer is empty.
    Messages sent with the flag are dropped without touching the buffer. *)
Theorem detached_buffer_keeps_last_unflagged (ms : list (Message * bool))
    (view : WebviewView) (w : World) :
  webView (self w) = None ->
  deliveredMessages (since w (publishAll ms w)) = []
  /\ deliveredMessages (since (publishAll ms w) (resolveWebviewView view (publishAll ms w)))
     = match lastUnflagged ms, leftOverMessage (self w) with
       | Some m, _ => [m]
       | None, Some old => [old]
       | None, None => []
       end
  /\ leftOverMessage (self (resolveWebviewView view (publishAll ms w))) = None.
Proof.
  intros Hdetached.
  destruct (publishAll_detached ms w Hdetached) as (_ & Hleft & delta & Htrace & Hnone).
  split; [rewrite (since_app _ _ _ Htrace); exact Hnone|].
  split; [|apply resolveWebviewView_buffer].
  rewrite (since_app _ _ _ (resolveWebviewView_trace view (publishAll ms w))), Hleft.
  destruct (lastUnflagged ms); [reflexivity|].
  destruct (leftOverMessage (self w)); reflexivity.
Qed.

(** Witness of C7 (amended): M1 then M2 while detached, then attaching,
    delivers only M2. *)
Lemma detached_buffer_witness :
  webView (self (constructor gpt4Host)) = None
  /\ deliveredMessages
       (since (publishAll [(addError (Some "M1") true, false);
                           (addError (Some "M2") true, false)] (constructor gpt4Host))
          (resolveWebviewView 7
             (publishAll [(addError (Some "M1") true, false);
                          (addError (Some "M2") true, false)] (constructor gpt4Host))))
     = [addError (Some "M2") true].
Proof.
  split; [vm_compute; reflexivity|].
  apply (detached_buffer_keeps_last_unflagged
           [(addError (Some "M1") true, false); (addError (Some "M2") true, false)]
           7 (constructor gpt4Host)).
  vm_compute. reflexivity.
Defined.

(** Counterexample to C7 as stated: the most recent message of the batch was
    sent with the flag ([loginSuccessful] always is), and the attachment
    delivers the older M1. *)
Lemma flagged_message_is_not_retained :
  let w := publishAll [(addError (Some "M1") true, false);
                       (loginSuccessful (Some false), true)] (constructor gpt4Host) in
  deliveredMessages (since w (resolveWebviewView 7 w)) = [addError (Some "M1") true]
  /\ deliveredMessages (since w (resolveWebviewView 7 w)) <> [loginSuccessful (Some false)].
Proof. vm_compute. split; [reflexivity | discriminate]. Qed.

(** ** Routing by model class (C8) *)

Section Routing.
Local Open Scope list_scope.




(** With the official API switched on, a free flag and a key at hand, a
    request reaches a client. *)
Lemma sendApiRequest_reaches_client prompt options host randomId w :
  inProgress (self w) = false ->
  useGpt3 (self w) = Some true ->
  Js.truthy (Js.or_else (cfg_apiKey (configuration host)) (globalState_apiKey host))
  = true ->
  exists path r w1,
    sendApiRequest prompt options host randomId w = (awaiting path r, w1)
    /\ req_responseInMarkdown r = negb (isCodexModel (self w))
    /\ path = (if isGpt35Model (self w) then viaGpt35 else viaGpt3).
Proof.
  intros Hidle Hon Hkey.
  destruct (sendApiRequest prompt options host randomId w) as [out w1] eqn:Hcall.
  pose proof (sendApiRequest_spec _ _ _ _ _ _ _ Hcall) as Hspec.
  destruct out as [| |path r|].
  - destruct Hspec as [Hbusy _]. congruence.
  - destruct Hspec as (_ & _ & _ & _ & Hnokey & _). congruence.
  - destruct Hspec as (_ & _ & _ & _ & _ & _ & _ & _ & _ & Hmd & Hpath & _).
    exists path, r, w1. repeat split; assumption.
  - destruct Hspec as (_ & Hoff & _). rewrite Hon in Hoff. discriminate.
Qed.


End Routing.



Example routing_code_davinci :
  fst (sendApiRequest "q" freeText codexHost "id1" (constructor codexHost))
  = awaiting viaGpt3
      {| req_prompt := "q"; req_options := freeText; req_question := "q" ++ Js.CRLF;
         req_responseInMarkdown := false; req_signal := 0 |}.
Proof. vm_compute. reflexivity. Qed.

Example routing_gpt4 :
  fst (sendApiRequest "q" freeText gpt4Host "id1" (constructor gpt4Host))
  = awaiting viaGpt35
      {| req_prompt := "q"; req_options := freeText; req_question := "q" ++ Js.CRLF;
         req_responseInMarkdown := true; req_signal := 0 |}.
Proof. vm_compute. reflexivity. Qed.

(** ** Continuation identifiers across a failed request (C9) *)

Section Continuity.
Local Open Scope list_scope.

Lemma interleave_ids path r w e :
  conversationId (self (interleave path r w e)) = conversationId (self w)
  /\ messageId (self (interleave path r w e)) = messageId (self w).
Proof.
  destruct e as [partialText| |view]; cbn [interleave].
  - destruct (onProgress_self path r partialText w) as [left ->]. split; reflexivity.
  - destruct (stopGenerating_self w) as [left ->]. split; reflexivity.
  - destruct (resolveWebviewView_self view w) as [left ->]. split; reflexivity.
Qed.

Lemma run_ids path r es w :
  conversationId (self (run path r es w)) = conversationId (self w)
  /\ messageId (self (run path r es w)) = messageId (self w).
Proof.
  revert w. induction es as [|e es IH]; intros w; [split; reflexivity|].
  change (run path r (e :: es) w) with (run path r es (interleave path r w e)).
  destruct (IH (interleave path r w e)) as [-> ->]. apply interleave_ids.
Qed.
End Continuity.



(** * Further properties of the provider *)

(** ** Preparation and start of a request, step by step *)

Section Preparing.

Local Open Scope list_scope.

(** The three ways [prepareConversation] ends. *)
Lemma prepareConversation_cases modelChanged host w :
  prepareConversation modelChanged host w
  = if modelChanged && truthyBool (useAutoLogin (self w)) then (false, w)
    else if truthyBool (useGpt3 (self w)) && needsClient modelChanged (self w) then
      match apiKeyOf host with
      | Some key =>
          if Js.truthy (Some key)
          then (true, sendMessage (loginSuccessful (useAutoLogin (self w))) true
                        (withClient key w))
          else (false, call missingKeyDialog w)
      | None => (false, call missingKeyDialog w)
      end
    else (true, sendMessage (loginSuccessful (useAutoLogin (self w))) true w).
Proof.
  unfold prepareConversation, needsClient, apiKeyOf, withClient, missingKeyDialog.
  cbv zeta.
  destruct (modelChanged && truthyBool (useAutoLogin (self w))); [reflexivity|].
  destruct (truthyBool (useGpt3 (self w))); [|reflexivity].
  cbn [andb].
  destruct (_ || _ || _); [|reflexivity].
  destruct (Js.or_else _ _) as [key|]; [|reflexivity].
  destruct (Js.truthy (Some key)); [|reflexivity].
  destruct (isGpt35Model (self w)); reflexivity.
Qed.

Lemma withClient_self key w :
  self (withClient key w)
  = if isGpt35Model (self w)
    then set_apiGpt35 (Some {| api35_apiKey := key; api35_model := model (self w) |}) (self w)
    else set_apiGpt3 (Some {| api3_apiKey := key; api3_model := model (self w) |}) (self w).
Proof. unfold withClient. destruct (isGpt35Model (self w)); reflexivity. Qed.

Lemma withClient_signals key w : signals (withClient key w) = signals w.
Proof. unfold withClient. destruct (isGpt35Model (self w)); reflexivity. Qed.

Lemma withClient_trace key w : trace (withClient key w) = trace w.
Proof. unfold withClient. destruct (isGpt35Model (self w)); reflexivity. Qed.

Lemma sendApiRequest_notPrepared prompt options host randomId w w1 :
  sendApiRequest prompt options host randomId w = (notPrepared, w1) ->
  inProgress (self w) = false
  /\ prepareConversation false host (requestLogged options w) = (false, w1).
Proof.
  intros H. rewrite sendApiRequest_unfold in H.
  destruct (inProgress (self w)) eqn:Hbusy; [discriminate H|].
  cbv zeta in H. fold (requestLogged options w) in H.
  destruct (prepareConversation false host (requestLogged options w)) as [b W] eqn:Hprep.
  destruct b; cbn [negb] in H.
  - exfalso. unfold newAbortController in H. cbv beta iota in H.
    destruct (truthyBool _) in H; [|discriminate H].
    destruct (_ && _) in H; [discriminate H|].
    destruct (_ && _) in H; discriminate H.
  - apply pair_equal_spec in H. destruct H as [_ <-]. split; reflexivity.
Qed.

Lemma sendApiRequest_awaiting prompt options host randomId w path r w1 :
  sendApiRequest prompt options host randomId w = (awaiting path r, w1) ->
  exists W,
    prepareConversation false host (requestLogged options w) = (true, W)
    /\ inProgress (self w) = false
    /\ r = {| req_prompt := prompt; req_options := options;
              req_question := processQuestion prompt (code options) (language options);
              req_responseInMarkdown := negb (isCodexModel (self (update (set_response "") W)));
              req_signal := List.length (signals W) |}
    /\ w1 = call (clientSendMessage path
                    (processQuestion prompt (code options) (language options))
                    systemContext
                    (conversationId (self (begun prompt options randomId W)))
                    (messageId (self (begun prompt options randomId W)))
                    (List.length (signals W)))
              (begun prompt options randomId W).
Proof.
  intros H. rewrite sendApiRequest_unfold in H.
  destruct (inProgress (self w)) eqn:Hbusy; [discriminate H|].
  cbv zeta in H. fold (requestLogged options w) in H.
  destruct (prepareConversation false host (requestLogged options w)) as [b W] eqn:Hprep.
  destruct b; cbn [negb] in H; [|discriminate H].
  unfold newAbortController in H. cbv beta iota in H.
  exists W. split; [reflexivity|]. split; [reflexivity|].
  unfold begun, newAbortController; cbv zeta; cbv beta iota.
  change (webView (self (update (set_response "") W))) with (webView (self W)) in *.
  destruct (webView (self W)) as [view|].
  all: destruct (truthyBool _) in H; [|discriminate H].
  all: destruct (_ && _) in H; [|destruct (_ && _) in H; [|discriminate H]].
  all: apply pair_equal_spec in H; destruct H as [Hout <-].
  all: injection Hout as <- <-.
  all: split; reflexivity.
Qed.

(** The fields, signals and calls of the start of a request. *)
Lemma begun_self prompt options randomId W :
  exists left,
    self (begun prompt options randomId W)
    = set_leftOverMessage left
        (set_currentMessageId randomId
           (set_abortController (Some (List.length (signals W)))
              (set_inProgress true (set_response "" (self W))))).
Proof.
  unfold begun, newAbortController. cbv zeta. cbv beta iota.
  change (webView (self (update (set_response "") W))) with (webView (self W)).
  destruct (webView (self W)); proj; cbn [self signals trace]; proj;
    eexists; reflexivity.
Qed.

Lemma begun_signals prompt options randomId W :
  signals (begun prompt options randomId W) = signals W ++ [false].
Proof.
  unfold begun, newAbortController. cbv zeta. cbv beta iota.
  change (webView (self (update (set_response "") W))) with (webView (self W)).
  destruct (webView (self W)); proj; cbn [self signals trace]; proj; reflexivity.
Qed.

Lemma begun_trace prompt options randomId W :
  trace (begun prompt options randomId W)
  = trace W
    ++ [match webView (self W) with
        | None => executeCommand "vscode-chatgpt.view.focus" []
        | Some view => webviewShow view
        end]
    ++ emitted (webView (self W)) (showInProgress true (useGpt3 (self W))) false
    ++ emitted (webView (self W))
         (addQuestion prompt (code options) (autoScroll (self W))) false.
Proof.
  unfold begun, newAbortController. cbv zeta. cbv beta iota.
  change (webView (self (update (set_response "") W))) with (webView (self W)).
  destruct (webView (self W)) eqn:Hview; proj; cbn [self signals trace]; proj;
    rewrite ?Hview, <- ?app_assoc; reflexivity.
Qed.

(** A resumption after a preparation that succeeded: the steps of [begun],
    then the client call of the model class if that client is there, and the
    rest of the [try] block and the [finally] block if it is not. *)
Lemma sendApiRequest_resume_prepared prompt options randomId W :
  sendApiRequest_resume prompt options randomId true W
  = let r := {| req_prompt := prompt; req_options := options;
                req_question := processQuestion prompt (code options) (language options);
                req_responseInMarkdown :=
                  negb (isCodexModel (self (update (set_response "") W)));
                req_signal := List.length (signals W) |} in
    let B := begun prompt options randomId W in
    let send (path : ClientPath) :=
      (awaiting path r,
       call (clientSendMessage path
               (processQuestion prompt (code options) (language options)) systemContext
               (conversationId (self B)) (messageId (self B))
               (List.length (signals W))) B) in
    if truthyBool (useGpt3 (self B)) then
      if isGpt35Model (self B) && isSome (apiGpt35 (self B)) then send viaGpt35
      else if negb (isGpt35Model (self B)) && isSome (apiGpt3 (self B)) then send viaGpt3
      else (finished, finally (publishAnswer r B))
    else (finished, finally (publishAnswer r B)).
Proof.
  unfold sendApiRequest_resume, begun, newAbortController.
  cbn [negb]. cbv zeta. cbv beta iota.
  change (webView (self (update (set_response "") W))) with (webView (self W)).
  destruct (webView (self W)) as [view|]; reflexivity.
Qed.

(** The fields the steps of [begun] do not write. *)
Lemma begun_clients prompt options randomId W :
  useGpt3 (self (begun prompt options randomId W)) = useGpt3 (self W)
  /\ isGpt35Model (self (begun prompt options randomId W)) = isGpt35Model (self W)
  /\ apiGpt35 (self (begun prompt options randomId W)) = apiGpt35 (self W)
  /\ apiGpt3 (self (begun prompt options randomId W)) = apiGpt3 (self W).
Proof.
  unfold isGpt35Model. destruct (begun_self prompt options randomId W) as [left ->].
  repeat split.
Qed.

End Preparing.

(** ** Texts: escaping, identifiers *)

Section Texts.

Lemma append_cons (c : ascii) (s t : string) : String c s ++ t = String c (s ++ t).
Proof. reflexivity. Qed.

Lemma length_append (s t : string) :
  String.length (s ++ t) = String.length s + String.length t.
Proof.
  induction s as [|c s IH]; [reflexivity|].
  rewrite append_cons. cbn [String.length]. rewrite IH. reflexivity.
Qed.

Lemma get_in_range (s : string) (n : nat) :
  n < String.length s -> exists c, String.get n s = Some c.
Proof.
  revert n. induction s as [|a s IH]; intros n Hn; [inversion Hn|].
  destruct n as [|n]; [exists a; reflexivity|].
  cbn [String.get]. apply IH. cbn [String.length] in Hn. lia.
Qed.

(** An escaped text never begins with a dollar sign. *)
Lemma escapeDollars_head (s : string) (rest : string) :
  escapeDollars s <> String "$" rest.
Proof.
  destruct s as [|c s]; [discriminate|].
  cbn [escapeDollars]. destruct (Ascii.eqb c "$") eqn:Hc; [discriminate|].
  intros H. injection H as -> _. discriminate.
Qed.

Lemma escapeDollars_dollar (rest : string) :
  escapeDollars (String "$" rest) = String "\" (String "$" (escapeDollars rest)).
Proof. reflexivity. Qed.

Lemma escapeDollars_other (c : ascii) (rest : string) :
  Ascii.eqb c "$" = false ->
  escapeDollars (String c rest) = String c (escapeDollars rest).
Proof. intros H. cbn [escapeDollars]. rewrite H. reflexivity. Qed.

Lemma unescape_escape (s : string) : unescapeDollars (escapeDollars s) = s.
Proof.
  induction s as [|c s IH]; [reflexivity|].
  destruct (Ascii.eqb c "$") eqn:Hc.
  - apply Ascii.eqb_eq in Hc. subst c. rewrite escapeDollars_dollar.
    cbn [unescapeDollars]. cbn. rewrite IH. reflexivity.
  - rewrite (escapeDollars_other c s Hc).
    pose proof (escapeDollars_head s) as Hhead.
    destruct (escapeDollars s) as [|d rest] eqn:Hesc.
    + cbn [unescapeDollars]. cbn [unescapeDollars] in IH. rewrite <- IH. reflexivity.
    + change (unescapeDollars (String c (String d rest)))
        with (if Ascii.eqb c "\" && Ascii.eqb d "$"
              then String "$" (unescapeDollars rest)
              else String c (unescapeDollars (String d rest))).
      destruct (Ascii.eqb d "$") eqn:Hd.
      * apply Ascii.eqb_eq in Hd. subst d. exfalso. exact (Hhead rest eq_refl).
      * rewrite andb_false_r, IH. reflexivity.
Qed.

Lemma escapeDollars_guard (s : string) (i : nat) :
  String.get i (escapeDollars s) = Some "$"%char ->
  exists j, i = S j /\ String.get j (escapeDollars s) = Some "\"%char.
Proof.
  revert i. induction s as [|c s IH]; intros i H; [destruct i; discriminate H|].
  destruct (Ascii.eqb c "$") eqn:Hc.
  - apply Ascii.eqb_eq in Hc. subst c. rewrite escapeDollars_dollar in *.
    destruct i as [|[|i]].
    + discriminate H.
    + exists 0. split; reflexivity.
    + cbn [String.get] in H. destruct (IH i H) as (j & -> & Hj).
      exists (S (S j)). split; [reflexivity|]. exact Hj.
  - rewrite (escapeDollars_other c s Hc) in *.
    destruct i as [|i].
    + cbn [String.get] in H. injection H as ->. discriminate Hc.
    + cbn [String.get] in H. destruct (IH i H) as (j & -> & Hj).
      exists (S j). split; [reflexivity|]. exact Hj.
Qed.

Lemma escapeDollars_plain (s : string) :
  (forall i, String.get i s <> Some "$"%char) -> escapeDollars s = s.
Proof.
  induction s as [|c s IH]; intros H; [reflexivity|].
  destruct (Ascii.eqb c "$") eqn:Hc.
  - apply Ascii.eqb_eq in Hc. subst c. exfalso. exact (H 0 eq_refl).
  - rewrite (escapeDollars_other c s Hc), IH; [reflexivity|].
    intros i. exact (H (S i)).
Qed.

(** The loop of [getRandomId]: what is there stays, and each round adds
    the character it drew. *)
Lemma getRandomId_loop_spec (random : nat -> nat) (n i : nat) (text : string) :
  (forall k, k < n -> random (i + k) < 62) ->
  String.length (getRandomId_loop random i n text) = String.length text + n
  /\ (forall j, j < String.length text ->
        String.get j (getRandomId_loop random i n text) = String.get j text)
  /\ (forall k, k < n ->
        String.get (String.length text + k) (getRandomId_loop random i n text)
        = String.get (random (i + k)) possible).
Proof.
  revert i text. induction n as [|n IH]; intros i text Hdraw.
  - cbn [getRandomId_loop]. split; [lia|]. split; [reflexivity|].
    intros k Hk. inversion Hk.
  - cbn [getRandomId_loop].
    assert (Hi : random i < 62) by (rewrite <- (Nat.add_0_r i); apply Hdraw; lia).
    destruct (get_in_range possible (random i) Hi) as [c Hc].
    assert (Hchar : charAt possible (random i) = String c EmptyString)
      by (unfold charAt; rewrite Hc; reflexivity).
    rewrite Hchar.
    assert (Hlen : String.length (text ++ String c EmptyString) = S (String.length text))
      by (rewrite length_append; cbn [String.length]; lia).
    destruct (IH (S i) (text ++ String c EmptyString)) as (Hl & Hold & Hnew).
    { intros k Hk. replace (S i + k) with (i + S k) by lia. apply Hdraw. lia. }
    rewrite Hlen in Hl, Hold, Hnew.
    split; [lia|]. split.
    + intros j Hj. rewrite Hold by lia. symmetry. apply append_correct1. exact Hj.
    + intros k Hk. destruct k as [|k].
      * rewrite !Nat.add_0_r, Hold by lia.
        pose proof (append_correct2 text (String c EmptyString) 0) as Happ.
        cbn [Nat.add] in Happ. rewrite <- Happ, Hc. reflexivity.
      * replace (String.length text + S k) with (S (String.length text) + k) by lia.
        rewrite Hnew by lia. replace (S i + k) with (i + S k) by lia. reflexivity.
Qed.

End Texts.

(** X1: the text handed to [insertSnippet] for an [editCode] message has a
    backslash in front of every dollar sign of the value and nothing else
    added: read back with a backslash-dollar pair as a dollar sign it is the
    value again, every dollar sign in it stands right after a backslash, and
    a value without dollar signs goes through unchanged. *)
Theorem editCode_escapes_every_dollar (value : string) (host : Host) (randomId : string)
    (w : World) :
  snd (fst (onDidReceiveMessage
              {| data_type := "editCode"; data_value := value; data_language := None |}
              true host randomId w))
  = [insertSnippet (escapeDollars value)]
  /\ unescapeDollars (escapeDollars value) = value
  /\ (forall i, String.get i (escapeDollars value) = Some "$"%char ->
        exists j, i = S j /\ String.get j (escapeDollars value) = Some "\"%char)
  /\ ((forall i, String.get i value <> Some "$"%char) -> escapeDollars value = value).
Proof.
  split; [reflexivity|]. split; [apply unescape_escape|].
  split; [apply escapeDollars_guard | apply escapeDollars_plain].
Qed.

(** X2: [getRandomId] returns 32 characters, the i-th of which is the
    character of the alphabet at the index drawn in round i, as long as each
    draw is an index into the 62 characters, which
    [Math.floor(Math.random() * 62)] is. *)
Theorem getRandomId_has_32_drawn_characters (random : nat -> nat) :
  (forall i, i < 32 -> random i < 62) ->
  String.length (getRandomId random) = 32
  /\ forall i, i < 32 ->
       String.get i (getRandomId random) = String.get (random i) possible.
Proof.
  intros Hdraw. unfold getRandomId.
  destruct (getRandomId_loop_spec random 32 0 EmptyString) as (Hlen & _ & Hnew).
  { intros k Hk. apply Hdraw. exact Hk. }
  split; [exact Hlen|]. intros i Hi. exact (Hnew i Hi).
Qed.

Lemma getRandomId_has_32_drawn_characters_witness :
  String.length (getRandomId (fun i => i)) = 32
  /\ forall i, i < 32 ->
       String.get i (getRandomId (fun i => i)) = String.get i possible.
Proof.
  apply (getRandomId_has_32_drawn_characters (fun i => i)). intros i Hi. lia.
Defined.

(** ** The texts of a failed request *)

Section Failing.

Local Open Scope list_scope.

Lemma truthy_or_else (a b : option string) :
  Js.truthy (Js.or_else a b) = Js.truthy a || Js.truthy b.
Proof. unfold Js.or_else. destruct (Js.truthy a) eqn:Ha; [exact Ha | reflexivity]. Qed.

(** The fixed texts exist for six status codes and no other. *)
Lemma statusCodeMessage_none (p : ChatGptViewProvider) (statusCode : option N) :
  statusCodeMessage p statusCode = None
  <-> forall n, In n [400; 401; 403; 404; 429; 500]%N -> statusCode <> Some n.
Proof.
  unfold statusCodeMessage, statusIs. destruct statusCode as [k|].
  - split.
    + intros H n Hin Heq. injection Heq as ->.
      cbn [In] in Hin.
      destruct Hin as [<-|[<-|[<-|[<-|[<-|[<-|[]]]]]]]; cbn in H; discriminate H.
    + intros H.
      destruct (k =? 400)%N eqn:E1;
        [apply N.eqb_eq in E1; exfalso; apply (H 400%N); cbn; auto; congruence|].
      destruct (k =? 401)%N eqn:E2;
        [apply N.eqb_eq in E2; exfalso; apply (H 401%N); cbn; auto; congruence|].
      destruct (k =? 403)%N eqn:E3;
        [apply N.eqb_eq in E3; exfalso; apply (H 403%N); cbn; auto; congruence|].
      destruct (k =? 404)%N eqn:E4;
        [apply N.eqb_eq in E4; exfalso; apply (H 404%N); cbn; auto 7; congruence|].
      destruct (k =? 429)%N eqn:E5;
        [apply N.eqb_eq in E5; exfalso; apply (H 429%N); cbn; auto 7; congruence|].
      destruct (k =? 500)%N eqn:E6;
        [apply N.eqb_eq in E6; exfalso; apply (H 500%N); cbn; auto 8; congruence|].
      reflexivity.
  - split; [intros _ n _; discriminate | reflexivity].
Qed.

(** The calls of the [catch] and [finally] blocks, in order. *)
Lemma rejected_calls r error w :
  exists value,
    trace (sendApiRequest_rejected r error w)
    = trace w
      ++ [consoleError "api-request-failed"]
      ++ (if truthyNumber (err_response_status error)
             || Js.truthy (err_response_statusText error)
          then [showErrorMessage retryHint ["清除对话并重试"]] else [])
      ++ emitted (webView (self w)) (addError value (autoScroll (self w))) false
      ++ emitted (webView (self w)) (showInProgress false None) false
    /\ (value = None
        <-> truthyNumber (err_response_status error) = false
            /\ Js.truthy (err_response_statusText error) = false
            /\ statusCodeMessage (self w) (err_statusCode error) = None
            /\ Js.truthy (err_response_data_error_message error) = false
            /\ Js.truthy (err_tostring error) = false
            /\ Js.truthy (err_message error) = false
            /\ Js.truthy (err_name error) = false).
Proof.
  unfold sendApiRequest_rejected.
  destruct (truthyNumber (err_response_status error)) eqn:Hstatus;
    destruct (Js.truthy (err_response_statusText error)) eqn:Htext;
    cbn [orb]; cbv zeta; rewrite finally_trace; proj;
    rewrite !truthy_or_else;
    destruct (Js.truthy (err_response_data_error_message error));
    destruct (Js.truthy (err_tostring error));
    destruct (Js.truthy (err_message error));
    destruct (Js.truthy (err_name error));
    cbn [orb];
    (eexists; split; [rewrite <- ?app_assoc; reflexivity|]);
    try (split; [discriminate | intros (? & ? & ? & ? & ? & ? & ?); discriminate]).
  split.
  - intros H. repeat split; try reflexivity. exact H.
  - intros (_ & _ & H & _). exact H.
Qed.

End Failing.

(** X3: a client call that rejects with a value other than [undefined] and
    [null] publishes an [addError] and then the [showInProgress] of the
    [finally] block, and the text of the [addError] is undefined exactly when
    the error gives nothing to say: no HTTP status and no status text in
    [error.response], a [statusCode] outside 400, 401, 403, 404, 429 and
    500, and none of [response.data.error.message], [tostring()], [message]
    and [name] truthy.  A client call that rejects with [undefined] or
    [null] publishes no [addError] at all: [error.statusCode] (line 422)
    throws in the catch block, and only the [showInProgress] of the
    [finally] block is published. *)
Theorem error_text_undefined_only_without_source (r : Request) (error : ApiError)
    (w : World) :
  (exists value,
     publishedMessages (since w (sendApiRequest_rejected r error w))
     = [addError value (autoScroll (self w)); showInProgress false None]
     /\ (value = None
         <-> truthyNumber (err_response_status error) = false
             /\ Js.truthy (err_response_statusText error) = false
             /\ (forall n, In n [400; 401; 403; 404; 429; 500]%N ->
                           err_statusCode error <> Some n)
             /\ Js.truthy (err_response_data_error_message error) = false
             /\ Js.truthy (err_tostring error) = false
             /\ Js.truthy (err_message error) = false
             /\ Js.truthy (err_name error) = false))
  /\ publishedMessages (since w (sendApiRequest_rejected_nullish w))
     = [showInProgress false None].
Proof.
  split; [|apply nullish_published].
  destruct (rejected_calls r error w) as (value & Htrace & Hvalue).
  exists value. split.
  - rewrite (since_app _ _ _ Htrace).
    rewrite !publishedMessages_app, !publishedMessages_emitted.
    destruct (_ || _); reflexivity.
  - rewrite Hvalue, statusCodeMessage_none. reflexivity.
Qed.

(** X4: the dialog that offers to clear the conversation and retry is shown
    exactly for the errors that carry an HTTP response status or status
    text; the errors told apart by [statusCode] get their fixed text and no
    such offer. *)
Theorem retry_offer_needs_response_status (r : Request) (error : ApiError) (w : World) :
  In (showErrorMessage retryHint ["清除对话并重试"])
     (since w (sendApiRequest_rejected r error w))
  <-> truthyNumber (err_response_status error)
      || Js.truthy (err_response_statusText error) = true.
Proof.
  destruct (rejected_calls r error w) as (value & Htrace & _).
  rewrite (since_app _ _ _ Htrace).
  destruct (_ || _).
  - split; [reflexivity|]. intros _. right. left. reflexivity.
  - split; [|discriminate]. intros H.
    cbn [app In] in H. destruct H as [H|H]; [discriminate H|].
    apply in_app_or in H.
    destruct H as [H|H]; unfold emitted in H; destruct (webView (self w));
      cbn [In] in H; intuition discriminate.
Qed.

(** ** The buffer, the webview and the stop command *)

Section Detached.

Local Open Scope list_scope.




(** The buffer after [stopGenerating]. *)
Lemma stopGenerating_buffer (w : World) :
  leftOverMessage (self (stopGenerating w))
  = match webView (self w) with
    | Some _ => leftOverMessage (self w)
    | None => Some (addResponse (response (self w)) true (Some (currentMessageId (self w)))
                      (autoScroll (self w)) (negb (isCodexModel (self w))))
    end.
Proof.
  unfold stopGenerating, abortSignal. cbv zeta.
  destruct (abortController (self w)); proj; cbn [self signals trace]; proj;
    destruct (webView (self w)); reflexivity.
Qed.

Lemma setAborted_twice (c : AbortController) (l : list bool) :
  setAborted c (setAborted c l) = setAborted c l.
Proof.
  revert c. induction l as [|b l IH]; intros c; [destruct c; reflexivity|].
  destruct c as [|c]; [reflexivity|]. cbn [setAborted]. rewrite IH. reflexivity.
Qed.

End Detached.



(** X6: attaching a webview empties the buffer: a second attachment
    delivers nothing, whatever was buffered before the first, and from then
    on every message goes to the webview attached last. *)
Theorem second_attachment_delivers_nothing (first second : WebviewView) (w : World)
    (m : Message) (ignore : bool) :
  since (resolveWebviewView first w)
        (resolveWebviewView second (resolveWebviewView first w)) = []
  /\ since (resolveWebviewView second (resolveWebviewView first w))
           (sendMessage m ignore (resolveWebviewView second (resolveWebviewView first w)))
     = [published m ignore; postMessage second m].
Proof.
  split.
  - apply since_app. rewrite resolveWebviewView_trace, resolveWebviewView_buffer.
    reflexivity.
  - apply since_app. rewrite sendMessage_trace.
    destruct (resolveWebviewView_self second (resolveWebviewView first w)) as [left ->].
    reflexivity.
Qed.

(** X7: stopping twice is stopping once, as far as the provider and the
    abort signals go: the second [stopGenerating] leaves every field and
    every signal as the first left them, and publishes the same two
    messages again. *)
Theorem stopGenerating_twice (w : World) :
  self (stopGenerating (stopGenerating w)) = self (stopGenerating w)
  /\ signals (stopGenerating (stopGenerating w)) = signals (stopGenerating w)
  /\ publishedMessages (since (stopGenerating w) (stopGenerating (stopGenerating w)))
     = publishedMessages (since w (stopGenerating w)).
Proof.
  pose proof (stopGenerating_buffer w) as Hbuf.
  pose proof (stopGenerating_buffer (stopGenerating w)) as Hbuf2.
  destruct (stopGenerating_self w) as [left Hself].
  destruct (stopGenerating_self (stopGenerating w)) as [left2 Hself2].
  assert (Hleft2 : left2 = leftOverMessage (self (stopGenerating (stopGenerating w))))
    by (rewrite Hself2; reflexivity).
  rewrite Hbuf2 in Hleft2. rewrite Hself in Hbuf, Hleft2.
  change (leftOverMessage (set_leftOverMessage left (set_inProgress false (self w))))
    with left in Hbuf.
  split; [|split].
  - rewrite Hself2, Hself, Hleft2, Hbuf.
    destruct (self w) as [view sub scroll autoLogin gpt3 chrome profile mdl api3 api35
                          convId msgId proxy method auth counter busy ctl curId resp
                          buffered].
    destruct view; reflexivity.
  - rewrite (stopGenerating_signals (stopGenerating w)), Hself.
    change (abortController (set_leftOverMessage left (set_inProgress false (self w))))
      with (abortController (self w)).
    rewrite stopGenerating_signals.
    destruct (abortController (self w)); [apply setAborted_twice | reflexivity].
  - rewrite !stopGenerating_published, Hself. reflexivity.
Qed.

(** ** Construction and the configuration setters *)

Section Configuring.

Local Open Scope list_scope.

Lemma clearSession_keeps (w : World) :
  exists left,
    self (clearSession w)
    = set_conversationId None
        (set_messageId None
           (set_apiGpt3 None (set_leftOverMessage left (set_inProgress false (self w))))).
Proof.
  rewrite clearSession_self. destruct (stopGenerating_self w) as [left ->].
  exists left. reflexivity.
Qed.

End Configuring.

(** X8: [setChromeExecutablePath] never leaves the path empty.  A
    non-empty [chatgpt.chromiumPath] setting is taken as it is; an absent or
    empty one gives the default of the platform, which on anything but
    Windows and macOS is [/usr/bin/google-chrome] if that file exists and
    [/usr/bin/google-chrome-stable] otherwise. *)
Theorem chromiumPath_is_never_empty (host : Host) (w : World) :
  Js.truthy (chromiumPath (self (setChromeExecutablePath host w))) = true
  /\ (Js.truthy (cfg_chromiumPath (configuration host)) = true ->
      chromiumPath (self (setChromeExecutablePath host w))
      = cfg_chromiumPath (configuration host))
  /\ (Js.truthy (cfg_chromiumPath (configuration host)) = false ->
      String.eqb (platform host) "win32" = false ->
      String.eqb (platform host) "darwin" = false ->
      chromiumPath (self (setChromeExecutablePath host w))
      = Some (if chromeExists host then "/usr/bin/google-chrome"
              else "/usr/bin/google-chrome-stable")).
Proof.
  unfold setChromeExecutablePath. cbv zeta.
  match goal with |- context [clearSession ?x] =>
    destruct (clearSession_keeps x) as [left ->] end.
  proj. unfold Js.or_else.
  destruct (Js.truthy (cfg_chromiumPath (configuration host))) eqn:Hcfg.
  - split; [exact Hcfg|]. split; [reflexivity | discriminate].
  - split; [|split; [discriminate|]].
    + destruct (String.eqb (platform host) "win32"); [reflexivity|].
      destruct (String.eqb (platform host) "darwin"); [reflexivity|].
      destruct (chromeExists host); reflexivity.
    + intros _ -> ->. destruct (chromeExists host); reflexivity.
Qed.

(** X9: a provider fresh from the constructor is idle and detached, uses
    the official API without auto-login, has no client, no continuation
    identifiers and no abort signal, and has delivered nothing; its buffer
    holds the terminal [addResponse] with the empty text that the last
    [clearSession] of the constructor published, so the first webview
    attached is sent exactly that message. *)
Theorem constructor_state (host : Host) (view : WebviewView) :
  inProgress (self (constructor host)) = false
  /\ webView (self (constructor host)) = None
  /\ useGpt3 (self (constructor host)) = Some true
  /\ useAutoLogin (self (constructor host)) = Some false
  /\ apiGpt3 (self (constructor host)) = None
  /\ apiGpt35 (self (constructor host)) = None
  /\ conversationId (self (constructor host)) = None
  /\ messageId (self (constructor host)) = None
  /\ questionCounter (self (constructor host)) = 0%N
  /\ signals (constructor host) = []
  /\ deliveredMessages (trace (constructor host)) = []
  /\ deliveredMessages (since (constructor host)
                          (resolveWebviewView view (constructor host)))
     = [addResponse "" true (Some "") (autoScroll (self (constructor host)))
          (negb (isCodexModel (self (constructor host))))].
Proof.
  destruct host as [[notify scroll mdl method auth chrome profile proxy key]
                    stored os hasChrome].
  repeat split; vm_compute; reflexivity.
Qed.

(** ** Clients and keys *)

Section Clients.

Local Open Scope list_scope.

Lemma prepareConversation_proceeds modelChanged host w :
  modelChanged && truthyBool (useAutoLogin (self w)) = false ->
  truthyBool (useGpt3 (self w)) && needsClient modelChanged (self w) = false ->
  prepareConversation modelChanged host w
  = (true, sendMessage (loginSuccessful (useAutoLogin (self w))) true w).
Proof. intros H1 H2. rewrite prepareConversation_cases, H1, H2. reflexivity. Qed.

Lemma prepareConversation_builds modelChanged host w key :
  modelChanged && truthyBool (useAutoLogin (self w)) = false ->
  truthyBool (useGpt3 (self w)) && needsClient modelChanged (self w) = true ->
  apiKeyOf host = Some key ->
  Js.truthy (Some key) = true ->
  prepareConversation modelChanged host w
  = (true, sendMessage (loginSuccessful (useAutoLogin (self w))) true (withClient key w)).
Proof.
  intros H1 H2 H3 H4. rewrite prepareConversation_cases, H1, H2, H3, H4. reflexivity.
Qed.

Lemma prepareConversation_asks modelChanged host w :
  modelChanged && truthyBool (useAutoLogin (self w)) = false ->
  truthyBool (useGpt3 (self w)) && needsClient modelChanged (self w) = true ->
  Js.truthy (apiKeyOf host) = false ->
  prepareConversation modelChanged host w = (false, call missingKeyDialog w).
Proof.
  intros H1 H2 H3. rewrite prepareConversation_cases, H1, H2.
  destruct (apiKeyOf host) as [key|]; [rewrite H3|]; reflexivity.
Qed.

Lemma needsClient_present (p : ChatGptViewProvider) :
  (if isGpt35Model p then isSome (apiGpt35 p) else isSome (apiGpt3 p)) = true ->
  needsClient false p = false.
Proof.
  unfold needsClient. destruct (isGpt35Model p); intros ->; reflexivity.
Qed.

Lemma needsClient_absent (p : ChatGptViewProvider) :
  (if isGpt35Model p then isSome (apiGpt35 p) else isSome (apiGpt3 p)) = false ->
  needsClient false p = true.
Proof.
  unfold needsClient. destruct (isGpt35Model p); intros ->; reflexivity.
Qed.

End Clients.

(** X10: a client that exists for the model class is reused without a look
    at the key: [prepareConversation()] succeeds on every host, also one
    with no key at all, shows no dialog, keeps both clients as they are and
    only publishes [loginSuccessful]. *)
Theorem existing_client_is_reused (host : Host) (w : World) :
  (if isGpt35Model (self w) then isSome (apiGpt35 (self w))
   else isSome (apiGpt3 (self w))) = true ->
  fst (prepareConversation false host w) = true
  /\ apiGpt3 (self (snd (prepareConversation false host w))) = apiGpt3 (self w)
  /\ apiGpt35 (self (snd (prepareConversation false host w))) = apiGpt35 (self w)
  /\ since w (snd (prepareConversation false host w))
     = emitted (webView (self w)) (loginSuccessful (useAutoLogin (self w))) true.
Proof.
  intros Hclient.
  rewrite (prepareConversation_proceeds false host w eq_refl)
    by (rewrite (needsClient_present _ Hclient); apply andb_false_r).
  cbn [fst snd]. proj. repeat split.
  apply since_app. rewrite sendMessage_trace. reflexivity.
Qed.

Lemma existing_client_is_reused_witness :
  fst (prepareConversation false keylessHost gpt4Answered) = true
  /\ apiGpt3 (self (snd (prepareConversation false keylessHost gpt4Answered)))
     = apiGpt3 (self gpt4Answered)
  /\ apiGpt35 (self (snd (prepareConversation false keylessHost gpt4Answered)))
     = apiGpt35 (self gpt4Answered)
  /\ since gpt4Answered (snd (prepareConversation false keylessHost gpt4Answered))
     = emitted (webView (self gpt4Answered))
         (loginSuccessful (useAutoLogin (self gpt4Answered))) true.
Proof.
  apply (existing_client_is_reused keylessHost gpt4Answered).
  vm_compute. reflexivity.
Defined.

(** X11: [prepareConversation()] fails in one case only: the official API
    is on, the client of the model class is missing, and neither the
    [gpt3.apiKey] setting nor the key stored in the global state is a
    non-empty string.  It then shows the missing-key dialog and does nothing
    else: no field is written and nothing is published. *)
Theorem prepareConversation_fails_only_without_key (host : Host) (w : World) :
  fst (prepareConversation false host w)
  = negb (truthyBool (useGpt3 (self w))
          && negb (if isGpt35Model (self w) then isSome (apiGpt35 (self w))
                   else isSome (apiGpt3 (self w)))
          && negb (Js.truthy (Js.or_else (cfg_apiKey (configuration host))
                                (globalState_apiKey host))))
  /\ (fst (prepareConversation false host w) = false ->
      snd (prepareConversation false host w)
      = call (showErrorMessage missingKeyText ["存储在会话中（推荐）"; "打开设置"]) w).
Proof.
  fold (apiKeyOf host).
  destruct (if isGpt35Model (self w) then isSome (apiGpt35 (self w))
            else isSome (apiGpt3 (self w))) eqn:Hclient.
  - rewrite (prepareConversation_proceeds false host w eq_refl)
      by (rewrite (needsClient_present _ Hclient); apply andb_false_r).
    cbn [fst snd negb]. rewrite andb_false_r. split; [reflexivity | discriminate].
  - destruct (truthyBool (useGpt3 (self w))) eqn:Hon.
    + destruct (Js.truthy (apiKeyOf host)) eqn:Hkey.
      * destruct (apiKeyOf host) as [key|] eqn:Hsome; [|discriminate Hkey].
        rewrite (prepareConversation_builds false host w key eq_refl); try assumption.
        -- split; [reflexivity | discriminate].
        -- rewrite Hon, (needsClient_absent _ Hclient). reflexivity.
      * rewrite (prepareConversation_asks false host w eq_refl); try assumption.
        -- split; reflexivity.
        -- rewrite Hon, (needsClient_absent _ Hclient). reflexivity.
    + rewrite (prepareConversation_proceeds false host w eq_refl)
        by (rewrite Hon; reflexivity).
      split; [reflexivity | discriminate].
Qed.

(** X12: [prepareConversation(true)], the call for a changed model, builds
    the client of the class of the current model anew with the current key,
    whether one existed or not, and touches nothing else: the client of the
    other class, the continuation identifiers and the in-flight flag stay,
    so the conversation goes on with the new client.  Under auto-login it
    does nothing and reports failure. *)
Theorem model_change_rebuilds_client (host : Host) (w : World) (key : string) :
  truthyBool (useGpt3 (self w)) = true ->
  Js.or_else (cfg_apiKey (configuration host)) (globalState_apiKey host) = Some key ->
  Js.truthy (Some key) = true ->
  (truthyBool (useAutoLogin (self w)) = true ->
   prepareConversation true host w = (false, w))
  /\ (truthyBool (useAutoLogin (self w)) = false ->
      fst (prepareConversation true host w) = true
      /\ (if isGpt35Model (self w)
          then apiGpt35 (self (snd (prepareConversation true host w)))
               = Some {| api35_apiKey := key; api35_model := model (self w) |}
               /\ apiGpt3 (self (snd (prepareConversation true host w))) = apiGpt3 (self w)
          else apiGpt3 (self (snd (prepareConversation true host w)))
               = Some {| api3_apiKey := key; api3_model := model (self w) |}
               /\ apiGpt35 (self (snd (prepareConversation true host w)))
                  = apiGpt35 (self w))
      /\ conversationId (self (snd (prepareConversation true host w)))
         = conversationId (self w)
      /\ messageId (self (snd (prepareConversation true host w))) = messageId (self w)
      /\ inProgress (self (snd (prepareConversation true host w))) = inProgress (self w)).
Proof.
  intros Hon Hkey Htruthy. split.
  - intros Hauto. rewrite prepareConversation_cases, Hauto. reflexivity.
  - intros Hauto.
    rewrite (prepareConversation_builds true host w key); try assumption.
    + cbn [fst snd]. rewrite !sendMessage_self, !withClient_self.
      destruct (isGpt35Model (self w)); repeat split.
    + rewrite Hon. unfold needsClient. rewrite orb_true_r. reflexivity.
Qed.

Lemma model_change_rebuilds_client_witness :
  (truthyBool (useAutoLogin (self gpt4Answered)) = true ->
   prepareConversation true codexHost gpt4Answered = (false, gpt4Answered))
  /\ (truthyBool (useAutoLogin (self gpt4Answered)) = false ->
      fst (prepareConversation true codexHost gpt4Answered) = true
      /\ (if isGpt35Model (self gpt4Answered)
          then apiGpt35 (self (snd (prepareConversation true codexHost gpt4Answered)))
               = Some {| api35_apiKey := "sk-test";
                         api35_model := model (self gpt4Answered) |}
               /\ apiGpt3 (self (snd (prepareConversation true codexHost gpt4Answered)))
                  = apiGpt3 (self gpt4Answered)
          else apiGpt3 (self (snd (prepareConversation true codexHost gpt4Answered)))
               = Some {| api3_apiKey := "sk-test";
                         api3_model := model (self gpt4Answered) |}
               /\ apiGpt35 (self (snd (prepareConversation true codexHost gpt4Answered)))
                  = apiGpt35 (self gpt4Answered))
      /\ conversationId (self (snd (prepareConversation true codexHost gpt4Answered)))
         = conversationId (self gpt4Answered)
      /\ messageId (self (snd (prepareConversation true codexHost gpt4Answered)))
         = messageId (self gpt4Answered)
      /\ inProgress (self (snd (prepareConversation true codexHost gpt4Answered)))
         = inProgress (self gpt4Answered)).
Proof.
  apply (model_change_rebuilds_client codexHost gpt4Answered "sk-test");
    vm_compute; reflexivity.
Defined.

(** ** The client call of a request *)

Section Calling.

Local Open Scope list_scope.

Lemma clientCalls_app (t t' : list HostCall) :
  clientCalls (t ++ t') = clientCalls t ++ clientCalls t'.
Proof.
  induction t as [|c t IH]; [reflexivity|].
  destruct c; cbn [app clientCalls]; rewrite IH; reflexivity.
Qed.

Lemma clientCalls_emitted view m ignore : clientCalls (emitted view m ignore) = [].
Proof. destruct view; reflexivity. Qed.

(** What [prepareConversation] leaves alone, however it ends. *)
Lemma prepareConversation_fields modelChanged host w b W :
  prepareConversation modelChanged host w = (b, W) ->
  signals W = signals w
  /\ questionCounter (self W) = questionCounter (self w)
  /\ response (self W) = response (self w)
  /\ currentMessageId (self W) = currentMessageId (self w)
  /\ abortController (self W) = abortController (self w)
  /\ useAutoLogin (self W) = useAutoLogin (self w)
  /\ useGpt3 (self W) = useGpt3 (self w)
  /\ webView (self W) = webView (self w)
  /\ conversationId (self W) = conversationId (self w)
  /\ messageId (self W) = messageId (self w)
  /\ inProgress (self W) = inProgress (self w)
  /\ model (self W) = model (self w)
  /\ autoScroll (self W) = autoScroll (self w).
Proof.
  rewrite prepareConversation_cases. unfold missingKeyDialog.
  destruct (modelChanged && truthyBool (useAutoLogin (self w)));
    [intros H; injection H as <- <-; repeat split|].
  destruct (truthyBool (useGpt3 (self w)) && needsClient modelChanged (self w)).
  - destruct (apiKeyOf host) as [key|]; [destruct (Js.truthy (Some key))|];
      intros H; injection H as <- <-;
      rewrite ?sendMessage_self, ?sendMessage_signals, ?withClient_self,
        ?withClient_signals;
      try destruct (isGpt35Model (self w)); repeat split.
  - intros H; injection H as <- <-.
    rewrite ?sendMessage_self, ?sendMessage_signals. repeat split.
Qed.

(** The calls of a preparation that succeeds: the one [loginSuccessful]. *)
Lemma prepareConversation_true_trace modelChanged host w W :
  prepareConversation modelChanged host w = (true, W) ->
  trace W
  = trace w ++ emitted (webView (self w)) (loginSuccessful (useAutoLogin (self w))) true.
Proof.
  rewrite prepareConversation_cases.
  destruct (modelChanged && truthyBool (useAutoLogin (self w))); [discriminate|].
  destruct (truthyBool (useGpt3 (self w)) && needsClient modelChanged (self w)).
  - destruct (apiKeyOf host) as [key|]; [destruct (Js.truthy (Some key))|];
      try discriminate.
    intros H; injection H as <-.
    rewrite sendMessage_trace, withClient_trace, withClient_self.
    destruct (isGpt35Model (self w)); reflexivity.
  - intros H; injection H as <-. rewrite sendMessage_trace. reflexivity.
Qed.

(** The calls of a preparation that fails on a call without arguments. *)
Lemma prepareConversation_false_world host w W :
  prepareConversation false host w = (false, W) -> W = call missingKeyDialog w.
Proof.
  rewrite prepareConversation_cases. cbn [andb].
  destruct (truthyBool (useGpt3 (self w)) && needsClient false (self w)); [|discriminate].
  destruct (apiKeyOf host) as [key|]; [destruct (Js.truthy (Some key))|];
    try discriminate; intros H; injection H as <-; reflexivity.
Qed.

Lemma requestLogged_self options w :
  self (requestLogged options w)
  = set_questionCounter (questionCounter (self w) + 1)%N (self w).
Proof. reflexivity. Qed.

Lemma requestLogged_signals options w : signals (requestLogged options w) = signals w.
Proof. reflexivity. Qed.

Lemma requestLogged_trace options w :
  trace (requestLogged options w)
  = trace w
    ++ [consoleDebug "api-request-sent"
          [("chatgpt.command", command options);
           ("chatgpt.hasCode", Js.string_of_bool (Js.truthy (code options)));
           ("chatgpt.hasPreviousAnswer",
            Js.string_of_bool (Js.truthy (previousAnswer options)))]].
Proof. reflexivity. Qed.

(** Every call a request makes up to and including its client call. *)
Lemma sendApiRequest_awaiting_trace prompt options host randomId w path r w1 :
  sendApiRequest prompt options host randomId w = (awaiting path r, w1) ->
  trace w1
  = trace w
    ++ [consoleDebug "api-request-sent"
          [("chatgpt.command", command options);
           ("chatgpt.hasCode", Js.string_of_bool (Js.truthy (code options)));
           ("chatgpt.hasPreviousAnswer",
            Js.string_of_bool (Js.truthy (previousAnswer options)))]]
    ++ emitted (webView (self w)) (loginSuccessful (useAutoLogin (self w))) true
    ++ [match webView (self w) with
        | None => executeCommand "vscode-chatgpt.view.focus" []
        | Some view => webviewShow view
        end]
    ++ emitted (webView (self w)) (showInProgress true (useGpt3 (self w))) false
    ++ emitted (webView (self w))
         (addQuestion prompt (code options) (autoScroll (self w))) false
    ++ [clientSendMessage path
          (processQuestion prompt (code options) (language options)) systemContext
          (conversationId (self w)) (messageId (self w)) (List.length (signals w))].
Proof.
  intros H.
  destruct (sendApiRequest_awaiting _ _ _ _ _ _ _ _ H) as (W & Hprep & _ & _ & ->).
  destruct (prepareConversation_fields _ _ _ _ _ Hprep)
    as (Hsig & _ & _ & _ & _ & _ & Hgpt3 & Hview & Hconv & Hmsg & _ & _ & Hscroll).
  pose proof (prepareConversation_true_trace _ _ _ _ Hprep) as Htrace.
  rewrite requestLogged_trace in Htrace. rewrite requestLogged_self in *.
  rewrite requestLogged_signals in Hsig.
  rewrite trace_call, begun_trace.
  destruct (begun_self prompt options randomId W) as [left ->].
  change (conversationId (set_leftOverMessage left _)) with (conversationId (self W)).
  change (messageId (set_leftOverMessage left _)) with (messageId (self W)).
  rewrite Htrace, Hsig, Hgpt3, Hview, Hconv, Hmsg, Hscroll.
  rewrite <- !app_assoc. reflexivity.
Qed.

Lemma sendApiRequest_finished prompt options host randomId w w1 :
  sendApiRequest prompt options host randomId w = (finished, w1) ->
  exists W r,
    prepareConversation false host (requestLogged options w) = (true, W)
    /\ w1 = finally (publishAnswer r (begun prompt options randomId W)).
Proof.
  intros H. rewrite sendApiRequest_unfold in H.
  destruct (inProgress (self w)) eqn:Hbusy; [discriminate H|].
  cbv zeta in H. fold (requestLogged options w) in H.
  destruct (prepareConversation false host (requestLogged options w)) as [b W] eqn:Hprep.
  destruct b; cbn [negb] in H; [|discriminate H].
  unfold newAbortController in H. cbv beta iota in H.
  exists W,
    {| req_prompt := prompt; req_options := options;
       req_question := processQuestion prompt (code options) (language options);
       req_responseInMarkdown := negb (isCodexModel (self (update (set_response "") W)));
       req_signal := List.length (signals W) |}.
  split; [reflexivity|].
  unfold begun, newAbortController; cbv zeta; cbv beta iota.
  change (webView (self (update (set_response "") W))) with (webView (self W)) in *.
  destruct (webView (self W)) as [view|].
  all: destruct (truthyBool _) in H;
    [destruct (_ && _) in H; [discriminate H|destruct (_ && _) in H; [discriminate H|]]|].
  all: apply pair_equal_spec in H; destruct H as [_ <-]; reflexivity.
Qed.

Lemma nth_setAborted_same (c : AbortController) (l : list bool) :
  c < List.length l -> nth c (setAborted c l) false = true.
Proof.
  revert c. induction l as [|b l IH]; intros c Hc; [inversion Hc|].
  destruct c as [|c]; [reflexivity|].
  cbn [setAborted nth]. apply IH. cbn [List.length] in Hc. lia.
Qed.

Lemma nth_setAborted_other (c c' : AbortController) (l : list bool) :
  c' <> c -> nth c' (setAborted c l) false = nth c' l false.
Proof.
  revert c c'. induction l as [|b l IH]; intros c c' Hne; [destruct c; reflexivity|].
  destruct c as [|c]; destruct c' as [|c']; try reflexivity; [congruence|].
  cbn [setAborted nth]. apply IH. congruence.
Qed.

Lemma nth_app_false (c : nat) (l : list bool) :
  nth c (l ++ [false]) false = nth c l false.
Proof.
  revert c. induction l as [|b l IH]; intros c; [destruct c as [|[|c]]; reflexivity|].
  destruct c as [|c]; [reflexivity|]. cbn [app nth]. apply IH.
Qed.

(** The calls of a request that waits on a client end with its client call,
    the only one. *)
Lemma client_call_shape prompt options host randomId w path r w1 :
  sendApiRequest prompt options host randomId w = (awaiting path r, w1) ->
  exists before,
    since w w1
    = before
      ++ [clientSendMessage path (req_question r) systemContext
            (conversationId (self w)) (messageId (self w)) (req_signal r)]
    /\ clientCalls before = [].
Proof.
  intros H.
  pose proof (sendApiRequest_awaiting_trace _ _ _ _ _ _ _ _ H) as Htrace.
  destruct (sendApiRequest_awaiting _ _ _ _ _ _ _ _ H) as (W & Hprep & _ & -> & _).
  destruct (prepareConversation_fields _ _ _ _ _ Hprep) as (Hsig & _).
  rewrite requestLogged_signals in Hsig.
  cbn [req_question req_signal]. rewrite Hsig.
  rewrite (since_app _ _ _ Htrace). eexists. split.
  - rewrite !app_assoc. reflexivity.
  - rewrite !clientCalls_app, !clientCalls_emitted.
    destruct (webView (self w)); reflexivity.
Qed.

End Calling.

(** X13: a request that gets as far as a client makes exactly one client
    call, as the last thing before it waits.  The call carries the prompt
    followed by CR LF (with the language note and the code in between when
    code is given), the fixed system message, the stored [conversationId] as
    [messageId] and the stored [messageId] as [parentMessageId], and the
    abort signal made for this request, which is not aborted. *)
Theorem client_call_of_a_request (prompt : string) (options : Options) (host : Host)
    (randomId : string) (w : World) (path : ClientPath) (r : Request) (w1 : World) :
  sendApiRequest prompt options host randomId w = (awaiting path r, w1) ->
  (exists before,
     since w w1
     = (before
        ++ [clientSendMessage path (req_question r) systemContext
              (conversationId (self w)) (messageId (self w)) (req_signal r)])%list
     /\ clientCalls before = [])
  /\ req_question r = processQuestion prompt (code options) (language options)
  /\ (code options = None -> req_question r = prompt ++ Js.CRLF)
  /\ aborted (req_signal r) w1 = false.
Proof.
  intros H.
  destruct (sendApiRequest_awaiting _ _ _ _ _ _ _ _ H) as (W & _ & _ & Hr & _).
  destruct (sendApiRequest_spec _ _ _ _ _ _ _ H)
    as (_ & _ & _ & _ & _ & Hsignals & _ & Hsignal & _).
  split; [exact (client_call_shape _ _ _ _ _ _ _ _ H)|].
  assert (Hq : req_question r = processQuestion prompt (code options) (language options))
    by (rewrite Hr; reflexivity).
  split; [exact Hq|]. split.
  - intros Hcode. rewrite Hq. unfold processQuestion. rewrite Hcode. reflexivity.
  - unfold aborted. rewrite Hsignals, nth_app_false, Hsignal.
    apply nth_overflow. lia.
Qed.

Lemma client_call_of_a_request_witness :
  (exists before,
     since (constructor gpt4Host) (snd gpt4Asked)
     = (before
        ++ [clientSendMessage viaGpt35 (req_question gpt4Request) systemContext
              (conversationId (self (constructor gpt4Host)))
              (messageId (self (constructor gpt4Host))) (req_signal gpt4Request)])%list
     /\ clientCalls before = [])
  /\ req_question gpt4Request
     = processQuestion "q" (code freeText) (language freeText)
  /\ (code freeText = None -> req_question gpt4Request = "q" ++ Js.CRLF)
  /\ aborted (req_signal gpt4Request) (snd gpt4Asked) = false.
Proof.
  apply (client_call_of_a_request "q" freeText gpt4Host "id1" (constructor gpt4Host)
           viaGpt35 gpt4Request (snd gpt4Asked)).
  vm_compute. reflexivity.
Defined.

(** X14: the next question continues the conversation of the last answer.
    Once a client call has resolved, the client call of the following
    request carries the identifier the client returned ([id] from the newer
    client, [conversationId] from the legacy one) as [messageId] and the
    returned [parentMessageId] as [parentMessageId]. *)
Theorem next_request_threads_the_answer (path0 : ClientPath) (r0 : Request)
    (result : ChatMessage) (w0 : World) (prompt : string) (options : Options)
    (host : Host) (randomId : string) (path : ClientPath) (r : Request) (w1 : World) :
  sendApiRequest prompt options host randomId
    (sendApiRequest_fulfilled path0 r0 result w0) = (awaiting path r, w1) ->
  clientCalls (since (sendApiRequest_fulfilled path0 r0 result w0) w1)
  = [clientSendMessage path (req_question r) systemContext
       match path0 with
       | viaGpt35 => res_id result
       | viaGpt3 => res_conversationId result
       end
       (res_parentMessageId result) (req_signal r)].
Proof.
  intros H.
  destruct (client_call_shape _ _ _ _ _ _ _ _ H) as (before & Hsince & Hnone).
  rewrite Hsince, clientCalls_app, Hnone.
  destruct (fulfilled_self path0 r0 result w0) as [left ->]. reflexivity.
Qed.

Lemma next_request_threads_the_answer_witness :
  clientCalls
    (since (sendApiRequest_fulfilled viaGpt35 gpt4Request (answer "Hello") (snd gpt4Asked))
       (snd gpt4AskedAgain))
  = [clientSendMessage viaGpt35 (req_question secondRequest) systemContext
       (res_id (answer "Hello")) (res_parentMessageId (answer "Hello"))
       (req_signal secondRequest)].
Proof.
  apply (next_request_threads_the_answer viaGpt35 gpt4Request (answer "Hello")
           (snd gpt4Asked) "again" freeText gpt4Host "id2" viaGpt35 secondRequest
           (snd gpt4AskedAgain)).
  vm_compute. reflexivity.
Defined.

(** ** Clearing, stopping and counting *)

Section Clearing.

Local Open Scope list_scope.

Lemma clearConversation_self (w : World) :
  self (clearConversation w) = set_conversationId None (set_messageId None (self w)).
Proof. reflexivity. Qed.

Lemma handler_clearConversation data activeTextEditor host randomId w :
  data_type data = "clearConversation" ->
  onDidReceiveMessage data activeTextEditor host randomId w
  = (None, [], clearConversation w).
Proof. intros H. unfold onDidReceiveMessage. rewrite H. reflexivity. Qed.

End Clearing.

(** X15: after the conversation is cleared, by the [clearConversation]
    message of the webview or by [clearSession], the next request starts a
    new conversation: its client call carries neither a [messageId] nor a
    [parentMessageId]. *)
Theorem cleared_conversation_starts_afresh (data : WebviewData) (activeTextEditor : bool)
    (host0 : Host) (id0 : string) (w0 w : World) (prompt : string) (options : Options)
    (host : Host) (randomId : string) (path : ClientPath) (r : Request) (w1 : World) :
  w = clearSession w0
  \/ (data_type data = "clearConversation"
      /\ w = snd (onDidReceiveMessage data activeTextEditor host0 id0 w0)) ->
  sendApiRequest prompt options host randomId w = (awaiting path r, w1) ->
  clientCalls (since w w1)
  = [clientSendMessage path (req_question r) systemContext None None (req_signal r)].
Proof.
  intros Hcleared H.
  destruct (client_call_shape _ _ _ _ _ _ _ _ H) as (before & Hsince & Hnone).
  rewrite Hsince, clientCalls_app, Hnone.
  destruct Hcleared as [->|[Htype ->]].
  - rewrite clearSession_self. reflexivity.
  - rewrite (handler_clearConversation _ _ _ _ _ Htype). cbn [snd].
    rewrite clearConversation_self. reflexivity.
Qed.

Lemma cleared_conversation_starts_afresh_witness :
  clientCalls
    (since (clearSession gpt4Answered)
       (snd (sendApiRequest "again" freeText gpt4Host "id2" (clearSession gpt4Answered))))
  = [clientSendMessage viaGpt35 (req_question secondRequest) systemContext None None
       (req_signal secondRequest)].
Proof.
  apply (cleared_conversation_starts_afresh
           {| data_type := "clearConversation"; data_value := ""; data_language := None |}
           false gpt4Host "id0" gpt4Answered (clearSession gpt4Answered)
           "again" freeText gpt4Host "id2" viaGpt35 secondRequest
           (snd (sendApiRequest "again" freeText gpt4Host "id2" (clearSession gpt4Answered)))).
  - left. reflexivity.
  - vm_compute. reflexivity.
Defined.

(** X16: every request has an abort signal of its own.  It is not aborted
    when the request starts; [stopGenerating] aborts it, clears the
    in-flight flag and leaves the signal of every other request, earlier
    ones included, as it was. *)
Theorem stop_aborts_the_signal_of_the_request (prompt : string) (options : Options)
    (host : Host) (randomId : string) (w : World) (path : ClientPath) (r : Request)
    (w1 : World) :
  sendApiRequest prompt options host randomId w = (awaiting path r, w1) ->
  aborted (req_signal r) w1 = false
  /\ aborted (req_signal r) (stopGenerating w1) = true
  /\ (forall c, c <> req_signal r -> aborted c (stopGenerating w1) = aborted c w)
  /\ inProgress (self (stopGenerating w1)) = false.
Proof.
  intros H.
  destruct (sendApiRequest_spec _ _ _ _ _ _ _ H)
    as (_ & _ & _ & _ & _ & Hsignals & Hctl & Hsignal & _).
  unfold aborted. rewrite stopGenerating_signals, Hctl, Hsignals.
  split; [|split; [|split]].
  - rewrite nth_app_false, Hsignal. apply nth_overflow. lia.
  - apply nth_setAborted_same. rewrite length_app, Hsignal. cbn [List.length]. lia.
  - intros c Hc. rewrite (nth_setAborted_other _ _ _ Hc). apply nth_app_false.
  - destruct (stopGenerating_self w1) as [left ->]. reflexivity.
Qed.

Lemma stop_aborts_the_signal_of_the_request_witness :
  aborted (req_signal secondRequest) (snd gpt4AskedAgain) = false
  /\ aborted (req_signal secondRequest) (stopGenerating (snd gpt4AskedAgain)) = true
  /\ (forall c, c <> req_signal secondRequest ->
        aborted c (stopGenerating (snd gpt4AskedAgain)) = aborted c gpt4Answered)
  /\ inProgress (self (stopGenerating (snd gpt4AskedAgain))) = false.
Proof.
  apply (stop_aborts_the_signal_of_the_request "again" freeText gpt4Host "id2"
           gpt4Answered viaGpt35 secondRequest (snd gpt4AskedAgain)).
  vm_compute. reflexivity.
Defined.

(** X17: the question counter counts the calls of [sendApiRequest] that
    pass the in-flight guard, those that then stop for want of a key
    included; a call turned away by the guard is not counted. *)
Theorem questionCounter_counts_accepted_calls (prompt : string) (options : Options)
    (host : Host) (randomId : string) (w : World) :
  questionCounter (self (snd (sendApiRequest prompt options host randomId w)))
  = if inProgress (self w) then questionCounter (self w)
    else (questionCounter (self w) + 1)%N.
Proof.
  destruct (sendApiRequest prompt options host randomId w) as [out w1] eqn:H.
  cbn [snd]. destruct out as [| |path r|].
  - destruct (sendApiRequest_spec _ _ _ _ _ _ _ H) as [-> ->]. reflexivity.
  - destruct (sendApiRequest_notPrepared _ _ _ _ _ _ H) as [-> Hprep].
    destruct (prepareConversation_fields _ _ _ _ _ Hprep) as (_ & -> & _).
    reflexivity.
  - destruct (sendApiRequest_awaiting _ _ _ _ _ _ _ _ H) as (W & Hprep & -> & _ & ->).
    destruct (prepareConversation_fields _ _ _ _ _ Hprep) as (_ & Hcount & _).
    rewrite self_call.
    destruct (begun_self prompt options randomId W) as [left ->].
    change (questionCounter (self W) = (questionCounter (self w) + 1)%N).
    rewrite Hcount. reflexivity.
  - destruct (sendApiRequest_spec _ _ _ _ _ _ _ H) as (-> & _).
    destruct (sendApiRequest_finished _ _ _ _ _ _ H) as (W & r & Hprep & ->).
    destruct (prepareConversation_fields _ _ _ _ _ Hprep) as (_ & Hcount & _).
    rewrite finally_self.
    destruct (publishAnswer_self r (begun prompt options randomId W)) as [left ->].
    destruct (begun_self prompt options randomId W) as [left' ->].
    change (questionCounter (self W) = (questionCounter (self w) + 1)%N).
    rewrite Hcount. reflexivity.
Qed.

(** X18: a model whose name does not begin with "gpt-", an unset model
    included, is served by the legacy client; the answer is rendered as
    markdown unless the name begins with "code-". *)
Theorem other_models_use_the_legacy_client (prompt : string) (options : Options)
    (host : Host) (randomId : string) (w : World) :
  inProgress (self w) = false ->
  useGpt3 (self w) = Some true ->
  Js.truthy (Js.or_else (cfg_apiKey (configuration host)) (globalState_apiKey host)) = true ->
  isGpt35Model (self w) = false ->
  exists r w1,
    sendApiRequest prompt options host randomId w = (awaiting viaGpt3 r, w1)
    /\ req_responseInMarkdown r = negb (isCodexModel (self w))
    /\ (model (self w) = None -> req_responseInMarkdown r = true)
    /\ exists question,
         clientCalls (since w w1)
         = [clientSendMessage viaGpt3 question systemContext (conversationId (self w))
              (messageId (self w)) (req_signal r)].
Proof.
  intros Hidle Hon Hkey Hlegacy.
  destruct (sendApiRequest_reaches_client prompt options host randomId w Hidle Hon Hkey)
    as (path & r & w1 & Hcall & Hmd & Hpath).
  rewrite Hlegacy in Hpath. subst path.
  exists r, w1. split; [exact Hcall|]. split; [exact Hmd|]. split.
  - intros Hnone. rewrite Hmd. unfold isCodexModel. rewrite Hnone. reflexivity.
  - destruct (client_call_shape _ _ _ _ _ _ _ _ Hcall) as (before & Hsince & Hnone).
    eexists. rewrite Hsince, clientCalls_app, Hnone. reflexivity.
Qed.

Lemma other_models_use_the_legacy_client_witness :
  exists r w1,
    sendApiRequest "q" freeText (hostWith None (Some "sk-test")) "id1"
      (constructor (hostWith None (Some "sk-test")))
    = (awaiting viaGpt3 r, w1)
    /\ req_responseInMarkdown r
       = negb (isCodexModel (self (constructor (hostWith None (Some "sk-test")))))
    /\ (model (self (constructor (hostWith None (Some "sk-test")))) = None ->
        req_responseInMarkdown r = true)
    /\ exists question,
         clientCalls (since (constructor (hostWith None (Some "sk-test"))) w1)
         = [clientSendMessage viaGpt3 question systemContext
              (conversationId (self (constructor (hostWith None (Some "sk-test")))))
              (messageId (self (constructor (hostWith None (Some "sk-test")))))
              (req_signal r)].
Proof.
  apply (other_models_use_the_legacy_client "q" freeText (hostWith None (Some "sk-test"))
           "id1" (constructor (hostWith None (Some "sk-test"))));
    vm_compute; reflexivity.
Defined.

(** ** The messages of the webview *)

Section Handling.

Local Open Scope list_scope.

Lemma since_refl (w : World) : since w w = [].
Proof. apply since_app. symmetry. apply app_nil_r. Qed.

Lemma handler_login data activeTextEditor host randomId w :
  data_type data = "login" ->
  onDidReceiveMessage data activeTextEditor host randomId w
  = let (success, w) := prepareConversation false host w in
    (None, [],
     if success
     then logEvent "logged-in" []
            (sendMessage (loginSuccessful (useAutoLogin (self w))) true w)
     else w).
Proof. intros H. unfold onDidReceiveMessage. rewrite H. reflexivity. Qed.

(** A step that only logs, runs commands and writes fields other than the
    webview, the buffer, the flag and the controller. *)
Lemma quiet_step (w w' : World) (delta : list HostCall) :
  trace w' = trace w ++ delta ->
  publishedMessages delta = [] ->
  publishedMessages (since w w') = [].
Proof. intros Ht Hp. rewrite (since_app _ _ _ Ht). exact Hp. Qed.

End Handling.

(** X19: of the messages a webview can send, only [addFreeTextQuestion],
    [login] and [stopGenerating] make the provider publish anything or touch
    a request.  Every other message, known or unknown, starts no request,
    publishes nothing, and leaves the in-flight flag, the abort signals, the
    buffer and the response text as they are. *)
Theorem other_messages_publish_nothing (data : WebviewData) (activeTextEditor : bool)
    (host : Host) (randomId : string) (w : World) :
  String.eqb (data_type data) "addFreeTextQuestion" = false ->
  String.eqb (data_type data) "login" = false ->
  String.eqb (data_type data) "stopGenerating" = false ->
  fst (fst (onDidReceiveMessage data activeTextEditor host randomId w)) = None
  /\ publishedMessages
       (since w (snd (onDidReceiveMessage data activeTextEditor host randomId w))) = []
  /\ signals (snd (onDidReceiveMessage data activeTextEditor host randomId w)) = signals w
  /\ inProgress (self (snd (onDidReceiveMessage data activeTextEditor host randomId w)))
     = inProgress (self w)
  /\ leftOverMessage (self (snd (onDidReceiveMessage data activeTextEditor host randomId w)))
     = leftOverMessage (self w)
  /\ response (self (snd (onDidReceiveMessage data activeTextEditor host randomId w)))
     = response (self w).
Proof.
  intros Hask Hlogin Hstop. unfold onDidReceiveMessage.
  rewrite Hask, Hlogin, Hstop.
  destruct (String.eqb (data_type data) "editCode");
    [cbn [fst snd]; split; [reflexivity|]; split;
     [apply (quiet_step _ _ [consoleDebug "code-inserted" []]); reflexivity
     | repeat split]|].
  destruct (String.eqb (data_type data) "openNew");
    [cbn [fst snd]; split; [reflexivity|]; split;
     [eapply quiet_step; [unfold logEvent; apply trace_call | reflexivity]
     | repeat split]|].
  destruct (String.eqb (data_type data) "clearConversation");
    [cbn [fst snd]; split; [reflexivity|]; split;
     [apply (quiet_step _ _ [consoleDebug "conversation-cleared" []]); reflexivity
     | repeat split]|].
  destruct (String.eqb (data_type data) "clearBrowser");
    [cbn [fst snd]; split; [reflexivity|]; split;
     [apply (quiet_step _ _ [consoleDebug "browser-cleared" []]); reflexivity
     | repeat split]|].
  destruct (String.eqb (data_type data) "cleargpt3");
    [cbn [fst snd]; split; [reflexivity|]; split;
     [apply (quiet_step _ _ [consoleDebug "gpt3-cleared" []]); reflexivity
     | repeat split]|].
  destruct (String.eqb (data_type data) "openSettings");
    [cbn [fst snd]; split; [reflexivity|]; split;
     [apply (quiet_step _ _
               [executeCommand "workbench.action.openSettings"
                  ["@ext:gentlythink.chatgpt-zh chatgpt."];
                consoleDebug "settings-opened" []]);
      [cbn [logEvent call trace]; rewrite <- app_assoc |]; reflexivity
     | repeat split]|].
  destruct (String.eqb (data_type data) "openSettingsPrompt");
    [cbn [fst snd]; split; [reflexivity|]; split;
     [apply (quiet_step _ _
               [executeCommand "workbench.action.openSettings"
                  ["@ext:gentlythink.chatgpt-zh promptPrefix"];
                consoleDebug "settings-prompt-opened" []]);
      [cbn [logEvent call trace]; rewrite <- app_assoc |]; reflexivity
     | repeat split]|].
  destruct (String.eqb (data_type data) "showConversation");
    [cbn [fst snd]; split; [reflexivity|]; split; [rewrite since_refl; reflexivity | repeat split]|].
  cbn [fst snd]. split; [reflexivity|]. split; [rewrite since_refl; reflexivity | repeat split].
Qed.

Lemma other_messages_publish_nothing_witness :
  fst (fst (onDidReceiveMessage
              {| data_type := "clearConversation"; data_value := "";
                 data_language := None |} false gpt4Host "id2" (snd gpt4Asked))) = None
  /\ publishedMessages
       (since (snd gpt4Asked)
          (snd (onDidReceiveMessage
                  {| data_type := "clearConversation"; data_value := "";
                     data_language := None |} false gpt4Host "id2" (snd gpt4Asked)))) = []
  /\ signals (snd (onDidReceiveMessage
                     {| data_type := "clearConversation"; data_value := "";
                        data_language := None |} false gpt4Host "id2" (snd gpt4Asked)))
     = signals (snd gpt4Asked)
  /\ inProgress (self (snd (onDidReceiveMessage
                     {| data_type := "clearConversation"; data_value := "";
                        data_language := None |} false gpt4Host "id2" (snd gpt4Asked))))
     = inProgress (self (snd gpt4Asked))
  /\ leftOverMessage (self (snd (onDidReceiveMessage
                     {| data_type := "clearConversation"; data_value := "";
                        data_language := None |} false gpt4Host "id2" (snd gpt4Asked))))
     = leftOverMessage (self (snd gpt4Asked))
  /\ response (self (snd (onDidReceiveMessage
                     {| data_type := "clearConversation"; data_value := "";
                        data_language := None |} false gpt4Host "id2" (snd gpt4Asked))))
     = response (self (snd gpt4Asked)).
Proof.
  apply (other_messages_publish_nothing
           {| data_type := "clearConversation"; data_value := ""; data_language := None |}
           false gpt4Host "id2" (snd gpt4Asked)); reflexivity.
Defined.

(** X20: the [login] message publishes [loginSuccessful] twice when the
    preparation succeeds, once from [prepareConversation] and once from the
    handler, and logs the event; when no key is found it publishes nothing
    and the only call made is the missing-key dialog. *)
Theorem login_publishes_twice (data : WebviewData) (activeTextEditor : bool)
    (host : Host) (randomId : string) (w : World) :
  data_type data = "login" ->
  if fst (prepareConversation false host w)
  then publishedMessages
         (since w (snd (onDidReceiveMessage data activeTextEditor host randomId w)))
       = [loginSuccessful (useAutoLogin (self w)); loginSuccessful (useAutoLogin (self w))]
  else since w (snd (onDidReceiveMessage data activeTextEditor host randomId w))
       = [showErrorMessage missingKeyText ["存储在会话中（推荐）"; "打开设置"]].
Proof.
  intros Htype. rewrite (handler_login _ _ _ _ _ Htype).
  destruct (prepareConversation false host w) as [success W] eqn:Hprep.
  cbn [fst snd]. destruct success.
  - destruct (prepareConversation_fields _ _ _ _ _ Hprep)
      as (_ & _ & _ & _ & _ & Hauto & _ & Hview & _).
    pose proof (prepareConversation_true_trace _ _ _ _ Hprep) as Htrace.
    erewrite since_app.
    2:{ unfold logEvent. rewrite trace_call, sendMessage_trace, Htrace, Hauto, Hview.
        rewrite <- !app_assoc. reflexivity. }
    rewrite !publishedMessages_app, !publishedMessages_emitted. reflexivity.
  - rewrite (prepareConversation_false_world _ _ _ Hprep).
    apply since_app. reflexivity.
Qed.

Lemma login_publishes_twice_witness :
  if fst (prepareConversation false gpt4Host (constructor gpt4Host))
  then publishedMessages
         (since (constructor gpt4Host)
            (snd (onDidReceiveMessage
                    {| data_type := "login"; data_value := ""; data_language := None |}
                    false gpt4Host "id1" (constructor gpt4Host))))
       = [loginSuccessful (useAutoLogin (self (constructor gpt4Host)));
          loginSuccessful (useAutoLogin (self (constructor gpt4Host)))]
  else since (constructor gpt4Host)
         (snd (onDidReceiveMessage
                 {| data_type := "login"; data_value := ""; data_language := None |}
                 false gpt4Host "id1" (constructor gpt4Host)))
       = [showErrorMessage missingKeyText ["存储在会话中（推荐）"; "打开设置"]].
Proof.
  apply (login_publishes_twice
           {| data_type := "login"; data_value := ""; data_language := None |}
           false gpt4Host "id1" (constructor gpt4Host)).
  reflexivity.
Defined.

(** X21: the follow-up request of a continuation, taken right after the
    answer, asks "Continue" with no code under the command of the first
    request, and carries the text just published, closing fence included, as
    [previousAnswer]: the text published when the follow-up resolves is that
    text followed by the new one. *)
Theorem continuation_carries_the_published_text (path : ClientPath) (r : Request)
    (result : ChatMessage) (w : World) (host : Host) (randomId : string)
    (path' : ClientPath) (r' : Request) (w1 : World) :
  continueAndCombine r host randomId (sendApiRequest_fulfilled path r result w)
  = (awaiting path' r', w1) ->
  req_question r' = "Continue" ++ Js.CRLF
  /\ command (req_options r') = command (req_options r)
  /\ previousAnswer (req_options r')
     = Some (finalText (previousAnswer (req_options r)) (res_text result))
  /\ forall result' w2,
       exists rest,
         publishedMessages (since w2 (sendApiRequest_fulfilled path' r' result' w2))
         = addResponse
             (finalText
                (Some (finalText (previousAnswer (req_options r)) (res_text result)))
                (res_text result'))
             true (Some (currentMessageId (self w2))) (autoScroll (self w2))
             (req_responseInMarkdown r') :: rest.
Proof.
  unfold continueAndCombine. intros H.
  destruct (sendApiRequest_awaiting _ _ _ _ _ _ _ _ H) as (W & _ & _ & Hr & _).
  assert (Hprev : previousAnswer (req_options r')
                  = Some (finalText (previousAnswer (req_options r)) (res_text result))).
  { rewrite Hr. cbn [req_options previousAnswer].
    destruct (fulfilled_self path r result w) as [left ->]. reflexivity. }
  split; [rewrite Hr; reflexivity|]. split; [rewrite Hr; reflexivity|].
  split; [exact Hprev|].
  intros result' w2.
  destruct (fulfilled_trace path' r' result' w2) as (delta & Htrace & Hpub & _).
  rewrite (since_app _ _ _ Htrace), Hpub, Hprev. eexists. reflexivity.
Qed.

Lemma continuation_carries_the_published_text_witness :
  req_question (continueRequest (finalText None "Hello")) = "Continue" ++ Js.CRLF
  /\ command (req_options (continueRequest (finalText None "Hello")))
     = command (req_options gpt4Request)
  /\ previousAnswer (req_options (continueRequest (finalText None "Hello")))
     = Some (finalText (previousAnswer (req_options gpt4Request))
               (res_text (answer "Hello")))
  /\ forall result' w2,
       exists rest,
         publishedMessages
           (since w2 (sendApiRequest_fulfilled viaGpt35
                        (continueRequest (finalText None "Hello")) result' w2))
         = addResponse
             (finalText
                (Some (finalText (previousAnswer (req_options gpt4Request))
                         (res_text (answer "Hello"))))
                (res_text result'))
             true (Some (currentMessageId (self w2))) (autoScroll (self w2))
             (req_responseInMarkdown (continueRequest (finalText None "Hello"))) :: rest.
Proof.
  apply (continuation_carries_the_published_text viaGpt35 gpt4Request (answer "Hello")
           (snd gpt4Asked) gpt4Host "id2" viaGpt35
           (continueRequest (finalText None "Hello"))
           (snd (continueAndCombine gpt4Request gpt4Host "id2" gpt4Answered))).
  vm_compute. reflexivity.
Defined.

(** ** What every reachable state satisfies *)

Section Reachable.

Local Open Scope list_scope.

Lemma length_setAborted (c : AbortController) (l : list bool) :
  List.length (setAborted c l) = List.length l.
Proof.
  revert c. induction l as [|b l IH]; intros c; [destruct c; reflexivity|].
  destruct c as [|c]; [reflexivity|]. cbn [setAborted List.length]. rewrite IH. reflexivity.
Qed.

(** A step that keeps the flags, the controller, the signals and the
    in-flight flag keeps consistency. *)
Lemma consistent_frame (w w' : World) :
  useGpt3 (self w') = useGpt3 (self w) ->
  useAutoLogin (self w') = useAutoLogin (self w) ->
  abortController (self w') = abortController (self w) ->
  signals w' = signals w ->
  inProgress (self w') = inProgress (self w) ->
  consistent w -> consistent w'.
Proof.
  unfold consistent, aborted. intros -> -> -> -> ->. exact (fun H => H).
Qed.

(** So does a step that keeps the flags and the controller, keeps the number
    of signals and ends idle. *)
Lemma consistent_idle (w w' : World) :
  useGpt3 (self w') = useGpt3 (self w) ->
  useAutoLogin (self w') = useAutoLogin (self w) ->
  abortController (self w') = abortController (self w) ->
  List.length (signals w') = List.length (signals w) ->
  inProgress (self w') = false ->
  consistent w -> consistent w'.
Proof.
  unfold consistent. intros -> -> -> -> -> (H1 & H2 & H3 & _).
  split; [exact H1|]. split; [exact H2|]. split; [exact H3 | discriminate].
Qed.

Lemma stopGenerating_consistent (w : World) : consistent w -> consistent (stopGenerating w).
Proof.
  destruct (stopGenerating_self w) as [left Hself].
  apply consistent_idle; rewrite ?Hself; try reflexivity.
  rewrite stopGenerating_signals.
  destruct (abortController (self w)); [apply length_setAborted | reflexivity].
Qed.

Lemma clearSession_consistent (w : World) : consistent w -> consistent (clearSession w).
Proof.
  intros H. apply (consistent_frame (stopGenerating w));
    [reflexivity ..| exact (stopGenerating_consistent w H)].
Qed.

Lemma settle_consistent path r s w : consistent w -> consistent (settle path r s w).
Proof.
  destruct s as [result|error|]; cbn [settle].
  - destruct (fulfilled_self path r result w) as [left Hself].
    apply consistent_idle; rewrite ?Hself, ?fulfilled_signals; reflexivity.
  - destruct (rejected_self r error w) as [left Hself].
    apply consistent_idle; rewrite ?Hself, ?rejected_signals; reflexivity.
  - destruct (nullish_self w) as [left Hself].
    apply consistent_idle; rewrite ?Hself, ?nullish_signals; reflexivity.
Qed.

Lemma prepareConversation_consistent modelChanged host w :
  consistent w -> consistent (snd (prepareConversation modelChanged host w)).
Proof.
  destruct (prepareConversation modelChanged host w) as [b W] eqn:Hprep.
  destruct (prepareConversation_fields _ _ _ _ _ Hprep)
    as (Hsig & _ & _ & _ & Hctl & Hauto & Hgpt3 & _ & _ & _ & Hbusy & _).
  cbn [snd]. apply consistent_frame; assumption.
Qed.

(** The start of a request: a new signal, not aborted, and the flag set. *)
Lemma begun_consistent prompt options randomId W :
  consistent W -> consistent (begun prompt options randomId W).
Proof.
  unfold consistent, aborted. intros (H1 & H2 & _ & _).
  rewrite begun_signals. destruct (begun_self prompt options randomId W) as [left ->].
  split; [exact H1|]. split; [exact H2|]. split.
  - intros c Hc. injection Hc as <-. rewrite length_app. cbn [List.length]. lia.
  - intros _. exists (List.length (signals W)). split; [reflexivity|].
    rewrite nth_app_false. apply nth_overflow. lia.
Qed.

Lemma sendApiRequest_enter_consistent options host w :
  consistent w -> consistent (snd (sendApiRequest_enter options host w)).
Proof.
  intros Hw. unfold sendApiRequest_enter.
  destruct (inProgress (self w)); [exact Hw|].
  cbv zeta. fold (requestLogged options w).
  assert (Hlogged : consistent (requestLogged options w))
    by (revert Hw; apply consistent_frame; reflexivity).
  pose proof (prepareConversation_consistent false host _ Hlogged) as HW.
  destruct (prepareConversation false host (requestLogged options w)) as [ready W].
  exact HW.
Qed.

Lemma sendApiRequest_resume_consistent prompt options randomId ready w :
  consistent w ->
  consistent (snd (sendApiRequest_resume prompt options randomId ready w)).
Proof.
  intros Hw. destruct ready; [|exact Hw].
  rewrite sendApiRequest_resume_prepared. cbv zeta.
  pose proof (begun_consistent prompt options randomId w Hw) as HB.
  revert HB. generalize (begun prompt options randomId w). intros B HB.
  assert (Hsent : forall path question system messageId parentMessageId signal,
            consistent (call (clientSendMessage path question system messageId
                                parentMessageId signal) B))
    by (intros; revert HB; apply consistent_frame; reflexivity).
  assert (Hdone : forall r, consistent (finally (publishAnswer r B))).
  { intros r. destruct (publishAnswer_self r B) as [left Hself].
    revert HB. apply consistent_idle;
      rewrite ?finally_self, ?finally_signals, ?publishAnswer_signals, ?Hself;
      reflexivity. }
  destruct (truthyBool (useGpt3 (self B))); [|apply Hdone].
  destruct (_ && _); [apply Hsent|].
  destruct (_ && _); [apply Hsent | apply Hdone].
Qed.

Lemma sendApiRequest_consistent prompt options host randomId w :
  consistent w -> consistent (snd (sendApiRequest prompt options host randomId w)).
Proof.
  intros Hw.
  assert (Hlogged : consistent (requestLogged options w))
    by (revert Hw; apply consistent_frame; reflexivity).
  destruct (sendApiRequest prompt options host randomId w) as [out w1] eqn:H.
  cbn [snd]. destruct out as [| |path r|].
  - destruct (sendApiRequest_spec _ _ _ _ _ _ _ H) as [_ ->]. exact Hw.
  - destruct (sendApiRequest_notPrepared _ _ _ _ _ _ H) as [_ Hprep].
    pose proof (prepareConversation_consistent false host _ Hlogged) as HW.
    rewrite Hprep in HW. exact HW.
  - destruct (sendApiRequest_awaiting _ _ _ _ _ _ _ _ H) as (W & Hprep & _ & _ & ->).
    pose proof (prepareConversation_consistent false host _ Hlogged) as HW.
    rewrite Hprep in HW. cbn [snd] in HW.
    pose proof (begun_consistent prompt options randomId W HW) as HB.
    revert HB. generalize (begun prompt options randomId W). intros B.
    apply consistent_frame; reflexivity.
  - destruct (sendApiRequest_finished _ _ _ _ _ _ H) as (W & r & Hprep & ->).
    pose proof (prepareConversation_consistent false host _ Hlogged) as HW.
    rewrite Hprep in HW. cbn [snd] in HW.
    pose proof (begun_consistent prompt options randomId W HW) as HB.
    revert HB. generalize (begun prompt options randomId W). intros B.
    destruct (publishAnswer_self r B) as [left Hself].
    apply consistent_idle;
      rewrite ?finally_self, ?finally_signals, ?publishAnswer_signals, ?Hself;
      reflexivity.
Qed.

Lemma onDidReceiveMessage_consistent data activeTextEditor host randomId w :
  consistent w ->
  consistent (snd (onDidReceiveMessage data activeTextEditor host randomId w)).
Proof.
  intros Hw. unfold onDidReceiveMessage.
  destruct (String.eqb (data_type data) "addFreeTextQuestion").
  { pose proof (sendApiRequest_consistent (data_value data)
                  {| command := "freeText"; code := None; previousAnswer := None;
                     language := None |} host randomId w Hw) as Hs.
    destruct (sendApiRequest _ _ _ _ _) as [out w1]. exact Hs. }
  destruct (String.eqb (data_type data) "editCode");
    [revert Hw; apply consistent_frame; reflexivity|].
  destruct (String.eqb (data_type data) "openNew");
    [revert Hw; apply consistent_frame; reflexivity|].
  destruct (String.eqb (data_type data) "clearConversation");
    [revert Hw; apply consistent_frame; reflexivity|].
  destruct (String.eqb (data_type data) "clearBrowser");
    [revert Hw; apply consistent_frame; reflexivity|].
  destruct (String.eqb (data_type data) "cleargpt3");
    [revert Hw; apply consistent_frame; reflexivity|].
  destruct (String.eqb (data_type data) "login").
  { pose proof (prepareConversation_consistent false host w Hw) as HW.
    destruct (prepareConversation false host w) as [success W]. cbn [snd] in *.
    destruct success; [|exact HW].
    revert HW. apply consistent_frame; unfold logEvent;
      rewrite ?self_call, ?signals_call, ?sendMessage_self, ?sendMessage_signals;
      reflexivity. }
  destruct (String.eqb (data_type data) "openSettings");
    [revert Hw; apply consistent_frame; reflexivity|].
  destruct (String.eqb (data_type data) "openSettingsPrompt");
    [revert Hw; apply consistent_frame; reflexivity|].
  destruct (String.eqb (data_type data) "showConversation"); [exact Hw|].
  destruct (String.eqb (data_type data) "stopGenerating");
    [exact (stopGenerating_consistent w Hw) | exact Hw].
Qed.

Lemma perform_consistent w step : consistent w -> consistent (perform w step).
Proof.
  intros Hw. destruct step as [host operation].
  destruct operation as [data editor randomId|view|prompt options randomId
                        |options|prompt options randomId ready|message ignore
                        |path r partialText|path r s|r randomId|modelChanged|
                        |setting]; cbn [perform].
  - apply onDidReceiveMessage_consistent. exact Hw.
  - destruct (resolveWebviewView_self view w) as [left Hself].
    revert Hw. apply consistent_frame;
      rewrite ?Hself, ?resolveWebviewView_signals; reflexivity.
  - apply sendApiRequest_consistent. exact Hw.
  - apply sendApiRequest_enter_consistent. exact Hw.
  - apply sendApiRequest_resume_consistent. exact Hw.
  - revert Hw. apply consistent_frame;
      rewrite ?sendMessage_self, ?sendMessage_signals; reflexivity.
  - destruct (onProgress_self path r partialText w) as [left Hself].
    revert Hw. apply consistent_frame; rewrite ?Hself, ?onProgress_signals; reflexivity.
  - apply settle_consistent. exact Hw.
  - apply sendApiRequest_consistent. exact Hw.
  - apply prepareConversation_consistent. exact Hw.
  - apply clearSession_consistent. exact Hw.
  - destruct setting; cbn [perform].
    + revert Hw. apply consistent_frame; reflexivity.
    + unfold setMethod. cbv zeta. apply clearSession_consistent.
      destruct Hw as (_ & _ & H3 & H4).
      split; [reflexivity|]. split; [reflexivity|]. split; [exact H3 | exact H4].
    + unfold setAuthType. cbv zeta. apply clearSession_consistent.
      revert Hw. apply consistent_frame; reflexivity.
    + unfold setChromeExecutablePath. cbv zeta. apply clearSession_consistent.
      revert Hw. apply consistent_frame; reflexivity.
    + unfold setProfilePath. cbv zeta. apply clearSession_consistent.
      revert Hw. apply consistent_frame; reflexivity.
Qed.

Lemma constructor_consistent (host : Host) : consistent (constructor host).
Proof.
  destruct host as [[notify scroll mdl method auth chrome profile proxy key]
                    stored os hasChrome].
  unfold consistent.
  split; [vm_compute; reflexivity|]. split; [vm_compute; reflexivity|]. split.
  - intros c Hc. vm_compute in Hc. discriminate Hc.
  - intros Hbusy. vm_compute in Hbusy. discriminate Hbusy.
Qed.

Lemma performAll_consistent steps w : consistent w -> consistent (performAll steps w).
Proof.
  revert w. induction steps as [|step steps IH]; intros w Hw; [exact Hw|].
  cbn [performAll fold_left]. apply IH. apply perform_consistent. exact Hw.
Qed.

End Reachable.

(** X22: whatever happens to a provider after its construction (messages
    of the webview, attachments, calls of the public methods, suspensions and
    resumptions of [sendApiRequest] in any order, progress callbacks,
    settlements of client calls, on any hosts), the official API stays
    switched on and auto-login off, the controller is one of the signals
    allocated, and while the in-flight flag is set the signal of the
    controller is not aborted.  So [prepareConversation(true)] never takes
    its early exit, and a request that is resumed right where it was
    suspended never runs to its end without a client call.  A request that
    is resumed later does so exactly when the client of the model class is
    missing by then, as after a [clearSession] in between. *)
Theorem reachable_states_are_consistent (host : Host) (steps : list (Host * Operation)) :
  consistent (performAll steps (constructor host))
  /\ (forall host', fst (prepareConversation true host'
                           (performAll steps (constructor host))) = false ->
        Js.truthy (Js.or_else (cfg_apiKey (configuration host'))
                     (globalState_apiKey host')) = false)
  /\ (forall prompt options host' randomId,
        fst (sendApiRequest prompt options host' randomId
               (performAll steps (constructor host))) <> finished)
  /\ forall prompt options randomId,
       fst (sendApiRequest_resume prompt options randomId true
              (performAll steps (constructor host))) = finished
       <-> (if isGpt35Model (self (performAll steps (constructor host)))
            then isSome (apiGpt35 (self (performAll steps (constructor host))))
            else isSome (apiGpt3 (self (performAll steps (constructor host)))))
           = false.
Proof.
  pose proof (performAll_consistent steps _ (constructor_consistent host)) as Hw.
  split; [exact Hw|]. destruct Hw as (Hgpt3 & Hauto & _).
  set (w := performAll steps (constructor host)) in *.
  split; [|split].
  - intros host'. rewrite prepareConversation_cases, Hauto, Hgpt3. cbn [truthyBool andb].
    unfold needsClient. rewrite orb_true_r. fold (apiKeyOf host').
    destruct (apiKeyOf host') as [key|]; [|reflexivity].
    destruct (Js.truthy (Some key)); [discriminate | reflexivity].
  - intros prompt options host' randomId.
    destruct (sendApiRequest prompt options host' randomId w) as [out w1] eqn:H.
    cbn [fst]. intros ->.
    destruct (sendApiRequest_spec _ _ _ _ _ _ _ H) as (_ & Hoff & _).
    rewrite Hgpt3 in Hoff. discriminate Hoff.
  - intros prompt options randomId.
    rewrite sendApiRequest_resume_prepared. cbv zeta.
    destruct (begun_clients prompt options randomId w) as (-> & -> & -> & ->).
    rewrite Hgpt3. cbn [truthyBool].
    destruct (isGpt35Model (self w)); cbn [negb andb];
      [destruct (isSome (apiGpt35 (self w))) | destruct (isSome (apiGpt3 (self w)))];
      cbn [fst]; split; intros H; first [reflexivity | discriminate H].
Qed.

(** A question on a code- model whose session is cleared in the turn it was
    asked in: the client built at the preparation is gone at the resumption,
    and the request runs to its end without a client call. *)
Example resumed_after_clearSession_finishes :
  let entered := sendApiRequest_enter freeText codexHost (constructor codexHost) in
  let resumed :=
    sendApiRequest_resume "q" freeText "id1" true (clearSession (snd entered)) in
  fst entered = Some true
  /\ isSome (apiGpt3 (self (snd entered))) = true
  /\ fst resumed = finished
  /\ clientCalls (trace (snd resumed)) = [].
Proof. vm_compute. repeat split. Qed.

(** ** Requests without a key, after a stop, and the labels of answers *)

Section Interfering.

Local Open Scope list_scope.

Lemma interleave_currentMessageId path r w e :
  currentMessageId (self (interleave path r w e)) = currentMessageId (self w).
Proof.
  destruct e as [partialText| |view]; cbn [interleave].
  - destruct (onProgress_self path r partialText w) as [left ->]. reflexivity.
  - destruct (stopGenerating_self w) as [left ->]. reflexivity.
  - destruct (resolveWebviewView_self view w) as [left ->]. reflexivity.
Qed.

Lemma run_currentMessageId path r es w :
  currentMessageId (self (run path r es w)) = currentMessageId (self w).
Proof.
  revert w. induction es as [|e es IH]; intros w; [reflexivity|].
  change (run path r (e :: es) w) with (run path r es (interleave path r w e)).
  rewrite IH. apply interleave_currentMessageId.
Qed.

Lemma awaiting_currentMessageId prompt options host randomId w path r w1 :
  sendApiRequest prompt options host randomId w = (awaiting path r, w1) ->
  currentMessageId (self w1) = randomId.
Proof.
  intros H.
  destruct (sendApiRequest_awaiting _ _ _ _ _ _ _ _ H) as (W & _ & _ & _ & ->).
  rewrite self_call. destruct (begun_self prompt options randomId W) as [left ->].
  reflexivity.
Qed.

End Interfering.

(** X23: a request made with no key at hand and no client to reuse does
    three things and nothing else: it counts the question, logs the event
    and shows the missing-key dialog.  No message is published, no abort
    controller is made, no client is called and the in-flight flag stays
    clear, so the next request is accepted. *)
Theorem keyless_request_only_asks_for_the_key (prompt : string) (options : Options)
    (host : Host) (randomId : string) (w : World) :
  inProgress (self w) = false ->
  useGpt3 (self w) = Some true ->
  (if isGpt35Model (self w) then isSome (apiGpt35 (self w))
   else isSome (apiGpt3 (self w))) = false ->
  Js.truthy (Js.or_else (cfg_apiKey (configuration host)) (globalState_apiKey host))
  = false ->
  exists w1,
    sendApiRequest prompt options host randomId w = (notPrepared, w1)
    /\ self w1 = set_questionCounter (questionCounter (self w) + 1)%N (self w)
    /\ signals w1 = signals w
    /\ since w w1
       = [consoleDebug "api-request-sent"
            [("chatgpt.command", command options);
             ("chatgpt.hasCode", Js.string_of_bool (Js.truthy (code options)));
             ("chatgpt.hasPreviousAnswer",
              Js.string_of_bool (Js.truthy (previousAnswer options)))];
          showErrorMessage missingKeyText ["存储在会话中（推荐）"; "打开设置"]].
Proof.
  intros Hidle Hon Hclient Hkey.
  exists (call missingKeyDialog (requestLogged options w)).
  split; [|split; [reflexivity|split; [reflexivity|]]].
  - rewrite sendApiRequest_unfold, Hidle. cbv zeta. fold (requestLogged options w).
    rewrite (prepareConversation_asks false host (requestLogged options w) eq_refl).
    + reflexivity.
    + rewrite requestLogged_self.
      change (useGpt3 (set_questionCounter _ (self w))) with (useGpt3 (self w)).
      rewrite Hon. cbn [truthyBool andb]. apply needsClient_absent. exact Hclient.
    + exact Hkey.
  - apply since_app. unfold missingKeyDialog.
    rewrite trace_call, requestLogged_trace, <- app_assoc. reflexivity.
Qed.

Lemma keyless_request_only_asks_for_the_key_witness :
  exists w1,
    sendApiRequest "q" freeText keylessHost "id1" (constructor keylessHost)
    = (notPrepared, w1)
    /\ self w1
       = set_questionCounter (questionCounter (self (constructor keylessHost)) + 1)%N
           (self (constructor keylessHost))
    /\ signals w1 = signals (constructor keylessHost)
    /\ since (constructor keylessHost) w1
       = [consoleDebug "api-request-sent"
            [("chatgpt.command", command freeText);
             ("chatgpt.hasCode", Js.string_of_bool (Js.truthy (code freeText)));
             ("chatgpt.hasPreviousAnswer",
              Js.string_of_bool (Js.truthy (previousAnswer freeText)))];
          showErrorMessage missingKeyText ["存储在会话中（推荐）"; "打开设置"]].
Proof.
  apply (keyless_request_only_asks_for_the_key "q" freeText keylessHost "id1"
           (constructor keylessHost)); vm_compute; reflexivity.
Defined.

(** X24: the guard opens again as soon as a client call has settled or the
    request was stopped: the next call of [sendApiRequest], the follow-up of
    a continuation included, is not turned away. *)
Theorem guard_reopens_after_settle_or_stop (path : ClientPath) (r : Request)
    (s : Settlement) (w : World) (prompt : string) (options : Options) (host : Host)
    (randomId : string) :
  fst (sendApiRequest prompt options host randomId (settle path r s w)) <> rejected
  /\ fst (sendApiRequest prompt options host randomId (stopGenerating w)) <> rejected
  /\ fst (continueAndCombine r host randomId (settle path r s w)) <> rejected.
Proof.
  assert (Hopen : forall p o w0, inProgress (self w0) = false ->
                    fst (sendApiRequest p o host randomId w0) <> rejected).
  { intros p o w0 Hidle.
    destruct (sendApiRequest p o host randomId w0) as [out w1] eqn:H. cbn [fst].
    intros ->. destruct (sendApiRequest_spec _ _ _ _ _ _ _ H) as [Hbusy _].
    rewrite Hidle in Hbusy. discriminate Hbusy. }
  assert (Hsettled : inProgress (self (settle path r s w)) = false).
  { destruct s as [result|error|]; cbn [settle].
    - destruct (fulfilled_self path r result w) as [left ->]. reflexivity.
    - destruct (rejected_self r error w) as [left ->]. reflexivity.
    - destruct (nullish_self w) as [left ->]. reflexivity. }
  split; [apply Hopen; exact Hsettled|]. split.
  - apply Hopen. destruct (stopGenerating_self w) as [left ->]. reflexivity.
  - unfold continueAndCombine. apply Hopen. exact Hsettled.
Qed.

(** X25: the in-flight flag does not know whose request is in flight.  When
    a request is stopped and a second one is accepted before the client call
    of the first has ended, the late end of the first still runs its
    [finally] block: it clears the flag while the second client call is
    pending and its signal not aborted, and the guard then lets a third
    request through. *)
Theorem late_settlement_opens_the_guard_early (prompt : string) (options : Options)
    (host : Host) (randomId : string) (w : World) (path : ClientPath) (r : Request)
    (w1 : World) (prompt' : string) (options' : Options) (host' : Host)
    (randomId' : string) (path' : ClientPath) (r' : Request) (w2 : World)
    (s : Settlement) :
  sendApiRequest prompt options host randomId w = (awaiting path r, w1) ->
  sendApiRequest prompt' options' host' randomId' (stopGenerating w1)
  = (awaiting path' r', w2) ->
  inProgress (self w2) = true
  /\ inProgress (self (settle path r s w2)) = false
  /\ aborted (req_signal r') (settle path r s w2) = false
  /\ forall prompt3 options3 host3 randomId3,
       fst (sendApiRequest prompt3 options3 host3 randomId3 (settle path r s w2))
       <> rejected.
Proof.
  intros _ H2.
  destruct (sendApiRequest_spec _ _ _ _ _ _ _ H2)
    as (_ & Hbusy & _ & _ & _ & Hsignals & _ & Hsignal & _).
  split; [exact Hbusy|].
  assert (Hsettled : inProgress (self (settle path r s w2)) = false).
  { destruct s as [result|error|]; cbn [settle].
    - destruct (fulfilled_self path r result w2) as [left ->]. reflexivity.
    - destruct (rejected_self r error w2) as [left ->]. reflexivity.
    - destruct (nullish_self w2) as [left ->]. reflexivity. }
  split; [exact Hsettled|]. split.
  - unfold aborted.
    assert (Hsame : signals (settle path r s w2) = signals w2)
      by (destruct s;
          [apply fulfilled_signals | apply rejected_signals | apply nullish_signals]).
    rewrite Hsame, Hsignals, nth_app_false, Hsignal. apply nth_overflow. lia.
  - intros prompt3 options3 host3 randomId3.
    destruct (sendApiRequest prompt3 options3 host3 randomId3 (settle path r s w2))
      as [out w3] eqn:H3.
    cbn [fst]. intros ->. destruct (sendApiRequest_spec _ _ _ _ _ _ _ H3) as [Hb _].
    rewrite Hsettled in Hb. discriminate Hb.
Qed.

Lemma late_settlement_opens_the_guard_early_witness :
  inProgress
    (self (snd (sendApiRequest "again" freeText gpt4Host "id2"
                  (stopGenerating (snd gpt4Asked))))) = true
  /\ inProgress
       (self (settle viaGpt35 gpt4Request (rejects abortError)
                (snd (sendApiRequest "again" freeText gpt4Host "id2"
                        (stopGenerating (snd gpt4Asked)))))) = false
  /\ aborted (req_signal secondRequest)
       (settle viaGpt35 gpt4Request (rejects abortError)
          (snd (sendApiRequest "again" freeText gpt4Host "id2"
                  (stopGenerating (snd gpt4Asked))))) = false
  /\ forall prompt3 options3 host3 randomId3,
       fst (sendApiRequest prompt3 options3 host3 randomId3
              (settle viaGpt35 gpt4Request (rejects abortError)
                 (snd (sendApiRequest "again" freeText gpt4Host "id2"
                         (stopGenerating (snd gpt4Asked))))))
       <> rejected.
Proof.
  apply (late_settlement_opens_the_guard_early "q" freeText gpt4Host "id1"
           (constructor gpt4Host) viaGpt35 gpt4Request (snd gpt4Asked)
           "again" freeText gpt4Host "id2" viaGpt35 secondRequest
           (snd (sendApiRequest "again" freeText gpt4Host "id2"
                   (stopGenerating (snd gpt4Asked))))
           (rejects abortError)); vm_compute; reflexivity.
Defined.

(** X26: the partial answers of a request and its final answer are labelled
    differently.  Whatever runs in between, a progress callback publishes its
    text under the identifier stored before the request began (the previous
    answer's, or none in a new conversation), while the final answer is
    published under the random identifier drawn for the request. *)
Theorem partial_and_final_answers_differ_in_id (prompt : string) (options : Options)
    (host : Host) (randomId : string) (w : World) (path : ClientPath) (r : Request)
    (w1 : World) (es : list Interleaved) (partialText : string) (result : ChatMessage) :
  sendApiRequest prompt options host randomId w = (awaiting path r, w1) ->
  publishedMessages
    (since (run path r es w1) (onProgress path r partialText (run path r es w1)))
  = [addResponse partialText false
       match path with
       | viaGpt35 => conversationId (self w)
       | viaGpt3 => messageId (self w)
       end
       (autoScroll (self (run path r es w1))) (req_responseInMarkdown r)]
  /\ publishedMessages
       (since (run path r es w1)
          (sendApiRequest_fulfilled path r result (run path r es w1)))
     = [addResponse (finalText (previousAnswer (req_options r)) (res_text result)) true
          (Some randomId) (autoScroll (self (run path r es w1)))
          (req_responseInMarkdown r);
        showInProgress false None].
Proof.
  intros H.
  destruct (sendApiRequest_spec _ _ _ _ _ _ _ H) as (_ & _ & Hconv & Hmsg & _).
  destruct (run_ids path r es w1) as [Hc Hm].
  pose proof (run_currentMessageId path r es w1) as Hid.
  rewrite (awaiting_currentMessageId _ _ _ _ _ _ _ _ H) in Hid.
  split.
  - rewrite (since_app _ _ _ (onProgress_trace path r partialText (run path r es w1))).
    rewrite publishedMessages_emitted, Hc, Hm, Hconv, Hmsg. reflexivity.
  - destruct (fulfilled_trace path r result (run path r es w1))
      as (delta & Htrace & Hpub & _).
    rewrite (since_app _ _ _ Htrace), Hpub, Hid. reflexivity.
Qed.

Lemma partial_and_final_answers_differ_in_id_witness :
  publishedMessages
    (since (run viaGpt35 gpt4Request [progress "He"] (snd gpt4Asked))
       (onProgress viaGpt35 gpt4Request "Hell"
          (run viaGpt35 gpt4Request [progress "He"] (snd gpt4Asked))))
  = [addResponse "Hell" false
       (conversationId (self (constructor gpt4Host)))
       (autoScroll (self (run viaGpt35 gpt4Request [progress "He"] (snd gpt4Asked))))
       (req_responseInMarkdown gpt4Request)]
  /\ publishedMessages
       (since (run viaGpt35 gpt4Request [progress "He"] (snd gpt4Asked))
          (sendApiRequest_fulfilled viaGpt35 gpt4Request (answer "Hello")
             (run viaGpt35 gpt4Request [progress "He"] (snd gpt4Asked))))
     = [addResponse
          (finalText (previousAnswer (req_options gpt4Request))
             (res_text (answer "Hello"))) true
          (Some "id1")
          (autoScroll (self (run viaGpt35 gpt4Request [progress "He"] (snd gpt4Asked))))
          (req_responseInMarkdown gpt4Request);
        showInProgress false None].
Proof.
  apply (partial_and_final_answers_differ_in_id "q" freeText gpt4Host "id1"
           (constructor gpt4Host) viaGpt35 gpt4Request (snd gpt4Asked)
           [progress "He"] "Hell" (answer "Hello")).
  vm_compute. reflexivity.
Defined.
